(** * Perry: document masking servers and URL classifier

    A shallow embedding of the four Python servers of the repository

    - [document_masking_server.py]  (module [DocumentMasking]),
    - [pan_masking_server.py]       (module [PanMasking]),
    - [unified_pii_server.py]       (module [Unified]),
    - [ml_api_server.py]            (module [MlApi]),

    and the properties of the masking pipeline and of the URL classifier
    stated over it.

    Conventions of the embedding.
    - A Python exception is a value [Raise msg] of [result]; [msg] is what
      [str(e)] gives.  A [try: ... except Exception] block is a [match] on
      the [result] of its body.
    - Module globals ([model], [aadhar_model], ...) are fields of a state
      record that is passed explicitly; a function that reads or assigns a
      global has type [M S A].
    - An image (a numpy array of shape H x W x channels) is the list of its
      rows, a row the list of its pixels; a pixel stands for the channel
      bytes at one position.
    - The libraries the servers call are parameters: [GaussianBlur] is
      [cv2.GaussianBlur(_, (51, 51), 30)], [YOLO] is the constructor of
      ultralytics' detector, a [detector] is the call
      [model(img, save=False, conf=0.5)].
    - [print] statements (console diagnostics) are not modelled. *)

From Stdlib Require Import ZArith QArith Ascii String Lia.
From stdpp Require Import base list strings pretty gmap.

Local Open Scope string_scope.
Local Open Scope Z_scope.
Local Open Scope list_scope.

(** ** Exceptions and state *)

Inductive result (A : Type) : Type :=
| Ok (a : A)
| Raise (msg : string).
Arguments Ok {A} a.
Arguments Raise {A} msg.

Definition bind_result {A B} (r : result A) (k : A -> result B) : result B :=
  match r with
  | Ok a => k a
  | Raise e => Raise e
  end.

Notation "'do' x <- e ; k" := (bind_result e (fun x => k))
  (at level 10, x pattern, e at level 100, k at level 200).

(** A computation over the globals [S]: the globals persist when the
    computation raises, as Python's do. *)
Definition M (S A : Type) : Type := S -> result A * S.

Definition ret {S A} (a : A) : M S A := fun s => (Ok a, s).

Definition bind {S A B} (m : M S A) (k : A -> M S B) : M S B :=
  fun s =>
    match m s with
    | (Ok a, s') => k a s'
    | (Raise e, s') => (Raise e, s')
    end.

Definition lift {S A} (r : result A) : M S A := fun s => (r, s).

(** [try: body except Exception as e: handler(e)] *)
Definition try_except {S A} (body : M S A) (handler : string -> M S A) : M S A :=
  fun s =>
    match body s with
    | (Ok a, s') => (Ok a, s')
    | (Raise e, s') => handler e s'
    end.

Notation "'let*' x ':=' e 'in' k" := (bind e (fun x => k))
  (at level 10, x pattern, e at level 100, k at level 200).

(** [for x in xs: acc = body(acc, x)], stopping at the first exception. *)
Fixpoint for_each {A B} (body : B -> A -> result B) (xs : list A) (acc : B) : result B :=
  match xs with
  | [] => Ok acc
  | x :: xs' => do acc' <- body acc x; for_each body xs' acc'
  end.

(** ** Python slices

    [slice_indices len lo hi] is [slice(lo, hi).indices(len)] for step 1: a
    negative index counts from the end, every index is clamped to
    [0 .. len]; the slice is empty when the stop is not after the start. *)

Definition adjust_index (len i : Z) : Z :=
  if i <? 0 then Z.max 0 (i + len) else Z.min i len.

Definition slice_indices (len : nat) (lo hi : Z) : nat * nat :=
  let start := adjust_index (Z.of_nat len) lo in
  let stop := adjust_index (Z.of_nat len) hi in
  (Z.to_nat start, Z.to_nat (Z.max start stop)).

(** [l[start:stop]] on adjusted indices. *)
Definition cut {A} (l : list A) (ix : nat * nat) : list A :=
  take (ix.2 - ix.1)%nat (drop ix.1 l).

(** ** Images *)

Abbreviation row pixel := (list pixel) (only parsing).
Abbreviation image pixel := (list (list pixel)) (only parsing).

Section Images.
Context {pixel : Type}.

(** [img.shape[0]], [img.shape[1]] and [img.size] (counted in pixels).
    The width is read off the first row; an array without rows is given
    the width 0. *)
Definition shape0 (img : image pixel) : Z := Z.of_nat (length img).
Definition shape1 (img : image pixel) : Z :=
  match img with
  | [] => 0
  | r :: _ => Z.of_nat (length r)
  end.
Definition width (img : image pixel) : nat := Z.to_nat (shape1 img).
Definition size (img : image pixel) : Z := shape0 img * shape1 img.

(** Every row of an array has the array's width. *)
Definition rectangular (img : image pixel) : Prop :=
  Forall (fun r => length r = width img) img.

Definition pixel_at (img : image pixel) (y x : nat) : option pixel :=
  match img !! y with
  | Some r => r !! x
  | None => None
  end.

(** [img[y1:y2, x1:x2]] *)
Definition getitem (img : image pixel) (y1 y2 x1 x2 : Z) : image pixel :=
  let ys := slice_indices (length img) y1 y2 in
  let xs := slice_indices (width img) x1 x2 in
  (fun r => cut r xs) <$> cut img ys.

(** Two arrays have the same shape: as many rows, and row by row as
    many pixels. *)
Fixpoint same_shape (a b : image pixel) : bool :=
  match a, b with
  | [], [] => true
  | r :: a', v :: b' => (length r =? length v)%nat && same_shape a' b'
  | _, _ => false
  end.

(** [img[y1:y2, x1:x2] = value]: numpy copies [value] into the selected
    rectangle and raises when the shapes differ (broadcasting of a
    smaller array is not modelled: the value written by the servers is
    the output of GaussianBlur on that very rectangle). *)
Definition setitem (img : image pixel) (y1 y2 x1 x2 : Z) (value : image pixel) : result (image pixel) :=
  let ys := slice_indices (length img) y1 y2 in
  let xs := slice_indices (width img) x1 x2 in
  if same_shape (getitem img y1 y2 x1 x2) value then
    Ok (take ys.1 img
        ++ zip_with (fun r v => take xs.1 r ++ v ++ drop xs.2 r) (cut img ys) value
        ++ drop ys.2 img)
  else Raise "could not broadcast input array".

End Images.

(** ** Detections

    One row of ultralytics' [Boxes]: the corner coordinates ([xyxy]), the
    confidence and the class id, all floats.  [int] is Python's conversion
    of a float to an integer, which truncates toward zero. *)

Record Box : Type := mkBox {
  bx1 : Q; by1 : Q; bx2 : Q; by2 : Q;
  conf : Q;
  cls : Q
}.

Definition int (q : Q) : Z := Z.quot (Qnum q) (Z.pos (Qden q)).

(** One element of the list a detector returns: the image it ran on and
    its boxes ([r.boxes] may be [None]). *)
Record Results {pixel : Type} : Type := mkResults {
  orig_img : image pixel;
  boxes : option (list Box)
}.
Arguments Results : clear implicits.

(** [model(img, save=False, conf=0.5)] *)
Definition detector (pixel : Type) : Type := image pixel -> result (list (Results pixel)).

(** What a request leaves in [RESULTS_FOLDER]. *)
Inductive artifact (pixel : Type) : Type :=
| PdfFile (pages : list (image pixel))
| ImageFile (img : image pixel).
Arguments PdfFile {pixel} pages.
Arguments ImageFile {pixel} img.

(** An upload after [file.save(input_path)]: its name without extension
    and what decoding the saved file gives.  For a name ending in [.pdf]
    that is the outcome of [process_pdf_to_images] (PyMuPDF raises on a
    file it cannot open), for any other the value of [cv2.imread] ([None]
    when the file cannot be read). *)
Inductive upload (pixel : Type) : Type :=
| PdfUpload (base_name : string) (decoded : result (list (image pixel)))
| ImageUpload (base_name : string) (decoded : option (image pixel)).
Arguments PdfUpload {pixel} base_name decoded.
Arguments ImageUpload {pixel} base_name decoded.

(** The JSON body and status code of a response. *)
Inductive body : Type :=
| ErrorBody (error : string)
| SuccessBody (message : string) (detections : Z) (output_file : string) (download_url : string).

Record response : Type := mkResponse { json : body; status : Z }.

Definition RESULTS_FOLDER : string := "masked_results".

(** [os.path.join(RESULTS_FOLDER, name)] *)
Definition join (folder name : string) : string := (folder ++ "/" ++ name)%string.

(** ** The masking engine and the dispatcher *)

Section Masking.
Context {pixel : Type}.
Variable GaussianBlur : image pixel -> result (image pixel).
Variable YOLO : string -> result (detector pixel).

Section Globals.
Context {S : Type}.

(** A body under [try: ... except Exception: return default]. *)
Definition try_default {A} (body : M S A) (default : A) : S -> A * S :=
  fun s =>
    match body s with
    | (Ok a, s') => (a, s')
    | (Raise _, s') => (default, s')
    end.

(** The four loaders ([load_model] twice, [load_aadhar_model],
    [load_pan_model]) are one text over different globals:
<<
    global model
    if model is None:
        try:    model = YOLO(MODEL_PATH)
        except Exception as e: raise e
    return model
>> *)
Definition load_global (get : S -> option (detector pixel))
    (set : option (detector pixel) -> S -> S) (path : string) : M S (detector pixel) :=
  fun s =>
    match get s with
    | None =>
        match YOLO path with
        | Ok m => (Ok m, set (Some m) s)
        | Raise e => (Raise e, s)
        end
    | Some m => (Ok m, s)
    end.

(** *** Clipping engine: [pan_masking_server.py] 74-121 and
    [unified_pii_server.py] 241-290 *)

(** Lines 91-97 (263-269): the corners as integers, brought inside the
    image. *)
Definition clip_to_bounds (img : image pixel) (box : Box) : Z * Z * Z * Z :=
  let x1 := int (bx1 box) in
  let y1 := int (by1 box) in
  let x2 := int (bx2 box) in
  let y2 := int (by2 box) in
  let x1 := Z.max 0 x1 in
  let y1 := Z.max 0 y1 in
  let x2 := Z.min (shape1 img) x2 in
  let y2 := Z.min (shape0 img) y2 in
  (x1, y1, x2, y2).

(** The body of [for box, conf, cls in zip(boxes, confs, clss)]. *)
Definition mask_box (img : image pixel) (acc : image pixel * Z) (box : Box)
    : result (image pixel * Z) :=
  let '(masked_img, detection_count) := acc in
  let '(x1, y1, x2, y2) := clip_to_bounds img box in
  if (x2 >? x1) && (y2 >? y1) then
    let roi := getitem masked_img y1 y2 x1 x2 in
    if size roi >? 0 then
      do masked_roi <- GaussianBlur roi;
      do masked_img <- setitem masked_img y1 y2 x1 x2 masked_roi;
      Ok (masked_img, detection_count + 1)
    else Ok (masked_img, detection_count)
  else Ok (masked_img, detection_count).

(** The body of [for r in results]. *)
Definition mask_result (img : image pixel) (acc : image pixel * Z) (r : Results pixel)
    : result (image pixel * Z) :=
  match boxes r with
  | Some bs =>
      if (0 <? Z.of_nat (length bs)) then for_each (mask_box img) bs acc else Ok acc
  | None => Ok acc
  end.

Definition mask_clipped (load : M S (detector pixel)) (img : image pixel)
    : S -> (image pixel * Z) * S :=
  try_default
    (let* model := load in
     let* results := lift (model img) in
     let masked_img := img in
     let detection_count := 0 in
     lift (for_each (mask_result img) results (masked_img, detection_count)))
    (img, 0).

(** *** Engine of [document_masking_server.py] 71-95 *)

(** The body of [for box in boxes]: no clipping, the slice is taken at
    the detector's coordinates. *)
Definition blur_box (processed_img : image pixel) (box : Box) : result (image pixel) :=
  let x1 := int (bx1 box) in
  let y1 := int (by1 box) in
  let x2 := int (bx2 box) in
  let y2 := int (by2 box) in
  let roi := getitem processed_img y1 y2 x1 x2 in
  do masked_roi <- GaussianBlur roi;
  setitem processed_img y1 y2 x1 x2 masked_roi.

(** [for r in results] returns inside its first iteration. *)
Definition mask_unclipped (load : M S (detector pixel)) (img : image pixel)
    : S -> (image pixel * Z) * S :=
  try_default
    (let* model := load in
     let* results := lift (model img) in
     match results with
     | r :: _ =>
         let processed_img := orig_img r in
         let boxes := match boxes r with Some bs => bs | None => [] end in
         let detection_count := Z.of_nat (length boxes) in
         let* processed_img := lift (for_each blur_box boxes processed_img) in
         ret (processed_img, detection_count)
     | [] => ret (img, 0)
     end)
    (img, 0).

(** *** Dispatcher: the four endpoints [mask_document],
    [mask_pan_document] (twice) and [mask_aadhar_document] are one text
    over the masking function, the file suffix and the message. *)

(** [for i, img in enumerate(images)]: mask, append, add up. *)
Fixpoint mask_pages (mask : image pixel -> S -> (image pixel * Z) * S)
    (images : list (image pixel)) (masked_images : list (image pixel))
    (total_detections : Z) : S -> (list (image pixel) * Z) * S :=
  fun s =>
    match images with
    | [] => ((masked_images, total_detections), s)
    | img :: rest =>
        let '((masked_img, detections), s') := mask img s in
        mask_pages mask rest (masked_images ++ [masked_img])
          (total_detections + detections) s'
    end.

(** [images_to_pdf]: nothing is saved for an empty list. *)
Definition images_to_pdf (images : list (image pixel)) (output_path : string)
    : option (string * artifact pixel) :=
  match images with
  | [] => None
  | _ :: _ => Some (output_path, PdfFile images)
  end.

(** The endpoint after the upload is saved.  It returns the response
    and the file written under [RESULTS_FOLDER], if any. *)
Definition mask_endpoint (mask : image pixel -> S -> (image pixel * Z) * S)
    (suffix : string) (message : Z -> string) (u : upload pixel)
    : S -> (response * option (string * artifact pixel)) * S :=
  fun s =>
    match u with
    | PdfUpload base_name (Raise e) =>
        ((mkResponse (ErrorBody ("Processing failed: " ++ e)%string) 500, None), s)
    | PdfUpload base_name (Ok images) =>
        let '((masked_images, total_detections), s') := mask_pages mask images [] 0 s in
        let output_file := (base_name ++ suffix ++ ".pdf")%string in
        let output_path := join RESULTS_FOLDER output_file in
        ((mkResponse
            (SuccessBody (message total_detections) total_detections output_file
               ("/download/" ++ output_file)%string) 200,
          images_to_pdf masked_images output_path), s')
    | ImageUpload base_name None =>
        ((mkResponse (ErrorBody "Could not read image file") 400, None), s)
    | ImageUpload base_name (Some img) =>
        let '((masked_img, total_detections), s') := mask img s in
        let output_file := (base_name ++ suffix ++ ".jpg")%string in
        let output_path := join RESULTS_FOLDER output_file in
        ((mkResponse
            (SuccessBody (message total_detections) total_detections output_file
               ("/download/" ++ output_file)%string) 200,
          Some (output_path, ImageFile masked_img)), s')
    end.

End Globals.
End Masking.

(** ** [document_masking_server.py] *)

Module DocumentMasking.

Record globals {pixel : Type} : Type := mkGlobals { model : option (detector pixel) }.
Arguments globals : clear implicits.

Definition MODEL_PATH : string := "D:\Ideathon\perry 3\runs\detect\train25\weights\best.pt".

Section Server.
Context {pixel : Type}.
Variable GaussianBlur : image pixel -> result (image pixel).
Variable YOLO : string -> result (detector pixel).

Definition load_model : M (globals pixel) (detector pixel) :=
  load_global YOLO model (fun m _ => mkGlobals pixel m) MODEL_PATH.

Definition mask_pii_in_image (img : image pixel)
    : globals pixel -> (image pixel * Z) * globals pixel :=
  mask_unclipped GaussianBlur load_model img.

Definition mask_document (u : upload pixel)
    : globals pixel -> (response * option (string * artifact pixel)) * globals pixel :=
  mask_endpoint mask_pii_in_image "_masked"
    (fun total_detections =>
       "Document processed successfully! " ++ pretty total_detections
       ++ " PII regions masked.")%string
    u.
End Server.

End DocumentMasking.

(** ** [pan_masking_server.py] *)

Module PanMasking.

Record globals {pixel : Type} : Type := mkGlobals { model : option (detector pixel) }.
Arguments globals : clear implicits.

Definition MODEL_PATH : string := "D:\Ideathon\pan\runs\detect\train2\weights\best.pt".

Section Server.
Context {pixel : Type}.
Variable GaussianBlur : image pixel -> result (image pixel).
Variable YOLO : string -> result (detector pixel).

Definition load_model : M (globals pixel) (detector pixel) :=
  load_global YOLO model (fun m _ => mkGlobals pixel m) MODEL_PATH.

Definition mask_pan_in_image (img : image pixel)
    : globals pixel -> (image pixel * Z) * globals pixel :=
  mask_clipped GaussianBlur load_model img.

Definition mask_pan_document (u : upload pixel)
    : globals pixel -> (response * option (string * artifact pixel)) * globals pixel :=
  mask_endpoint mask_pan_in_image "_pan_masked"
    (fun total_detections =>
       "PAN card masked successfully! " ++ pretty total_detections
       ++ " PII regions detected and masked.")%string
    u.
End Server.

End PanMasking.

(** ** The URL classifier of [ml_api_server.py] and [unified_pii_server.py] *)

(** The dictionary [classify_url] returns; the failure records have no
    ["classification"] key. *)
Record verdict : Type := mkVerdict {
  isGovernment : bool;
  confidence : Q;
  isUnsafe : bool;
  reason : string;
  classification : option string
}.

(** A joblib-loaded vectorizer and classifier over feature matrices [X].
    [*_bool] is the object's truth value ([bool(obj)]), a label is given by
    its [str], [predict_proba] is absent when the classifier has no such
    attribute; the calls return one entry per input row. *)
Record vectorizer_obj (X : Type) : Type := mkVectorizer {
  vectorizer_bool : bool;
  transform : list string -> result X
}.
Arguments vectorizer_bool {X} _.
Arguments transform {X} _ _.

Record model_obj (X : Type) : Type := mkModel {
  model_bool : bool;
  predict : X -> result (list string);
  predict_proba : option (X -> result (list (list Q)))
}.
Arguments model_bool {X} _.
Arguments predict {X} _ _.
Arguments predict_proba {X} _.

(** [not obj] for a global that is [None] or an object. *)
Definition py_not {A} (truth : A -> bool) (o : option A) : bool :=
  match o with
  | None => true
  | Some a => negb (truth a)
  end.

(** [xs[0]] on the array a scikit-learn call returns; numpy's [IndexError]
    for an empty one. *)
Definition first {A} (xs : list A) : result A :=
  match xs with
  | x :: _ => Ok x
  | [] => Raise "index 0 is out of bounds for axis 0 with size 0"
  end.

(** [max(proba)]: the first of the largest entries; [ValueError] on an
    empty sequence. *)
Definition py_max (proba : list Q) : result Q :=
  match proba with
  | [] => Raise "max() arg is an empty sequence"
  | p :: ps => Ok (foldl (fun m x => if Qle_bool x m then m else x) p ps)
  end.

(** [str.lower] on the labels' alphabet (ASCII). *)
Definition lower_ascii (c : ascii) : ascii :=
  let n := nat_of_ascii c in
  if ((65 <=? n) && (n <=? 90))%nat then ascii_of_nat (n + 32) else c.

Fixpoint lower (s : string) : string :=
  match s with
  | EmptyString => EmptyString
  | String c s' => String (lower_ascii c) (lower s')
  end.

(** [needle in hay] *)
Fixpoint in_str (needle hay : string) : bool :=
  String.prefix needle hay ||
  match hay with
  | EmptyString => false
  | String _ hay' => in_str needle hay'
  end.

Section Classifier.
Context {X : Type}.

(** Lines 99-106 (137-143): 0.8 unless the classifier has a
    [predict_proba] and both it and [max] succeed; the bare
    [except: pass] swallows the rest. *)
Definition confidence_score (model : option (model_obj X)) (X_new : X) : Q :=
  let confidence := 0.8%Q in
  match model with
  | Some {| predict_proba := Some call |} =>
      match (do rows <- call X_new; do proba <- first rows; py_max proba) with
      | Ok confidence => confidence
      | Raise _ => confidence
      end
  | _ => confidence
  end.

(** Attribute access on a global: [None] has no methods. *)
Definition attr {A B} (o : option A) (name : string) (method : A -> result B) : result B :=
  match o with
  | Some a => method a
  | None => Raise ("'NoneType' object has no attribute '" ++ name ++ "'")%string
  end.

Definition classify_with (not_loaded : string)
    (model : option (model_obj X)) (vectorizer : option (vectorizer_obj X))
    (url : string) : verdict :=
  match
    if py_not model_bool model || py_not vectorizer_bool vectorizer then
      Ok (mkVerdict false 0.0 true not_loaded None)
    else
      do X_new <- attr vectorizer "transform" (fun v => transform v [url]);
      do prediction <-
        attr model "predict" (fun m => do predictions <- predict m X_new; first predictions);
      let confidence := confidence_score model X_new in
      let pred_str := lower prediction in
      let is_government :=
        in_str "government" pred_str
        || in_str "authorized" pred_str
        || in_str "gov" pred_str
        || in_str "legitimate" pred_str in
      let is_unsafe := negb is_government in
      let reason :=
        if is_government
        then ("✅ SAFE - Legitimate government website: " ++ prediction)%string
        else ("⚠️ UNSAFE - Non-government website: " ++ prediction)%string in
      Ok (mkVerdict is_government confidence is_unsafe reason (Some prediction))
  with
  | Ok v => v
  | Raise e => mkVerdict false 0.0 true ("Error: " ++ e)%string None
  end.
End Classifier.

(** ** [ml_api_server.py] *)

Module MlApi.

Record globals {X : Type} : Type := mkGlobals {
  vectorizer : option (vectorizer_obj X);
  model : option (model_obj X)
}.
Arguments globals : clear implicits.

Definition classify_url {X} (url : string) (g : globals X) : verdict :=
  classify_with "Model not loaded" (model g) (vectorizer g) url.

End MlApi.

(** ** [unified_pii_server.py] *)

Module Unified.

Record globals {X pixel : Type} : Type := mkGlobals {
  vectorizer : option (vectorizer_obj X);
  ml_model : option (model_obj X);
  aadhar_model : option (detector pixel);
  pan_model : option (detector pixel)
}.
Arguments globals : clear implicits.

Definition AADHAR_MODEL_PATH : string :=
  "D:\Ideathon\perry 3\runs\detect\train25\weights\best.pt".
Definition PAN_MODEL_PATH : string :=
  "D:\Ideathon\pan\runs\detect\train2\weights\best.pt".

Definition classify_url {X pixel} (url : string) (g : globals X pixel) : verdict :=
  classify_with "ML model not loaded" (ml_model g) (vectorizer g) url.

Section Server.
Context {X pixel : Type}.
Variable GaussianBlur : image pixel -> result (image pixel).
Variable YOLO : string -> result (detector pixel).

Definition load_aadhar_model : M (globals X pixel) (detector pixel) :=
  load_global YOLO aadhar_model
    (fun m g => mkGlobals X pixel (vectorizer g) (ml_model g) m (pan_model g))
    AADHAR_MODEL_PATH.

Definition load_pan_model : M (globals X pixel) (detector pixel) :=
  load_global YOLO pan_model
    (fun m g => mkGlobals X pixel (vectorizer g) (ml_model g) (aadhar_model g) m)
    PAN_MODEL_PATH.

(** Lines 242-247: [if model_type == 'aadhar': ... else: ...] *)
Definition select_model (model_type : string) : M (globals X pixel) (detector pixel) :=
  if String.eqb model_type "aadhar" then load_aadhar_model else load_pan_model.

Definition mask_pii_in_image (img : image pixel) (model_type : string)
    : globals X pixel -> (image pixel * Z) * globals X pixel :=
  mask_clipped GaussianBlur (select_model model_type) img.

Definition mask_aadhar_document (u : upload pixel)
    : globals X pixel -> (response * option (string * artifact pixel)) * globals X pixel :=
  mask_endpoint (fun img => mask_pii_in_image img "aadhar") "_aadhar_masked"
    (fun total_detections =>
       "Aadhar card masked successfully! " ++ pretty total_detections
       ++ " PII regions detected and masked.")%string
    u.

Definition mask_pan_document (u : upload pixel)
    : globals X pixel -> (response * option (string * artifact pixel)) * globals X pixel :=
  mask_endpoint (fun img => mask_pii_in_image img "pan") "_pan_masked"
    (fun total_detections =>
       "PAN card masked successfully! " ++ pretty total_detections
       ++ " PII regions detected and masked.")%string
    u.
End Server.

End Unified.

(** ** Threads in a loader

    Flask serves each request on a thread of its own, and the loaders take
    no lock: between the test [model is None], the construction
    [YOLO(MODEL_PATH)], the assignment of the global and [return model]
    another thread may run.  A thread inside a loader is at one of these
    points; [step i] lets thread [i] take its next step, and [constructed]
    counts the runs of the constructor. *)

Section Threads.
Context {pixel : Type}.
Variable YOLO : string -> result (detector pixel).
Variable path : string.

Inductive frame : Type :=
| Test
| Construct
| Assign (m : detector pixel)
| Return
| Returned (v : option (detector pixel))
| Raised (e : string).

Record world : Type := mkWorld {
  global : option (detector pixel);
  constructed : nat;
  threads : list frame
}.

Definition step (i : nat) (w : world) : option world :=
  match threads w !! i with
  | Some Test =>
      let next := match global w with None => Construct | Some _ => Return end in
      Some (mkWorld (global w) (constructed w) (<[i := next]> (threads w)))
  | Some Construct =>
      let next := match YOLO path with Ok m => Assign m | Raise e => Raised e end in
      Some (mkWorld (global w) (S (constructed w)) (<[i := next]> (threads w)))
  | Some (Assign m) =>
      Some (mkWorld (Some m) (constructed w) (<[i := Return]> (threads w)))
  | Some Return =>
      Some (mkWorld (global w) (constructed w) (<[i := Returned (global w)]> (threads w)))
  | Some (Returned _) | Some (Raised _) | None => None
  end.

(** An interleaving: the threads that step, in order. *)
Fixpoint run (schedule : list nat) (w : world) : option world :=
  match schedule with
  | [] => Some w
  | i :: rest =>
      match step i w with
      | Some w' => run rest w'
      | None => None
      end
  end.

(** A whole call of thread [i] with no other thread in between. *)
Fixpoint steps (fuel : nat) (i : nat) (w : world) : world :=
  match fuel with
  | O => w
  | S fuel' =>
      match step i w with
      | Some w' => steps fuel' i w'
      | None => w
      end
  end.

Definition call (i : nat) (w : world) : world := steps 4 i w.

(** [n] requests arrive before any model is loaded. *)
Definition first_access (n : nat) : world := mkWorld None 0 (replicate n Test).

End Threads.
Arguments frame : clear implicits.
Arguments world : clear implicits.

(** ** Sample data

    Greyscale pages, a stand-in for OpenCV's blur that keeps its two
    documented traits (it rejects an empty source, the output has the size
    of the source) and detectors that report a fixed list of boxes. *)

Module Sample.

Definition total (roi : image Z) : Z := foldr Z.add 0 (concat roi).

Definition mean_blur (roi : image Z) : result (image Z) :=
  if size roi =? 0 then
    Raise "(-215:Assertion failed) !_src.empty() in function 'GaussianBlur'"
  else Ok ((fun r : list Z => (fun _ : Z => total roi / size roi) <$> r) <$> roi).

Definition page : image Z :=
  [ [ 0;  6; 12; 18; 24; 30];
    [36; 42; 48; 54; 60; 66];
    [72; 78; 84; 90; 96; 102];
    [108; 114; 120; 126; 132; 138];
    [144; 150; 156; 162; 168; 174];
    [180; 186; 192; 198; 204; 210] ].

Definition box (x1 y1 x2 y2 : Q) : Box := mkBox x1 y1 x2 y2 0.9 0.

Definition reports (bs : list Box) : detector Z :=
  fun img => Ok [mkResults Z img (Some bs)].

Definition available (d : detector Z) : string -> result (detector Z) :=
  fun _ => Ok d.

Definition unavailable : string -> result (detector Z) :=
  fun path => Raise ("No such file or directory: " ++ path)%string.

(** A box inside the page and a sliver the detector placed between two
    pixel columns: after [int] its corners are (3, 1) and (3, 5). *)
Definition inner : Box := box 1 1 4 4.
Definition sliver : Box := box 3.2 1 3.9 5.

(** A box the detector placed left of and above the page. *)
Definition outside : Box := box (-3) 0 (-1) 2.

(** A vectorizer and a classifier with one label. *)
Definition bag_of_words : vectorizer_obj (list string) :=
  mkVectorizer (list string) true (fun urls => Ok urls).

Definition labels (label : string) : model_obj (list string) :=
  mkModel (list string) true (fun X_new => Ok ((fun _ : string => label) <$> X_new)) None.

(** A classifier whose [predict_proba] raises. *)
Definition unscored (label : string) : model_obj (list string) :=
  mkModel (list string) true (fun X_new => Ok ((fun _ : string => label) <$> X_new))
    (Some (fun _ => Raise "no probabilities")).

End Sample.

(** ** Vocabulary of the properties *)

Section Vocabulary.
Context {pixel : Type}.

(** A region [(x1, y1, x2, y2)] lies within the page and is not empty:
    the invariant the design demands after clipping. *)
Definition within (img : image pixel) (region : Z * Z * Z * Z) : Prop :=
  let '(x1, y1, x2, y2) := region in
  (0 <= x1 /\ x1 < x2 /\ x2 <= shape1 img) /\ (0 <= y1 /\ y1 < y2 /\ y2 <= shape0 img).

(** Pixel [(y, x)] belongs to a region. *)
Definition inside (region : Z * Z * Z * Z) (y x : nat) : Prop :=
  let '(x1, y1, x2, y2) := region in
  (x1 <= Z.of_nat x /\ Z.of_nat x < x2) /\ (y1 <= Z.of_nat y /\ Z.of_nat y < y2).

(** A box survives clipping: positive width and height afterwards. *)
Definition survives (img : image pixel) (box : Box) : bool :=
  let '(x1, y1, x2, y2) := clip_to_bounds img box in
  (x2 >? x1) && (y2 >? y1).

(** The boxes a detector's answer holds, in its order. *)
Definition reported (results : list (Results pixel)) : list Box :=
  r ← results; default [] (boxes r).

(** The boxes the loaded detector reports for a page; none when the
    model cannot be loaded or the inference raises. *)
Definition detections {S} (load : M S (detector pixel)) (img : image pixel) (s : S)
    : list Box :=
  match load s with
  | (Ok model, _) =>
      match model img with
      | Ok results => reported results
      | Raise _ => []
      end
  | (Raise _, _) => []
  end.

(** The post-clip regions of the boxes that survive. *)
Definition regions (img : image pixel) (bs : list Box) : list (Z * Z * Z * Z) :=
  clip_to_bounds img <$> List.filter (survives img) bs.

(** Blurring one region in place: read the slice, blur, write back. *)
Definition blur_region (GaussianBlur : image pixel -> result (image pixel))
    (page : image pixel) (region : Z * Z * Z * Z) : result (image pixel) :=
  let '(x1, y1, x2, y2) := region in
  do blurred <- GaussianBlur (getitem page y1 y2 x1 x2);
  setitem page y1 y2 x1 x2 blurred.

(** The corners of a box as the servers read them: [map(int, box)]. *)
Definition corners (box : Box) : Z * Z * Z * Z :=
  (int (bx1 box), int (by1 box), int (bx2 box), int (by2 box)).

(** The pixels of a region. *)
Definition crop (page : image pixel) (region : Z * Z * Z * Z) : image pixel :=
  let '(x1, y1, x2, y2) := region in getitem page y1 y2 x1 x2.

(** [inner] is a region of positive area inside [outer]; [relative] gives
    it in the coordinates of [outer]. *)
Definition contains (outer inner : Z * Z * Z * Z) : Prop :=
  let '(ox1, oy1, ox2, oy2) := outer in
  let '(ix1, iy1, ix2, iy2) := inner in
  (ox1 <= ix1 /\ ix1 < ix2 /\ ix2 <= ox2) /\ (oy1 <= iy1 /\ iy1 < iy2 /\ iy2 <= oy2).

Definition relative (outer inner : Z * Z * Z * Z) : Z * Z * Z * Z :=
  let '(ox1, oy1, ox2, oy2) := outer in
  let '(ix1, iy1, ix2, iy2) := inner in
  (ix1 - ox1, iy1 - oy1, ix2 - ox1, iy2 - oy1).

(** What OpenCV documents of [GaussianBlur]: on a source that is not
    empty it succeeds, and the output has the size of the source. *)
Definition blur_contract (GaussianBlur : image pixel -> result (image pixel)) : Prop :=
  forall roi, 0 < size roi ->
    exists blurred, GaussianBlur roi = Ok blurred /\ same_shape roi blurred = true.

(** The inference [classify_url] runs on a url, lines 96-97 (133-134):
    the label [model.predict(vectorizer.transform([url]))[0]], or the
    exception one of the calls raises. *)
Definition inference {X} (model : option (model_obj X))
    (vectorizer : option (vectorizer_obj X)) (url : string) : result string :=
  do X_new <- attr vectorizer "transform" (fun v => transform v [url]);
  attr model "predict" (fun m => do predictions <- predict m X_new; first predictions).

(** The label names the trusted category. *)
Definition trusted_label (label : string) : Prop :=
  in_str "government" (lower label) = true
  \/ in_str "authorized" (lower label) = true
  \/ in_str "gov" (lower label) = true
  \/ in_str "legitimate" (lower label) = true.

(** The loaded detector answers for the page with one result that holds
    the boxes [bs] (and the page as its [orig_img]). *)
Definition answers {S} (load : M S (detector pixel)) (img : image pixel) (s : S)
    (bs : list Box) : Prop :=
  exists model s', load s = (Ok model, s') /\ model img = Ok [mkResults pixel img (Some bs)].

(** The [detections] field of a response, when it reports success. *)
Definition reported_total (r : response) : option Z :=
  match json r with
  | SuccessBody _ detections _ _ => Some detections
  | ErrorBody _ => None
  end.

(** The number of boxes that survive clipping, page by page, as the
    dispatcher meets them (the globals change when a model is loaded). *)
Fixpoint survivors {S} (load : M S (detector pixel)) (images : list (image pixel)) (s : S)
    : list Z :=
  match images with
  | [] => []
  | img :: rest =>
      Z.of_nat (length (regions img (detections load img s)))
        :: survivors load rest (load s).2
  end.

(** The detector's [orig_img] is the array it was called on. *)
Definition keeps_orig_img {S} (load : M S (detector pixel)) (img : image pixel) (s : S)
    : Prop :=
  forall model s' results, load s = (Ok model, s') -> model img = Ok results ->
    Forall (fun r => orig_img r = img) results.
End Vocabulary.

(** ** More of Python's [str] and [os.path] *)

(** Some character of the string satisfies [p]. *)
Fixpoint has (p : ascii -> bool) (s : string) : bool :=
  match s with
  | EmptyString => false
  | String c s' => p c || has p s'
  end.

(** The string around its last character that satisfies [p]. *)
Fixpoint split_last (p : ascii -> bool) (s : string) : option (string * string) :=
  match s with
  | EmptyString => None
  | String c s' =>
      match split_last p s' with
      | Some (before, after) => Some (String c before, after)
      | None => if p c then Some (EmptyString, s') else None
      end
  end.

Definition is_dot (c : ascii) : bool := Ascii.eqb c ".".

(** [s.rsplit('.', 1)] *)
Definition rsplit_dot (s : string) : list string :=
  match split_last is_dot s with
  | Some (before, after) => [before; after]
  | None => [s]
  end.

(** [s.endswith(suffix)] *)
Fixpoint endswith (s suffix : string) : bool :=
  String.eqb s suffix ||
  match s with
  | EmptyString => false
  | String _ s' => endswith s' suffix
  end.

(** [os.path.splitext(p)]: the extension starts at the last dot of the
    last path component; dots that lead the component do not start an
    extension.  [is_sep] tells the path separators of the platform. *)
Definition splitext (is_sep : ascii -> bool) (p : string) : string * string :=
  match split_last is_dot p with
  | Some (before, after) =>
      let component :=
        match split_last is_sep before with
        | Some (_, tail) => tail
        | None => before
        end in
      if negb (has is_sep after) && has (fun c => negb (is_dot c)) component
      then (before, String "." after)
      else (p, EmptyString)
  | None => (p, EmptyString)
  end.

(** ** Uploads: validation, naming and the two folders *)

Definition UPLOAD_FOLDER : string := "temp_uploads".

Definition ALLOWED_EXTENSIONS : gset string :=
  {[ "png"; "jpg"; "jpeg"; "pdf" ]}.

(** [allowed_file], the same in the three masking servers:
    ['.' in filename and filename.rsplit('.', 1)[1].lower() in ALLOWED_EXTENSIONS] *)
Definition allowed_file (filename : string) : bool :=
  in_str "." filename &&
  match rsplit_dot filename !! 1%nat with
  | Some extension => bool_decide (lower extension ∈ ALLOWED_EXTENSIONS)
  | None => false
  end.

(** What [request.files['file']] holds: the name the client gave, and
    what the uploaded bytes decode to under each of the two decoders,
    [process_pdf_to_images] and [cv2.imread]. *)
Record FileStorage (pixel : Type) : Type := mkFile {
  filename : string;
  as_pdf : result (list (image pixel));
  as_image : option (image pixel)
}.
Arguments mkFile {pixel} filename as_pdf as_image.
Arguments filename {pixel} _.
Arguments as_pdf {pixel} _.
Arguments as_image {pixel} _.

(** The two folders of a server: the paths present in [UPLOAD_FOLDER] and
    the files of [RESULTS_FOLDER] by path. *)
Record disk (pixel : Type) : Type := mkDisk {
  uploads : gset string;
  results : gmap string (artifact pixel)
}.
Arguments mkDisk {pixel} uploads results.
Arguments uploads {pixel} _.
Arguments results {pixel} _.

(** [cv2.imwrite] and PIL's [save] create or overwrite the file. *)
Definition save_result {pixel} (written : option (string * artifact pixel)) (d : disk pixel)
    : disk pixel :=
  match written with
  | Some (path, a) => mkDisk (uploads d) (<[path := a]> (results d))
  | None => d
  end.

(** The outcomes of the file operations a masking endpoint runs inside its
    [try], in the order in which it runs them: [file.save(input_path)],
    the conversions and PIL's [save] of [images_to_pdf] (run when there is
    a page), [cv2.imwrite], which answers [False] when it wrote nothing,
    and [os.remove(input_path)].  An operation that raises is taken to
    leave the folder as it found it. *)
Record file_ops : Type := mkOps {
  file_save : result unit;
  pdf_save : result unit;
  imwrite : result bool;
  os_remove : result unit
}.

(** [images_to_pdf(masked_images, output_path)] and
    [cv2.imwrite(output_path, masked_img)] under these outcomes; the
    value of [cv2.imwrite] is not looked at. *)
Definition write_result {pixel} (ops : file_ops) (written : option (string * artifact pixel))
    (d : disk pixel) : result (disk pixel) :=
  match written with
  | None => Ok d
  | Some (_, PdfFile _) => do saved <- pdf_save ops; Ok (save_result written d)
  | Some (_, ImageFile _) =>
      do ok <- imwrite ops; Ok (if ok : bool then save_result written d else d)
  end.

(** The reply of the endpoints' [except Exception as e]. *)
Definition processing_failed (e : string) : response :=
  mkResponse (ErrorBody ("Processing failed: " ++ e)%string) 500.

(** The reply of a download: the file as an attachment, or an error. *)
Inductive download_reply (pixel : Type) : Type :=
| Attachment (a : artifact pixel)
| DownloadError (error : string) (status : Z).
Arguments Attachment {pixel} a.
Arguments DownloadError {pixel} error status.

Section Requests.
Context {pixel S : Type}.
(** werkzeug's [secure_filename] and the path separators of the platform. *)
Variable secure_filename : string -> string.
Variable is_sep : ascii -> bool.

(** The whole of a masking endpoint ([mask_document], [mask_pan_document],
    [mask_aadhar_document]) when its file operations succeed: validation,
    [file.save(input_path)], the dispatcher [endpoint] (one of the four
    above), and [os.remove(input_path)], which only the path that answers
    with success reaches.  [mask_request_io] below is the endpoint with
    the outcomes of the file operations. *)
Definition mask_request
    (endpoint : upload pixel -> S -> (response * option (string * artifact pixel)) * S)
    (file : option (FileStorage pixel)) (s : S) (d : disk pixel)
    : response * S * disk pixel :=
  match file with
  | None => (mkResponse (ErrorBody "No file uploaded") 400, s, d)
  | Some file =>
      if String.eqb (filename file) "" then
        (mkResponse (ErrorBody "No file selected") 400, s, d)
      else if negb (allowed_file (filename file)) then
        (mkResponse (ErrorBody "Invalid file type. Only PNG, JPG, JPEG, PDF allowed") 400, s, d)
      else
        let filename := secure_filename (filename file) in
        let input_path := join UPLOAD_FOLDER filename in
        let d := mkDisk ({[input_path]} ∪ uploads d) (results d) in
        let is_pdf := endswith (lower filename) ".pdf" in
        let base_name := (splitext is_sep filename).1 in
        let u :=
          if is_pdf then PdfUpload base_name (as_pdf file)
          else ImageUpload base_name (as_image file) in
        let '((reply, written), s') := endpoint u s in
        let d := save_result written d in
        match json reply with
        | SuccessBody _ _ _ _ => (reply, s', mkDisk (uploads d ∖ {[input_path]}) (results d))
        | ErrorBody _ => (reply, s', d)
        end
  end.

(** The whole of a masking endpoint under the outcomes [ops] of its file
    operations.  Everything from [file.save] on stands in one [try]: an
    operation that raises [e] ends the request with 500 "Processing failed:
    e", after whatever ran before it; the files are written after the
    masking, which may have set the global of the detector, and
    [os.remove] runs after the files are written. *)
Definition mask_request_io (ops : file_ops)
    (endpoint : upload pixel -> S -> (response * option (string * artifact pixel)) * S)
    (file : option (FileStorage pixel)) (s : S) (d : disk pixel)
    : response * S * disk pixel :=
  match file with
  | None => (mkResponse (ErrorBody "No file uploaded") 400, s, d)
  | Some file =>
      if String.eqb (filename file) "" then
        (mkResponse (ErrorBody "No file selected") 400, s, d)
      else if negb (allowed_file (filename file)) then
        (mkResponse (ErrorBody "Invalid file type. Only PNG, JPG, JPEG, PDF allowed") 400, s, d)
      else
        let filename := secure_filename (filename file) in
        let input_path := join UPLOAD_FOLDER filename in
        match file_save ops with
        | Raise e => (processing_failed e, s, d)
        | Ok _ =>
            let d := mkDisk ({[input_path]} ∪ uploads d) (results d) in
            let is_pdf := endswith (lower filename) ".pdf" in
            let base_name := (splitext is_sep filename).1 in
            let u :=
              if is_pdf then PdfUpload base_name (as_pdf file)
              else ImageUpload base_name (as_image file) in
            let '((reply, written), s') := endpoint u s in
            match json reply with
            | ErrorBody _ => (reply, s', d)
            | SuccessBody _ _ _ _ =>
                match write_result ops written d with
                | Raise e => (processing_failed e, s', d)
                | Ok d =>
                    match os_remove ops with
                    | Raise e => (processing_failed e, s', d)
                    | Ok _ => (reply, s', mkDisk (uploads d ∖ {[input_path]}) (results d))
                    end
                end
            end
        end
  end.

(** [download_file] of [pan_masking_server.py] and [unified_pii_server.py];
    [send_file] is the outcome of Flask's [send_file] on the existing
    file. *)
Definition download_file (send_file : result unit) (filename : string) (d : disk pixel)
    : download_reply pixel :=
  let file_path := join RESULTS_FOLDER filename in
  match results d !! file_path with
  | None => DownloadError "File not found" 404
  | Some a =>
      match send_file with
      | Ok _ => Attachment a
      | Raise e => DownloadError ("Download failed: " ++ e)%string 500
      end
  end.

End Requests.

(** ** The endpoints of the classifier *)

(** The JSON object of a request to [/analyze]: its ["url"] and ["domain"]
    entries, [None] for a missing key or a null. *)
Record analyze_json : Type := mkAnalyze {
  url_entry : option string;
  domain_entry : option string
}.

Inductive analyze_body : Type :=
| ErrorJson (error : string)
| VerdictJson (v : verdict).

(** [a or b] on entries: [a] unless it is [None] or empty. *)
Definition py_or (a b : option string) : option string :=
  match a with
  | Some (String _ _) => a
  | _ => b
  end.

(** Lines 156-157 (328-329): a url without scheme gets ["https://"]. *)
Definition with_scheme (url : string) : string :=
  if String.prefix "http://" url || String.prefix "https://" url then url
  else ("https://" ++ url)%string.

(** [result['classification']] *)
Definition classification_of (v : verdict) : result string :=
  match classification v with
  | Some label => Ok label
  | None => Raise "'classification'"
  end.

(** [analyze], the same in [ml_api_server.py] and [unified_pii_server.py];
    [data] is [request.json], which raises on a body that is no JSON. *)
Definition analyze_with (classify_url : string -> verdict) (data : result analyze_json)
    : analyze_body * Z :=
  match
    do data <- data;
    let url := py_or (url_entry data) (Some (default EmptyString (domain_entry data))) in
    match url with
    | Some (String c rest) =>
        let url := with_scheme (String c rest) in
        let result := classify_url url in
        do logged <- classification_of result;
        Ok (VerdictJson result, 200)
    | _ => Ok (ErrorJson "URL required", 400)
    end
  with
  | Ok reply => reply
  | Raise e => (VerdictJson (mkVerdict false 0.0 true ("Server error: " ++ e)%string None), 500)
  end.

Definition test_urls : list string :=
  [ "https://pmindia.gov.in"; "https://google.com"; "https://facebook.com";
    "https://amazon.com"; "https://github.com" ].

(** [test]: classify each sample url and print its classification; the
    endpoint has no [try], so a [KeyError] leaves it. *)
Definition test_with (classify_url : string -> verdict) : result (list (string * verdict)) :=
  for_each
    (fun results url =>
       let result := classify_url url in
       do printed <- classification_of result;
       Ok (results ++ [(url, result)]))
    test_urls [].

(** [result['classification']] does not raise. *)
Definition classified (classify : string -> verdict) (url : string) : bool :=
  match classification (classify url) with
  | Some _ => true
  | None => false
  end.

(** [bool(model and vectorizer)] of [health]. *)
Definition model_loaded {X} (model : option (model_obj X))
    (vectorizer : option (vectorizer_obj X)) : bool :=
  negb (py_not model_bool model) && negb (py_not vectorizer_bool vectorizer).

Module MlApiEndpoints.

Definition analyze {X} (data : result analyze_json) (g : MlApi.globals X) : analyze_body * Z :=
  analyze_with (fun url => MlApi.classify_url url g) data.

Definition test {X} (g : MlApi.globals X) : result (list (string * verdict)) :=
  test_with (fun url => MlApi.classify_url url g).

Definition health {X} (g : MlApi.globals X) : bool :=
  model_loaded (MlApi.model g) (MlApi.vectorizer g).

(** [load_models]: [joblib.load] of the vectorizer, then of the model;
    [False] when either raises.  The arguments are the outcomes of the two
    loads. *)
Definition load_models {X} (vectorizer_file : result (vectorizer_obj X))
    (model_file : result (model_obj X)) (g : MlApi.globals X) : bool * MlApi.globals X :=
  match vectorizer_file with
  | Ok v =>
      match model_file with
      | Ok m => (true, MlApi.mkGlobals X (Some v) (Some m))
      | Raise _ => (false, MlApi.mkGlobals X (Some v) (MlApi.model g))
      end
  | Raise _ => (false, g)
  end.

End MlApiEndpoints.

Module UnifiedEndpoints.

Definition analyze {X pixel} (data : result analyze_json) (g : Unified.globals X pixel)
    : analyze_body * Z :=
  analyze_with (fun url => Unified.classify_url url g) data.

Definition test {X pixel} (g : Unified.globals X pixel) : result (list (string * verdict)) :=
  test_with (fun url => Unified.classify_url url g).

(** ["ml_model_loaded"] of [health]. *)
Definition ml_model_loaded {X pixel} (g : Unified.globals X pixel) : bool :=
  model_loaded (Unified.ml_model g) (Unified.vectorizer g).

Definition load_ml_models {X pixel} (vectorizer_file : result (vectorizer_obj X))
    (model_file : result (model_obj X)) (g : Unified.globals X pixel)
    : bool * Unified.globals X pixel :=
  match vectorizer_file with
  | Ok v =>
      match model_file with
      | Ok m =>
          (true, Unified.mkGlobals X pixel (Some v) (Some m)
                   (Unified.aadhar_model g) (Unified.pan_model g))
      | Raise _ =>
          (false, Unified.mkGlobals X pixel (Some v) (Unified.ml_model g)
                    (Unified.aadhar_model g) (Unified.pan_model g))
      end
  | Raise _ => (false, g)
  end.

End UnifiedEndpoints.

(** ** What a request does to a detector global

    A loader leaves its global as it found it, or sets an unset one to the
    model the constructor returned. *)
Definition loaded_at_most {pixel} (YOLO : string -> result (detector pixel)) (path : string)
    (before after : option (detector pixel)) : Prop :=
  after = before \/ (before = None /\ exists m, YOLO path = Ok m /\ after = Some m).

(** ** [/health] of [pan_masking_server.py]

    The endpoint calls the loader before it answers. *)

Inductive health_body : Type :=
| Healthy (model_loaded : bool)
| Unhealthy (error : string).

Module PanMaskingEndpoints.
Section Server.
Context {pixel : Type}.
Variable YOLO : string -> result (detector pixel).

(** [model is not None] *)
Definition is_not_None (model : option (detector pixel)) : bool :=
  match model with
  | Some _ => true
  | None => false
  end.

Definition health_check : PanMasking.globals pixel -> (health_body * Z) * PanMasking.globals pixel :=
  fun g =>
    match PanMasking.load_model YOLO g with
    | (Ok _, g') => ((Healthy (is_not_None (PanMasking.model g')), 200), g')
    | (Raise e, g') => ((Unhealthy e, 500), g')
    end.
End Server.
End PanMaskingEndpoints.

(** ** Invariant of the threads in a loader *)

Section ThreadInvariant.
Context {pixel : Type}.
Variable YOLO : string -> result (detector pixel).
Variable path : string.

(** What a thread holds at each point is what the constructor gave: a
    model it is about to assign or has returned was built by the
    constructor, an exception is the constructor's, and a thread about to
    return finds the global set. *)
Definition frame_ok (g : option (detector pixel)) (f : frame pixel) : Prop :=
  match f with
  | Test | Construct => True
  | Assign m => YOLO path = Ok m
  | Return => is_Some g
  | Returned v => exists m, v = Some m /\ YOLO path = Ok m
  | Raised e => YOLO path = Raise e
  end.

(** 1 for a thread that is past its test and its construction, if any. *)
Definition past_construct (f : frame pixel) : nat :=
  match f with
  | Test | Construct => 0
  | _ => 1
  end.



Definition world_ok (w : world pixel) : Prop :=
  (forall m, global w = Some m -> YOLO path = Ok m) /\
  Forall (frame_ok (global w)) (threads w) /\
  (constructed w <= sum_list (past_construct <$> threads w))%nat.
End ThreadInvariant.

(** ** Sample requests *)

Module SampleRequests.

(** File names that [secure_filename] leaves as they are, and the
    separators of both platforms. *)
Definition keep (name : string) : string := name.

Definition slash (c : ascii) : bool := Ascii.eqb c "/" || Ascii.eqb c "\".

Definition scan_png : FileStorage Z := mkFile "Card.PNG" (Raise "not a PDF") (Some Sample.page).

Definition empty_disk : disk Z := mkDisk ∅ ∅.

(** Every file operation succeeds; and the same, but [os.remove] raises. *)
Definition all_ok : file_ops := mkOps (Ok tt) (Ok tt) (Ok true) (Ok tt).

Definition remove_denied : file_ops :=
  mkOps (Ok tt) (Ok tt) (Ok true) (Raise "[Errno 13] Permission denied").

End SampleRequests.

Module SampleClassifier.

(** A classifier with class probabilities. *)
Definition scored (label : string) (proba : list Q) : model_obj (list string) :=
  mkModel (list string) true
    (fun X_new => Ok ((fun _ : string => label) <$> X_new))
    (Some (fun X_new => Ok ((fun _ : string => proba) <$> X_new))).

End SampleClassifier.

(** * Properties *)

(** ** Slices and arrays *)

Arguments slice_indices : simpl never.

Section SliceFacts.
Local Open Scope nat_scope.

Lemma adjust_index_range (len i : Z) : (0 <= len -> 0 <= adjust_index len i <= len)%Z.
Proof. unfold adjust_index. destruct (Z.ltb_spec i 0); lia. Qed.

Lemma slice_indices_ordered len lo hi :
  (slice_indices len lo hi).1 ≤ (slice_indices len lo hi).2.
Proof. unfold slice_indices; simpl. lia. Qed.

Lemma slice_indices_bounded len lo hi : (slice_indices len lo hi).2 ≤ len.
Proof.
  unfold slice_indices; simpl.
  pose proof (adjust_index_range (Z.of_nat len) lo).
  pose proof (adjust_index_range (Z.of_nat len) hi). lia.
Qed.

(** Inside the array a slice is taken at its own bounds. *)
Lemma slice_indices_clipped len lo hi :
  (0 <= lo)%Z -> (lo <= hi)%Z -> (hi <= Z.of_nat len)%Z ->
  slice_indices len lo hi = (Z.to_nat lo, Z.to_nat hi).
Proof.
  intros. unfold slice_indices, adjust_index.
  destruct (Z.ltb_spec lo 0), (Z.ltb_spec hi 0); try lia.
  f_equal; lia.
Qed.

Context {A : Type}.
Implicit Types (r v : list A).

Lemma length_cut r a b : length (cut r (a, b)) = min (b - a) (length r - a).
Proof. unfold cut; simpl. rewrite length_take, length_drop. done. Qed.

Lemma lookup_cut r a b i : i < b - a -> cut r (a, b) !! i = r !! (a + i).
Proof. intros. unfold cut; simpl. rewrite lookup_take_lt, lookup_drop; done. Qed.

(** Replacing [r[a:b]] by as many elements keeps the length ... *)
Lemma length_splice r v a b :
  a ≤ b -> length v = length (cut r (a, b)) ->
  length (take a r ++ v ++ drop b r) = length r.
Proof.
  intros Hab Hv. rewrite length_cut in Hv.
  rewrite !length_app, length_take, length_drop. lia.
Qed.

(** ... and every element outside [a .. b) ... *)
Lemma lookup_splice_outside r v a b x :
  a ≤ b -> length v = length (cut r (a, b)) -> x < a \/ b ≤ x ->
  (take a r ++ v ++ drop b r) !! x = r !! x.
Proof.
  intros Hab Hv Hx. rewrite length_cut in Hv.
  destruct (decide (x < length r)) as [Hlt|Hge].
  - destruct Hx as [Hx|Hx].
    + rewrite lookup_app_l by (rewrite length_take; lia).
      by rewrite lookup_take_lt.
    + rewrite lookup_app_r by (rewrite length_take; lia).
      rewrite lookup_app_r by (rewrite length_take; lia).
      rewrite lookup_drop, length_take. f_equal. lia.
  - rewrite (lookup_ge_None_2 r) by lia.
    apply lookup_ge_None_2. rewrite !length_app, length_take, length_drop. lia.
Qed.

(** ... while inside it reads the new elements. *)
Lemma lookup_splice_inside r v a b x :
  a ≤ x -> x < b -> b ≤ length r -> length v = b - a ->
  (take a r ++ v ++ drop b r) !! x = v !! (x - a).
Proof.
  intros Hax Hxb Hb Hv.
  rewrite lookup_app_r by (rewrite length_take; lia).
  rewrite length_take, lookup_app_l by lia. f_equal. lia.
Qed.
End SliceFacts.

Section ArrayFacts.
Local Open Scope nat_scope.
Context {pixel : Type}.
Implicit Types (img out value roi : image pixel) (r v : list pixel).

Lemma same_shape_rows (a b : image pixel) :
  same_shape a b = true <-> Forall2 (fun r v => length r = length v) a b.
Proof.
  revert b. induction a as [|r a IH]; intros [|v b]; simpl; split;
    try done; try (by inversion 1).
  - intros [Hl Hs]%andb_prop. constructor; [by apply Nat.eqb_eq | by apply IH].
  - inversion 1; subst. apply andb_true_intro.
    split; [by apply Nat.eqb_eq | by apply IH].
Qed.

Lemma same_shape_refl (a : image pixel) : same_shape a a = true.
Proof. apply same_shape_rows. by apply Forall_Forall2_diag, Forall_true. Qed.

Lemma width_lookup img : width img = from_option length 0 (img !! 0).
Proof. unfold width, shape1. destruct img; simpl; lia. Qed.

Lemma length_getitem img y1 y2 x1 x2 :
  length (getitem img y1 y2 x1 x2) =
    (slice_indices (length img) y1 y2).2 - (slice_indices (length img) y1 y2).1.
Proof.
  unfold getitem. rewrite length_fmap.
  pose proof (slice_indices_bounded (length img) y1 y2).
  destruct (slice_indices (length img) y1 y2) as [a b]; simpl in *.
  rewrite length_cut. lia.
Qed.

Lemma lookup_getitem img y1 y2 x1 x2 i :
  i < (slice_indices (length img) y1 y2).2 - (slice_indices (length img) y1 y2).1 ->
  getitem img y1 y2 x1 x2 !! i =
    (fun r => cut r (slice_indices (width img) x1 x2))
      <$> img !! ((slice_indices (length img) y1 y2).1 + i).
Proof.
  intros Hi. unfold getitem. rewrite list_lookup_fmap.
  destruct (slice_indices (length img) y1 y2) as [a b]; simpl in *.
  by rewrite lookup_cut.
Qed.

Lemma setitem_Ok img y1 y2 x1 x2 value out a b c d :
  slice_indices (length img) y1 y2 = (a, b) ->
  slice_indices (width img) x1 x2 = (c, d) ->
  setitem img y1 y2 x1 x2 value = Ok out ->
  Forall2 (fun r v => length r = length v)
    ((fun r => cut r (c, d)) <$> cut img (a, b)) value /\
  out = take a img
        ++ zip_with (fun r v => take c r ++ v ++ drop d r) (cut img (a, b)) value
        ++ drop b img.
Proof.
  intros Hys Hxs. unfold setitem, getitem. rewrite Hys, Hxs.
  destruct (same_shape _ value) eqn:Hshape; [|done].
  intros [= <-]. split; [by apply same_shape_rows | done].
Qed.

(** The rows of an assigned array: untouched outside the row slice,
    spliced with the matching row of the value inside it. *)
Lemma setitem_row_outside img y1 y2 x1 x2 value out y :
  setitem img y1 y2 x1 x2 value = Ok out ->
  ¬ ((slice_indices (length img) y1 y2).1 ≤ y < (slice_indices (length img) y1 y2).2) ->
  out !! y = img !! y.
Proof.
  pose proof (slice_indices_bounded (length img) y1 y2) as Hb.
  pose proof (slice_indices_ordered (length img) y1 y2) as Ho.
  destruct (slice_indices (length img) y1 y2) as [a b] eqn:Hys.
  destruct (slice_indices (width img) x1 x2) as [c d] eqn:Hxs.
  simpl in *. intros Hset Hy.
  destruct (setitem_Ok _ _ _ _ _ _ _ _ _ _ _ Hys Hxs Hset) as [Hshape ->].
  apply Forall2_length in Hshape. rewrite length_fmap, length_cut in Hshape.
  assert (length (zip_with (fun r v => take c r ++ v ++ drop d r)
                    (cut img (a, b)) value) = b - a)
    as Hzip by (rewrite length_zip_with, length_cut; lia).
  destruct (decide (y < a)).
  - rewrite lookup_app_l by (rewrite length_take; lia). by rewrite lookup_take_lt.
  - rewrite lookup_app_r by (rewrite length_take; lia).
    rewrite lookup_app_r by (rewrite length_take, Hzip; lia).
    rewrite lookup_drop, length_take, Hzip. f_equal. lia.
Qed.

Lemma setitem_row_inside img y1 y2 x1 x2 value out y :
  setitem img y1 y2 x1 x2 value = Ok out ->
  (slice_indices (length img) y1 y2).1 ≤ y < (slice_indices (length img) y1 y2).2 ->
  exists r v,
    img !! y = Some r /\
    value !! (y - (slice_indices (length img) y1 y2).1) = Some v /\
    length v = length (cut r (slice_indices (width img) x1 x2)) /\
    out !! y = Some (take (slice_indices (width img) x1 x2).1 r ++ v
                     ++ drop (slice_indices (width img) x1 x2).2 r).
Proof.
  pose proof (slice_indices_bounded (length img) y1 y2) as Hb.
  destruct (slice_indices (length img) y1 y2) as [a b] eqn:Hys.
  destruct (slice_indices (width img) x1 x2) as [c d] eqn:Hxs.
  simpl in *. intros Hset Hy.
  destruct (setitem_Ok _ _ _ _ _ _ _ _ _ _ _ Hys Hxs Hset) as [Hshape ->].
  pose proof (Forall2_length _ _ _ Hshape) as Hlen.
  rewrite length_fmap, length_cut in Hlen.
  destruct (lookup_lt_is_Some_2 img y) as [r Hr]; [lia|].
  destruct (lookup_lt_is_Some_2 value (y - a)) as [v Hv]; [lia|].
  assert (cut img (a, b) !! (y - a) = Some r) as Hcut
    by (rewrite lookup_cut by lia; rewrite <- Hr; f_equal; lia).
  exists r, v. split_and!; [done|done| |].
  - symmetry. eapply (Forall2_lookup_lr _ _ _ _ _ _ Hshape); [|done].
    by rewrite list_lookup_fmap, Hcut.
  - rewrite lookup_app_r by (rewrite length_take; lia).
    rewrite length_take, lookup_app_l
      by (rewrite length_zip_with, length_cut; lia).
    replace (y - a `min` length img) with (y - a) by lia.
    by rewrite lookup_zip_with, Hcut, Hv.
Qed.

Lemma setitem_row_length img y1 y2 x1 x2 value out y :
  setitem img y1 y2 x1 x2 value = Ok out ->
  length <$> out !! y = length <$> img !! y.
Proof.
  intros Hset.
  destruct (decide ((slice_indices (length img) y1 y2).1 ≤ y
                    < (slice_indices (length img) y1 y2).2)) as [Hy|Hy].
  - destruct (setitem_row_inside _ _ _ _ _ _ _ _ Hset Hy) as (r & v & -> & _ & Hv & ->).
    pose proof (slice_indices_ordered (width img) x1 x2).
    destruct (slice_indices (width img) x1 x2) as [a b]; simpl in *.
    f_equal. by apply length_splice.
  - by rewrite (setitem_row_outside _ _ _ _ _ _ _ _ Hset Hy).
Qed.

(** Assignment into a slice keeps the shape of the array. *)
Lemma setitem_shape img y1 y2 x1 x2 value out :
  setitem img y1 y2 x1 x2 value = Ok out ->
  length out = length img /\ width out = width img.
Proof.
  intros Hset. split.
  - destruct (decide (length out = length img)) as [|Hne]; [done|exfalso].
    destruct (decide (length out < length img)).
    + pose proof (setitem_row_length _ _ _ _ _ _ _ (length out) Hset) as H.
      rewrite (lookup_ge_None_2 out) in H by lia.
      destruct (lookup_lt_is_Some_2 img (length out)) as [r Hr]; [lia|].
      by rewrite Hr in H.
    + pose proof (setitem_row_length _ _ _ _ _ _ _ (length img) Hset) as H.
      rewrite (lookup_ge_None_2 img) in H by lia.
      destruct (lookup_lt_is_Some_2 out (length img)) as [r Hr]; [lia|].
      by rewrite Hr in H.
  - rewrite !width_lookup.
    pose proof (setitem_row_length _ _ _ _ _ _ _ 0 Hset) as H.
    destruct (out !! 0), (img !! 0); simpl in *; congruence.
Qed.

Lemma setitem_rectangular img y1 y2 x1 x2 value out :
  setitem img y1 y2 x1 x2 value = Ok out -> rectangular img -> rectangular out.
Proof.
  intros Hset Hrect. unfold rectangular in *.
  destruct (setitem_shape _ _ _ _ _ _ _ Hset) as [_ ->].
  apply Forall_lookup. intros y r Hr.
  pose proof (setitem_row_length _ _ _ _ _ _ _ y Hset) as H.
  rewrite Hr in H. destruct (img !! y) as [r'|] eqn:Hr'; [|done].
  simpl in H. injection H as ->. by eapply (Forall_lookup_1 _ _ _ _ Hrect).
Qed.

(** Frame: a pixel outside the assigned rectangle is not written. *)
Lemma setitem_outside img y1 y2 x1 x2 value out y x :
  setitem img y1 y2 x1 x2 value = Ok out ->
  ¬ ((slice_indices (length img) y1 y2).1 ≤ y < (slice_indices (length img) y1 y2).2
     /\ (slice_indices (width img) x1 x2).1 ≤ x < (slice_indices (width img) x1 x2).2) ->
  pixel_at out y x = pixel_at img y x.
Proof.
  intros Hset Hout. unfold pixel_at.
  destruct (decide ((slice_indices (length img) y1 y2).1 ≤ y
                    < (slice_indices (length img) y1 y2).2)) as [Hy|Hy].
  - destruct (setitem_row_inside _ _ _ _ _ _ _ _ Hset Hy) as (r & v & -> & _ & Hv & ->).
    pose proof (slice_indices_ordered (width img) x1 x2).
    destruct (slice_indices (width img) x1 x2) as [a b]; simpl in *.
    apply lookup_splice_outside; [done|done|lia].
  - by rewrite (setitem_row_outside _ _ _ _ _ _ _ _ Hset Hy).
Qed.
End ArrayFacts.

(** ** The clipping engine *)

Section EngineFacts.
Context {pixel : Type}.
Variable GaussianBlur : image pixel -> result (image pixel).
Implicit Types (img page out : image pixel) (box : Box) (region : Z * Z * Z * Z).

Lemma shape1_width img : shape1 img = Z.of_nat (width img).
Proof. unfold width, shape1. destruct img; lia. Qed.

Lemma survives_within img box :
  survives img box = true -> within img (clip_to_bounds img box).
Proof.
  unfold survives, within, clip_to_bounds.
  intros [Hx Hy]%andb_prop. apply Z.gtb_lt in Hx, Hy. lia.
Qed.

(** Within the page a region is sliced at its own corners. *)
Lemma slices_of_region img page x1 y1 x2 y2 :
  within img (x1, y1, x2, y2) ->
  length page = length img -> width page = width img ->
  slice_indices (length page) y1 y2 = (Z.to_nat y1, Z.to_nat y2) /\
  slice_indices (width page) x1 x2 = (Z.to_nat x1, Z.to_nat x2).
Proof.
  unfold within, shape0. rewrite shape1_width. intros [Hx Hy] -> ->.
  split; apply slice_indices_clipped; lia.
Qed.

Lemma size_getitem_pos page x1 y1 x2 y2 :
  rectangular page -> within page (x1, y1, x2, y2) ->
  0 < size (getitem page y1 y2 x1 x2).
Proof.
  intros Hrect Hin.
  destruct (slices_of_region page page _ _ _ _ Hin eq_refl eq_refl) as [Hys Hxs].
  destruct Hin as [Hx Hy]. unfold shape0 in Hy. rewrite shape1_width in Hx.
  unfold getitem. rewrite Hys, Hxs.
  destruct (lookup_lt_is_Some_2 page (Z.to_nat y1)) as [r Hr]; [lia|].
  pose proof (Forall_lookup_1 _ _ _ _ Hrect Hr) as Hlen. simpl in Hlen.
  assert (cut page (Z.to_nat y1, Z.to_nat y2) !! 0%nat = Some r) as Hcut
    by (rewrite lookup_cut by lia; rewrite <- Hr; f_equal; lia).
  destruct (cut page (Z.to_nat y1, Z.to_nat y2)) as [|r' rest]; [done|].
  injection Hcut as ->. unfold size, shape0, shape1. simpl.
  rewrite length_cut. rewrite length_fmap. lia.
Qed.

Lemma blur_region_shape page region out :
  blur_region GaussianBlur page region = Ok out ->
  length out = length page /\ width out = width page.
Proof.
  destruct region as [[[x1 y1] x2] y2]. unfold blur_region.
  destruct (GaussianBlur _) as [blurred|]; [|done]. apply setitem_shape.
Qed.

Lemma blur_region_rectangular page region out :
  blur_region GaussianBlur page region = Ok out -> rectangular page -> rectangular out.
Proof.
  destruct region as [[[x1 y1] x2] y2]. unfold blur_region.
  destruct (GaussianBlur _) as [blurred|]; [|done]. apply setitem_rectangular.
Qed.

(** Frame of one blur: only pixels of the region are written. *)
Lemma blur_region_outside img page region out y x :
  within img region -> length page = length img -> width page = width img ->
  blur_region GaussianBlur page region = Ok out ->
  ¬ inside region y x ->
  pixel_at out y x = pixel_at page y x.
Proof.
  destruct region as [[[x1 y1] x2] y2]. intros Hin Hl Hw Hblur Hout.
  destruct (slices_of_region _ _ _ _ _ _ Hin Hl Hw) as [Hys Hxs].
  unfold blur_region in Hblur.
  destruct (GaussianBlur _) as [blurred|]; [|done].
  apply (setitem_outside _ _ _ _ _ _ _ _ _ Hblur).
  rewrite Hys, Hxs. simpl. unfold inside in Hout.
  destruct Hin as [Hx Hy]. lia.
Qed.

(** One turn of the loop: a box that does not survive clipping is
    skipped, a box that does has its post-clip region blurred and is
    counted. *)
Lemma mask_box_survivor img page n box :
  rectangular page -> length page = length img -> width page = width img ->
  mask_box GaussianBlur img (page, n) box =
    if survives img box
    then do out <- blur_region GaussianBlur page (clip_to_bounds img box); Ok (out, n + 1)
    else Ok (page, n).
Proof.
  intros Hrect Hl Hw. unfold mask_box.
  pose proof (survives_within img box) as Hin. unfold survives in *.
  destruct (clip_to_bounds img box) as [[[x1 y1] x2] y2].
  destruct ((x2 >? x1) && (y2 >? y1)); [|done].
  specialize (Hin eq_refl).
  assert (within page (x1, y1, x2, y2)) as Hin'
    by (unfold within, shape0 in *; rewrite shape1_width in *; rewrite Hl, Hw; done).
  pose proof (size_getitem_pos _ _ _ _ _ Hrect Hin') as Hsize.
  apply Z.gtb_lt in Hsize. rewrite Hsize. unfold blur_region.
  destruct (GaussianBlur _) as [blurred|]; [|done]. simpl.
  by destruct (setitem _ _ _ _ _ _).
Qed.
End EngineFacts.

Section LoopFacts.
Context {pixel : Type}.
Variable GaussianBlur : image pixel -> result (image pixel).
Implicit Types (img page out : image pixel) (box : Box) (bs : list Box).

Lemma for_each_app {A B} (body : B -> A -> result B) (xs ys : list A) (acc : B) :
  for_each body (xs ++ ys) acc = do acc' <- for_each body xs acc; for_each body ys acc'.
Proof.
  revert acc. induction xs as [|x xs IH]; intros acc; simpl; [done|].
  destruct (body acc x); simpl; [apply IH | done].
Qed.

Lemma regions_app img bs1 bs2 :
  regions img (bs1 ++ bs2) = regions img bs1 ++ regions img bs2.
Proof. unfold regions. by rewrite List.filter_app, fmap_app. Qed.

Lemma regions_within img bs : Forall (within img) (regions img bs).
Proof.
  unfold regions. induction bs as [|b bs IH]; simpl; [constructor|].
  destruct (survives img b) eqn:Hb; [|done].
  rewrite fmap_cons. constructor; [by apply survives_within | done].
Qed.

(** Blurring regions one after the other keeps the shape of the page. *)
Lemma blur_regions_shape img regs page out :
  for_each (blur_region GaussianBlur) regs page = Ok out ->
  rectangular page -> length page = length img -> width page = width img ->
  rectangular out /\ length out = length img /\ width out = width img.
Proof.
  revert page. induction regs as [|reg regs IH]; intros page; simpl.
  - by intros [= <-].
  - destruct (blur_region GaussianBlur page reg) as [page'|] eqn:Hreg; [|done].
    simpl. intros Hrest Hrect Hl Hw.
    destruct (blur_region_shape _ _ _ _ Hreg) as [Hl' Hw'].
    apply (IH page' Hrest); [by eapply blur_region_rectangular | congruence..].
Qed.

(** The inner loop blurs the post-clip regions of the surviving boxes,
    in the order of the boxes, and counts exactly those. *)
Lemma for_each_mask_box img bs page n :
  rectangular page -> length page = length img -> width page = width img ->
  for_each (mask_box GaussianBlur img) bs (page, n) =
    do out <- for_each (blur_region GaussianBlur) (regions img bs) page;
    Ok (out, n + Z.of_nat (length (regions img bs))).
Proof.
  revert page n. induction bs as [|b bs IH]; intros page n Hrect Hl Hw.
  - simpl. do 2 f_equal. lia.
  - cbn [for_each]. rewrite mask_box_survivor by done.
    unfold regions in *. cbn [List.filter].
    destruct (survives img b).
    + rewrite fmap_cons. cbn [for_each].
      destruct (blur_region GaussianBlur page _) as [page'|] eqn:Hreg; [|done].
      destruct (blur_region_shape _ _ _ _ Hreg) as [Hl' Hw']. simpl.
      rewrite IH; [|by eapply blur_region_rectangular|congruence..].
      destruct (for_each _ _ page'); simpl; [|done]. do 2 f_equal. lia.
    + simpl. by apply IH.
Qed.

Lemma for_each_mask_result img (results : list (Results pixel)) page n :
  rectangular page -> length page = length img -> width page = width img ->
  for_each (mask_result GaussianBlur img) results (page, n) =
    do out <- for_each (blur_region GaussianBlur) (regions img (reported results)) page;
    Ok (out, n + Z.of_nat (length (regions img (reported results)))).
Proof.
  revert page n. induction results as [|r rs IH]; intros page n Hrect Hl Hw.
  - simpl. do 2 f_equal. lia.
  - cbn [for_each]. unfold reported in *. rewrite bind_cons, regions_app, for_each_app.
    assert (mask_result GaussianBlur img (page, n) r =
            for_each (mask_box GaussianBlur img) (default [] (boxes r)) (page, n)) as ->.
    { unfold mask_result. destruct (boxes r) as [[|b bs]|]; done. }
    rewrite for_each_mask_box by done.
    destruct (for_each (blur_region GaussianBlur) (regions img (default [] (boxes r))) page)
      as [page'|] eqn:Hr; [|done].
    destruct (blur_regions_shape img _ _ _ Hr) as (? & ? & ?); [done..|].
    simpl. rewrite IH by done.
    destruct (for_each _ _ page'); simpl; [|done].
    rewrite length_app. do 2 f_equal. lia.
Qed.

(** The clipping engine in one equation: the page with the post-clip
    regions of the reported boxes blurred in order, and their number;
    the untouched page and 0 when anything raises. *)
Lemma mask_clipped_regions {S} (load : M S (detector pixel)) img (s : S) :
  rectangular img ->
  mask_clipped GaussianBlur load img s =
    (match for_each (blur_region GaussianBlur) (regions img (detections load img s)) img with
     | Ok out => (out, Z.of_nat (length (regions img (detections load img s))))
     | Raise _ => (img, 0)
     end, (load s).2).
Proof.
  intros Hrect. unfold mask_clipped, try_default, bind, lift, detections.
  destruct (load s) as [[model|e] s']; [|done].
  destruct (model img) as [results|e]; [|done].
  rewrite for_each_mask_result by done.
  by destruct (for_each _ _ img).
Qed.

(** Under OpenCV's contract blurring regions within the page never
    raises. *)
Lemma blur_regions_succeed img regs page :
  blur_contract GaussianBlur -> Forall (within img) regs ->
  rectangular page -> length page = length img -> width page = width img ->
  exists out, for_each (blur_region GaussianBlur) regs page = Ok out.
Proof.
  intros Hblur Hregs. revert page.
  induction Hregs as [|reg regs Hreg _ IH]; intros page Hrect Hl Hw; simpl; [by eexists|].
  assert (exists page', blur_region GaussianBlur page reg = Ok page') as [page' Hpage'].
  { destruct reg as [[[x1 y1] x2] y2]. unfold blur_region.
    assert (within page (x1, y1, x2, y2)) as Hin
      by (unfold within, shape0 in *; rewrite shape1_width in *; rewrite Hl, Hw; done).
    destruct (Hblur _ (size_getitem_pos _ _ _ _ _ Hrect Hin)) as (blurred & -> & Hshape).
    simpl. unfold setitem. rewrite Hshape. by eexists. }
  rewrite Hpage'. simpl.
  destruct (blur_region_shape _ _ _ _ Hpage') as [Hl' Hw'].
  apply IH; [by eapply blur_region_rectangular | congruence..].
Qed.

(** Frame of the loop: a pixel outside every region is never written. *)
Lemma blur_regions_outside img regs page out y x :
  Forall (within img) regs ->
  length page = length img -> width page = width img ->
  for_each (blur_region GaussianBlur) regs page = Ok out ->
  Forall (fun region => ¬ inside region y x) regs ->
  pixel_at out y x = pixel_at page y x.
Proof.
  intros Hregs. revert page.
  induction Hregs as [|reg regs Hreg _ IH]; intros page Hl Hw; simpl.
  - by intros [= <-].
  - destruct (blur_region GaussianBlur page reg) as [page'|] eqn:Hpage'; [|done].
    simpl. intros Hrest Hout. inversion Hout; subst.
    destruct (blur_region_shape _ _ _ _ Hpage') as [Hl' Hw'].
    rewrite (IH page') by (done || congruence).
    by eapply blur_region_outside.
Qed.
End LoopFacts.

(** ** Pages without detections *)

Section NoDetections.
Context {pixel : Type}.
Variable GaussianBlur : image pixel -> result (image pixel).

Lemma mask_result_no_boxes (img : image pixel) (results : list (Results pixel)) acc :
  reported results = [] ->
  for_each (mask_result GaussianBlur img) results acc = Ok acc.
Proof.
  unfold reported. induction results as [|r rs IH]; [done|].
  rewrite bind_cons. intros [Hr Hrs]%app_eq_nil. cbn [for_each].
  unfold mask_result at 1. destruct (boxes r) as [bs|]; simpl in Hr; subst; simpl; auto.
Qed.

Lemma mask_clipped_no_detections {S} (load : M S (detector pixel)) img (s : S) :
  detections load img s = [] ->
  (mask_clipped GaussianBlur load img s).1 = (img, 0).
Proof.
  unfold detections, mask_clipped, try_default, bind, lift.
  destruct (load s) as [[model|e] s']; [|done].
  destruct (model img) as [results|e]; [|done].
  intros Hnone. by rewrite mask_result_no_boxes.
Qed.

Lemma mask_unclipped_no_detections {S} (load : M S (detector pixel)) img (s : S) :
  detections load img s = [] -> keeps_orig_img load img s ->
  (mask_unclipped GaussianBlur load img s).1 = (img, 0).
Proof.
  unfold detections, keeps_orig_img, mask_unclipped, try_default, bind, lift, ret.
  destruct (load s) as [[model|e] s']; [|done].
  destruct (model img) as [[|r rs]|e] eqn:Hmodel; [done| |done].
  unfold reported. rewrite bind_cons. intros [Hr _]%app_eq_nil Horig.
  specialize (Horig model s' (r :: rs) eq_refl Hmodel).
  apply Forall_cons_1 in Horig as [-> _].
  destruct (boxes r) as [bs|]; simpl in Hr; subst; done.
Qed.
End NoDetections.

(** C3.  Masking a page for which the detector reports no box returns the
    page itself, pixel for pixel, and the count 0: in
    [document_masking_server.py] (where the returned page is the detector's
    [orig_img], the array it was called on), in [pan_masking_server.py] and,
    for either model type, in [unified_pii_server.py]. *)
Theorem mask_without_boxes_is_identity :
  forall (X pixel : Type) (GaussianBlur : image pixel -> result (image pixel))
         (YOLO : string -> result (detector pixel)) (img : image pixel),
    (forall g : DocumentMasking.globals pixel,
        detections (DocumentMasking.load_model YOLO) img g = [] ->
        keeps_orig_img (DocumentMasking.load_model YOLO) img g ->
        (DocumentMasking.mask_pii_in_image GaussianBlur YOLO img g).1 = (img, 0)) /\
    (forall g : PanMasking.globals pixel,
        detections (PanMasking.load_model YOLO) img g = [] ->
        (PanMasking.mask_pan_in_image GaussianBlur YOLO img g).1 = (img, 0)) /\
    (forall (model_type : string) (g : Unified.globals X pixel),
        detections (Unified.select_model YOLO model_type) img g = [] ->
        (Unified.mask_pii_in_image GaussianBlur YOLO img model_type g).1 = (img, 0)).
Proof.
  intros. split_and!; intros.
  - by apply mask_unclipped_no_detections.
  - by apply mask_clipped_no_detections.
  - by apply mask_clipped_no_detections.
Qed.

Lemma mask_without_boxes_is_identity_witness :
  let doc := DocumentMasking.mkGlobals Z (Some (Sample.reports [])) in
  let pan := PanMasking.mkGlobals Z None in
  let YOLO := Sample.available (Sample.reports []) in
  (DocumentMasking.mask_pii_in_image Sample.mean_blur YOLO Sample.page doc).1
    = (Sample.page, 0) /\
  (PanMasking.mask_pan_in_image Sample.mean_blur YOLO Sample.page pan).1
    = (Sample.page, 0).
Proof.
  intros doc pan YOLO.
  destruct (mask_without_boxes_is_identity unit Z Sample.mean_blur YOLO Sample.page)
    as (Hdoc & Hpan & _).
  split.
  - apply Hdoc; [reflexivity|].
    intros model s' results [= <- <-] [= <-]. repeat constructor.
  - apply Hpan. reflexivity.
Defined.

(** ** A model that cannot be loaded *)

Section Unavailable.
Context {pixel S : Type}.
Variable GaussianBlur : image pixel -> result (image pixel).

Lemma mask_clipped_unavailable (load : M S (detector pixel)) (s : S) e :
  load s = (Raise e, s) ->
  forall img, mask_clipped GaussianBlur load img s = ((img, 0), s).
Proof. intros Hload img. unfold mask_clipped, try_default, bind. by rewrite Hload. Qed.

(** A masking function that degrades on every page leaves the list of
    pages as it is and adds nothing to the total. *)
Lemma mask_pages_degraded (mask : image pixel -> S -> (image pixel * Z) * S) (s : S) :
  (forall img, mask img s = ((img, 0), s)) ->
  forall images masked total,
    mask_pages mask images masked total s = ((masked ++ images, total), s).
Proof.
  intros Hmask. induction images as [|img rest IH]; intros masked total; simpl.
  - by rewrite app_nil_r.
  - rewrite Hmask, IH. by rewrite <- app_assoc, Z.add_0_r.
Qed.

Lemma mask_endpoint_degraded_pdf (mask : image pixel -> S -> (image pixel * Z) * S) (s : S)
    suffix message base_name images :
  (forall img, mask img s = ((img, 0), s)) ->
  mask_endpoint mask suffix message (PdfUpload base_name (Ok images)) s =
    ((mkResponse
        (SuccessBody (message 0) 0 (base_name ++ suffix ++ ".pdf")%string
           ("/download/" ++ (base_name ++ suffix ++ ".pdf"))%string) 200,
      images_to_pdf images
        (join RESULTS_FOLDER (base_name ++ suffix ++ ".pdf")%string)), s).
Proof.
  intros Hmask. unfold mask_endpoint. by rewrite (mask_pages_degraded _ _ Hmask).
Qed.

Lemma mask_endpoint_degraded_image (mask : image pixel -> S -> (image pixel * Z) * S)
    (s : S) suffix message base_name img :
  (forall img, mask img s = ((img, 0), s)) ->
  mask_endpoint mask suffix message (ImageUpload base_name (Some img)) s =
    ((mkResponse
        (SuccessBody (message 0) 0 (base_name ++ suffix ++ ".jpg")%string
           ("/download/" ++ (base_name ++ suffix ++ ".jpg"))%string) 200,
      Some (join RESULTS_FOLDER (base_name ++ suffix ++ ".jpg")%string,
            ImageFile img)), s).
Proof. intros Hmask. unfold mask_endpoint. by rewrite Hmask. Qed.
End Unavailable.

(** C4.  When the detector cannot be loaded (the global is unset and the
    constructor raises), the masking function of [pan_masking_server.py]
    and of [unified_pii_server.py] returns every page as it came with the
    count 0 and leaves the global unset; the endpoints then answer 200 with
    [detections = 0] and write the unmodified pages.  The functions return
    a value for every input: no exception leaves them. *)
Theorem unavailable_model_degrades :
  forall (X pixel : Type) (GaussianBlur : image pixel -> result (image pixel))
         (YOLO : string -> result (detector pixel)) (e : string),
    (forall g : PanMasking.globals pixel,
        PanMasking.model g = None -> YOLO PanMasking.MODEL_PATH = Raise e ->
        (forall img, PanMasking.mask_pan_in_image GaussianBlur YOLO img g = ((img, 0), g)) /\
        (forall base_name images,
            exists message,
              PanMasking.mask_pan_document GaussianBlur YOLO
                (PdfUpload base_name (Ok images)) g =
              ((mkResponse
                  (SuccessBody message 0 (base_name ++ "_pan_masked.pdf")%string
                     ("/download/" ++ (base_name ++ "_pan_masked.pdf"))%string) 200,
                images_to_pdf images
                  (join RESULTS_FOLDER (base_name ++ "_pan_masked.pdf")%string)), g)) /\
        (forall base_name img,
            exists message,
              PanMasking.mask_pan_document GaussianBlur YOLO
                (ImageUpload base_name (Some img)) g =
              ((mkResponse
                  (SuccessBody message 0 (base_name ++ "_pan_masked.jpg")%string
                     ("/download/" ++ (base_name ++ "_pan_masked.jpg"))%string) 200,
                Some (join RESULTS_FOLDER (base_name ++ "_pan_masked.jpg")%string,
                      ImageFile img)), g))) /\
    (forall g : Unified.globals X pixel,
        Unified.aadhar_model g = None -> YOLO Unified.AADHAR_MODEL_PATH = Raise e ->
        (forall img,
            Unified.mask_pii_in_image GaussianBlur YOLO img "aadhar" g = ((img, 0), g)) /\
        (forall base_name images,
            exists message,
              Unified.mask_aadhar_document GaussianBlur YOLO
                (PdfUpload base_name (Ok images)) g =
              ((mkResponse
                  (SuccessBody message 0 (base_name ++ "_aadhar_masked.pdf")%string
                     ("/download/" ++ (base_name ++ "_aadhar_masked.pdf"))%string) 200,
                images_to_pdf images
                  (join RESULTS_FOLDER (base_name ++ "_aadhar_masked.pdf")%string)), g))) /\
    (forall g : Unified.globals X pixel,
        Unified.pan_model g = None -> YOLO Unified.PAN_MODEL_PATH = Raise e ->
        (forall img,
            Unified.mask_pii_in_image GaussianBlur YOLO img "pan" g = ((img, 0), g)) /\
        (forall base_name images,
            exists message,
              Unified.mask_pan_document GaussianBlur YOLO
                (PdfUpload base_name (Ok images)) g =
              ((mkResponse
                  (SuccessBody message 0 (base_name ++ "_pan_masked.pdf")%string
                     ("/download/" ++ (base_name ++ "_pan_masked.pdf"))%string) 200,
                images_to_pdf images
                  (join RESULTS_FOLDER (base_name ++ "_pan_masked.pdf")%string)), g))).
Proof.
  intros X pixel GaussianBlur YOLO e. split_and!.
  - intros g Hnone Hraise.
    assert (forall img, PanMasking.mask_pan_in_image GaussianBlur YOLO img g = ((img, 0), g))
      as Hmask.
    { apply (mask_clipped_unavailable _ _ _ e).
      unfold PanMasking.load_model, load_global. by rewrite Hnone, Hraise. }
    split_and!; [done|..]; intros; eexists.
    + by apply mask_endpoint_degraded_pdf.
    + by apply mask_endpoint_degraded_image.
  - intros g Hnone Hraise.
    assert (forall img,
               Unified.mask_pii_in_image GaussianBlur YOLO img "aadhar" g = ((img, 0), g))
      as Hmask.
    { apply (mask_clipped_unavailable _ _ _ e).
      unfold Unified.select_model, Unified.load_aadhar_model, load_global. simpl.
      by rewrite Hnone, Hraise. }
    split_and!; [done|]; intros; eexists.
    by apply mask_endpoint_degraded_pdf.
  - intros g Hnone Hraise.
    assert (forall img,
               Unified.mask_pii_in_image GaussianBlur YOLO img "pan" g = ((img, 0), g))
      as Hmask.
    { apply (mask_clipped_unavailable _ _ _ e).
      unfold Unified.select_model, Unified.load_pan_model, load_global. simpl.
      by rewrite Hnone, Hraise. }
    split_and!; [done|]; intros; eexists.
    by apply mask_endpoint_degraded_pdf.
Qed.

Lemma unavailable_model_degrades_witness :
  let g := PanMasking.mkGlobals Z None in
  PanMasking.model g = None /\
  Sample.unavailable PanMasking.MODEL_PATH
    = Raise ("No such file or directory: " ++ PanMasking.MODEL_PATH)%string /\
  PanMasking.mask_pan_in_image Sample.mean_blur Sample.unavailable Sample.page g
    = ((Sample.page, 0), g).
Proof.
  intros g. split_and!; [reflexivity..|].
  destruct (unavailable_model_degrades unit Z Sample.mean_blur Sample.unavailable
              ("No such file or directory: " ++ PanMasking.MODEL_PATH)%string)
    as (Hpan & _).
  destruct (Hpan g) as (Hmask & _); [reflexivity..|]. apply Hmask.
Defined.

(** ** Frame of the clipping engine *)

Lemma mask_clipped_outside {pixel S : Type}
    (GaussianBlur : image pixel -> result (image pixel))
    (load : M S (detector pixel)) (img : image pixel) (s : S) (y x : nat) :
  rectangular img ->
  Forall (fun region => ¬ inside region y x) (regions img (detections load img s)) ->
  pixel_at (mask_clipped GaussianBlur load img s).1.1 y x = pixel_at img y x.
Proof.
  intros Hrect Hout. rewrite mask_clipped_regions by done. simpl.
  destruct (for_each _ _ img) as [out|] eqn:Hloop; [|done]. simpl.
  eapply (blur_regions_outside GaussianBlur img); [apply regions_within|done..].
Qed.

(** C5.  In [pan_masking_server.py] and [unified_pii_server.py], a pixel
    of the page that lies outside the post-clip region of every surviving
    box has in the masked page the value it has in the input page. *)
Theorem masking_writes_only_inside_regions :
  forall (X pixel : Type) (GaussianBlur : image pixel -> result (image pixel))
         (YOLO : string -> result (detector pixel)) (img : image pixel) (y x : nat),
    rectangular img ->
    (forall g : PanMasking.globals pixel,
        Forall (fun region => ¬ inside region y x)
          (regions img (detections (PanMasking.load_model YOLO) img g)) ->
        pixel_at (PanMasking.mask_pan_in_image GaussianBlur YOLO img g).1.1 y x
          = pixel_at img y x) /\
    (forall (model_type : string) (g : Unified.globals X pixel),
        Forall (fun region => ¬ inside region y x)
          (regions img (detections (Unified.select_model YOLO model_type) img g)) ->
        pixel_at (Unified.mask_pii_in_image GaussianBlur YOLO img model_type g).1.1 y x
          = pixel_at img y x).
Proof.
  intros X pixel GaussianBlur YOLO img y x Hrect.
  split; intros; by apply mask_clipped_outside.
Qed.

Lemma masking_writes_only_inside_regions_witness :
  let g := PanMasking.mkGlobals Z (Some (Sample.reports [Sample.inner; Sample.sliver])) in
  rectangular Sample.page /\
  regions Sample.page (detections (PanMasking.load_model Sample.unavailable) Sample.page g)
    = [(1, 1, 4, 4)] /\
  pixel_at (PanMasking.mask_pan_in_image Sample.mean_blur Sample.unavailable
              Sample.page g).1.1 1 4 = Some 60.
Proof.
  intros g.
  assert (rectangular Sample.page) as Hrect by (repeat constructor).
  split_and!; [exact Hrect | reflexivity |].
  destruct (masking_writes_only_inside_regions unit Z Sample.mean_blur Sample.unavailable
              Sample.page 1%nat 4%nat Hrect) as [Hpan _].
  rewrite Hpan; [reflexivity|].
  change (Forall (fun region => ¬ inside region 1 4) [(1, 1, 4, 4)]).
  constructor; [|constructor]. unfold inside. simpl. lia.
Defined.

(** ** The URL classifier *)

Section ClassifierFacts.
Context {X : Type}.
Implicit Types (model : option (model_obj X)) (vectorizer : option (vectorizer_obj X)).

Lemma classify_with_unset not_loaded model vectorizer url :
  py_not model_bool model || py_not vectorizer_bool vectorizer = true ->
  classify_with not_loaded model vectorizer url = mkVerdict false 0.0 true not_loaded None.
Proof. intros Hunset. unfold classify_with. by rewrite Hunset. Qed.

Lemma classify_with_raise not_loaded model vectorizer url e :
  py_not model_bool model || py_not vectorizer_bool vectorizer = false ->
  inference model vectorizer url = Raise e ->
  classify_with not_loaded model vectorizer url
    = mkVerdict false 0.0 true ("Error: " ++ e)%string None.
Proof.
  intros Hloaded. unfold classify_with, inference. rewrite Hloaded.
  destruct (attr vectorizer _ _) as [X_new|]; simpl; [|by intros [= ->]].
  destruct (attr model _ _) as [label|]; simpl; [done | by intros [= ->]].
Qed.

Lemma classify_with_label not_loaded model vectorizer url label :
  py_not model_bool model || py_not vectorizer_bool vectorizer = false ->
  inference model vectorizer url = Ok label ->
  exists confidence reason,
    classify_with not_loaded model vectorizer url =
      mkVerdict
        (in_str "government" (lower label) || in_str "authorized" (lower label)
         || in_str "gov" (lower label) || in_str "legitimate" (lower label))
        confidence
        (negb (in_str "government" (lower label) || in_str "authorized" (lower label)
               || in_str "gov" (lower label) || in_str "legitimate" (lower label)))
        reason (Some label).
Proof.
  intros Hloaded. unfold classify_with, inference. rewrite Hloaded.
  destruct (attr vectorizer _ _) as [X_new|]; simpl; [|done].
  destruct (attr model _ _) as [label'|]; simpl; [|done].
  intros [= ->]. by eexists _, _.
Qed.

Lemma classify_with_failure not_loaded model vectorizer url :
  (exists why, classify_with not_loaded model vectorizer url
               = mkVerdict false 0.0 true why None) <->
  py_not model_bool model || py_not vectorizer_bool vectorizer = true
  \/ exists e, inference model vectorizer url = Raise e.
Proof.
  split.
  - intros [why Hrecord].
    destruct (py_not model_bool model || py_not vectorizer_bool vectorizer) eqn:Hloaded;
      [by left|right].
    destruct (inference model vectorizer url) as [label|e] eqn:Hinf; [|by exists e].
    destruct (classify_with_label not_loaded _ _ _ _ Hloaded Hinf) as (c & r & Hlabel).
    rewrite Hlabel in Hrecord. discriminate.
  - intros [Hunset|[e Hraise]].
    + exists not_loaded. by apply classify_with_unset.
    + destruct (py_not model_bool model || py_not vectorizer_bool vectorizer) eqn:Hloaded.
      * exists not_loaded. by apply classify_with_unset.
      * eexists. by apply classify_with_raise.
Qed.

Lemma classify_with_proba_raise not_loaded model vectorizer url v m X_new label rest call e :
  vectorizer = Some v -> model = Some m ->
  vectorizer_bool v = true -> model_bool m = true ->
  transform v [url] = Ok X_new -> predict m X_new = Ok (label :: rest) ->
  predict_proba m = Some call -> call X_new = Raise e ->
  exists reason,
    classify_with not_loaded model vectorizer url =
      mkVerdict
        (in_str "government" (lower label) || in_str "authorized" (lower label)
         || in_str "gov" (lower label) || in_str "legitimate" (lower label))
        0.8
        (negb (in_str "government" (lower label) || in_str "authorized" (lower label)
               || in_str "gov" (lower label) || in_str "legitimate" (lower label)))
        reason (Some label).
Proof.
  intros -> -> Hv Hm Ht Hp Hcall Hraise. unfold classify_with, attr, confidence_score. simpl.
  rewrite Hv, Hm, Ht. simpl. rewrite Hp. simpl.
  destruct m as [mb mp mpp]. simpl in *. subst mpp. rewrite Hraise. simpl. by eexists.
Qed.

Lemma trusted_label_orb label :
  in_str "government" (lower label) || in_str "authorized" (lower label)
  || in_str "gov" (lower label) || in_str "legitimate" (lower label) = true
  <-> trusted_label label.
Proof.
  unfold trusted_label. rewrite !orb_true_iff. tauto.
Qed.
End ClassifierFacts.

(** C7, as the code has it.  Fail-closed default of [classify_url], in
    [ml_api_server.py] and in [unified_pii_server.py], for every url: when
    the classifier or the vectorizer is unset (or falsy) the answer is the
    record [isGovernment = False, confidence = 0.0, isUnsafe = True] with
    the reason "Model not loaded" ("ML model not loaded"); when they are
    set and [vectorizer.transform], [model.predict] or the indexing of its
    answer raises [e], it is the same record with the reason "Error: e";
    and the record is returned in these cases only.  An error in
    [predict_proba] is not among them: the bare [except] swallows it, and
    the answer is the verdict of the predicted label with the confidence
    0.8. *)
Theorem classify_url_fails_closed :
  forall (X pixel : Type) (url : string),
    (forall g : MlApi.globals X,
        py_not model_bool (MlApi.model g) || py_not vectorizer_bool (MlApi.vectorizer g) = true ->
        MlApi.classify_url url g = mkVerdict false 0.0 true "Model not loaded" None) /\
    (forall (g : MlApi.globals X) (e : string),
        py_not model_bool (MlApi.model g) || py_not vectorizer_bool (MlApi.vectorizer g) = false ->
        inference (MlApi.model g) (MlApi.vectorizer g) url = Raise e ->
        MlApi.classify_url url g = mkVerdict false 0.0 true ("Error: " ++ e)%string None) /\
    (forall g : Unified.globals X pixel,
        py_not model_bool (Unified.ml_model g)
        || py_not vectorizer_bool (Unified.vectorizer g) = true ->
        Unified.classify_url url g = mkVerdict false 0.0 true "ML model not loaded" None) /\
    (forall (g : Unified.globals X pixel) (e : string),
        py_not model_bool (Unified.ml_model g)
        || py_not vectorizer_bool (Unified.vectorizer g) = false ->
        inference (Unified.ml_model g) (Unified.vectorizer g) url = Raise e ->
        Unified.classify_url url g = mkVerdict false 0.0 true ("Error: " ++ e)%string None) /\
    (forall g : MlApi.globals X,
        (exists why, MlApi.classify_url url g = mkVerdict false 0.0 true why None) <->
        py_not model_bool (MlApi.model g) || py_not vectorizer_bool (MlApi.vectorizer g) = true
        \/ exists e, inference (MlApi.model g) (MlApi.vectorizer g) url = Raise e) /\
    (forall g : Unified.globals X pixel,
        (exists why, Unified.classify_url url g = mkVerdict false 0.0 true why None) <->
        py_not model_bool (Unified.ml_model g)
        || py_not vectorizer_bool (Unified.vectorizer g) = true
        \/ exists e, inference (Unified.ml_model g) (Unified.vectorizer g) url = Raise e) /\
    (forall (g : MlApi.globals X) v m X_new label rest call e,
        MlApi.vectorizer g = Some v -> MlApi.model g = Some m ->
        vectorizer_bool v = true -> model_bool m = true ->
        transform v [url] = Ok X_new -> predict m X_new = Ok (label :: rest) ->
        predict_proba m = Some call -> call X_new = Raise e ->
        exists reason,
          MlApi.classify_url url g =
            mkVerdict
              (in_str "government" (lower label) || in_str "authorized" (lower label)
               || in_str "gov" (lower label) || in_str "legitimate" (lower label))
              0.8
              (negb (in_str "government" (lower label) || in_str "authorized" (lower label)
                     || in_str "gov" (lower label) || in_str "legitimate" (lower label)))
              reason (Some label)) /\
    (forall (g : Unified.globals X pixel) v m X_new label rest call e,
        Unified.vectorizer g = Some v -> Unified.ml_model g = Some m ->
        vectorizer_bool v = true -> model_bool m = true ->
        transform v [url] = Ok X_new -> predict m X_new = Ok (label :: rest) ->
        predict_proba m = Some call -> call X_new = Raise e ->
        exists reason,
          Unified.classify_url url g =
            mkVerdict
              (in_str "government" (lower label) || in_str "authorized" (lower label)
               || in_str "gov" (lower label) || in_str "legitimate" (lower label))
              0.8
              (negb (in_str "government" (lower label) || in_str "authorized" (lower label)
                     || in_str "gov" (lower label) || in_str "legitimate" (lower label)))
              reason (Some label)).
Proof.
  intros X pixel url. split_and!; intros.
  - by apply classify_with_unset.
  - by apply classify_with_raise.
  - by apply classify_with_unset.
  - by apply classify_with_raise.
  - apply classify_with_failure.
  - apply classify_with_failure.
  - by eapply classify_with_proba_raise.
  - by eapply classify_with_proba_raise.
Qed.

Lemma classify_url_fails_closed_witness :
  let unset := MlApi.mkGlobals (list string) None None in
  let broken :=
    MlApi.mkGlobals (list string)
      (Some (mkVectorizer (list string) true (fun _ => Raise "not fitted")))
      (Some (Sample.labels "government")) in
  let unscored :=
    MlApi.mkGlobals (list string) (Some Sample.bag_of_words)
      (Some (Sample.unscored "government")) in
  MlApi.classify_url "https://pmindia.gov.in" unset
    = mkVerdict false 0.0 true "Model not loaded" None /\
  MlApi.classify_url "https://pmindia.gov.in" broken
    = mkVerdict false 0.0 true "Error: not fitted" None /\
  exists reason,
    MlApi.classify_url "https://pmindia.gov.in" unscored
      = mkVerdict true 0.8 false reason (Some "government").
Proof.
  intros unset broken unscored.
  destruct (classify_url_fails_closed (list string) unit "https://pmindia.gov.in")
    as (Hunset & Hraise & _ & _ & _ & _ & Hswallowed & _).
  split_and!.
  - apply Hunset. reflexivity.
  - apply (Hraise broken "not fitted"); reflexivity.
  - apply (Hswallowed unscored Sample.bag_of_words (Sample.unscored "government")
             ["https://pmindia.gov.in"] "government" [] (fun _ => Raise "no probabilities")
             "no probabilities"); reflexivity.
Defined.

(** C7, as stated, fails: an error in [predict_proba] is an error of the
    inference, and the answer to it is not the fail-closed record. *)
Lemma predict_proba_error_is_swallowed :
  ¬ (forall (g : MlApi.globals (list string)) (url : string) (m : model_obj (list string))
            (call : list string -> result (list (list Q))) (e : string),
        MlApi.model g = Some m -> predict_proba m = Some call ->
        (forall X_new, call X_new = Raise e) ->
        isGovernment (MlApi.classify_url url g) = false /\
        isUnsafe (MlApi.classify_url url g) = true).
Proof.
  intros Hclaim.
  destruct (Hclaim
              (MlApi.mkGlobals (list string) (Some Sample.bag_of_words)
                 (Some (Sample.unscored "government")))
              "https://pmindia.gov.in" (Sample.unscored "government")
              (fun _ => Raise "no probabilities") "no probabilities"
              eq_refl eq_refl (fun _ => eq_refl)) as [Hgov _].
  vm_compute in Hgov. discriminate.
Qed.

(** C10.  When classifier and vectorizer are set and the inference yields
    a label, [classify_url] reports [isGovernment = True] exactly when the
    lower-cased label contains "government", "authorized", "gov" or
    "legitimate", [isUnsafe] is the negation of [isGovernment], and the
    label is returned as the classification; hence every label that
    contains "gov" is reported trusted and safe. *)
Theorem classify_url_trusts_by_substring :
  forall (X pixel : Type) (url label : string),
    (forall g : MlApi.globals X,
        py_not model_bool (MlApi.model g) || py_not vectorizer_bool (MlApi.vectorizer g) = false ->
        inference (MlApi.model g) (MlApi.vectorizer g) url = Ok label ->
        (isGovernment (MlApi.classify_url url g) = true <-> trusted_label label) /\
        isUnsafe (MlApi.classify_url url g) = negb (isGovernment (MlApi.classify_url url g)) /\
        classification (MlApi.classify_url url g) = Some label /\
        (in_str "gov" (lower label) = true ->
         isGovernment (MlApi.classify_url url g) = true /\
         isUnsafe (MlApi.classify_url url g) = false)) /\
    (forall g : Unified.globals X pixel,
        py_not model_bool (Unified.ml_model g)
        || py_not vectorizer_bool (Unified.vectorizer g) = false ->
        inference (Unified.ml_model g) (Unified.vectorizer g) url = Ok label ->
        (isGovernment (Unified.classify_url url g) = true <-> trusted_label label) /\
        isUnsafe (Unified.classify_url url g)
          = negb (isGovernment (Unified.classify_url url g)) /\
        classification (Unified.classify_url url g) = Some label /\
        (in_str "gov" (lower label) = true ->
         isGovernment (Unified.classify_url url g) = true /\
         isUnsafe (Unified.classify_url url g) = false)).
Proof.
  intros X pixel url label. split; intros g Hloaded Hlabel.
  - unfold MlApi.classify_url.
    destruct (classify_with_label "Model not loaded" _ _ _ _ Hloaded Hlabel)
      as (c & r & ->). simpl.
    split_and!; [apply trusted_label_orb | done | done |].
    intros Hgov. rewrite Hgov, !orb_true_r. done.
  - unfold Unified.classify_url.
    destruct (classify_with_label "ML model not loaded" _ _ _ _ Hloaded Hlabel)
      as (c & r & ->). simpl.
    split_and!; [apply trusted_label_orb | done | done |].
    intros Hgov. rewrite Hgov, !orb_true_r. done.
Qed.

Lemma classify_url_trusts_by_substring_witness :
  let g :=
    MlApi.mkGlobals (list string) (Some Sample.bag_of_words)
      (Some (Sample.labels "Non-Government")) in
  inference (MlApi.model g) (MlApi.vectorizer g) "https://example.com" = Ok "Non-Government" /\
  in_str "gov" (lower "Non-Government") = true /\
  isGovernment (MlApi.classify_url "https://example.com" g) = true /\
  isUnsafe (MlApi.classify_url "https://example.com" g) = false.
Proof.
  intros g.
  destruct (classify_url_trusts_by_substring (list string) unit "https://example.com"
              "Non-Government") as [Hml _].
  destruct (Hml g) as (_ & _ & _ & Hgov); [reflexivity..|].
  split_and!; [reflexivity | reflexivity | apply Hgov; reflexivity..].
Defined.

(** ** Loaders under threads *)

Section ThreadFacts.
Local Open Scope nat_scope.
Context {pixel : Type}.
Variable YOLO : string -> result (detector pixel).
Variable path : string.
Implicit Types (w : world pixel) (m : detector pixel).

(** A whole call that finds the model loaded returns it and constructs
    nothing. *)
Lemma call_loaded w i m :
  global w = Some m -> threads w !! i = Some Test ->
  call YOLO path i w =
    mkWorld (Some m) (constructed w) (<[i := Returned (Some m)]> (threads w)).
Proof.
  intros Hg Hi. pose proof (lookup_lt_Some _ _ _ Hi) as Hlt.
  unfold call. cbn [steps]. unfold step at 1. rewrite Hi, Hg. cbn [threads global constructed].
  unfold step at 1. cbn [threads global constructed].
  rewrite list_lookup_insert_eq by done. rewrite list_insert_insert_eq.
  unfold step at 1. cbn [threads global constructed].
  by rewrite list_lookup_insert_eq by done.
Qed.

(** A whole call that finds the global unset constructs once, stores
    the model and returns it. *)
Lemma call_unloaded w i m :
  global w = None -> YOLO path = Ok m -> threads w !! i = Some Test ->
  call YOLO path i w =
    mkWorld (Some m) (S (constructed w)) (<[i := Returned (Some m)]> (threads w)).
Proof.
  intros Hg Hm Hi. pose proof (lookup_lt_Some _ _ _ Hi) as Hlt.
  unfold call. cbn [steps]. unfold step at 1. rewrite Hi, Hg. cbn [threads global constructed].
  unfold step at 1. cbn [threads global constructed].
  rewrite list_lookup_insert_eq by done. rewrite Hm, list_insert_insert_eq.
  unfold step at 1. cbn [threads global constructed].
  rewrite list_lookup_insert_eq by done. rewrite list_insert_insert_eq.
  unfold step at 1. cbn [threads global constructed].
  rewrite list_lookup_insert_eq by done. by rewrite list_insert_insert_eq.
Qed.

(** A whole call whose construction fails raises and leaves the global
    unset. *)
Lemma call_unavailable w i e :
  global w = None -> YOLO path = Raise e -> threads w !! i = Some Test ->
  call YOLO path i w =
    mkWorld None (S (constructed w)) (<[i := Raised e]> (threads w)).
Proof.
  intros Hg Hm Hi. pose proof (lookup_lt_Some _ _ _ Hi) as Hlt.
  unfold call. cbn [steps]. unfold step at 1. rewrite Hi, Hg. cbn [threads global constructed].
  unfold step at 1. cbn [threads global constructed].
  rewrite list_lookup_insert_eq by done. rewrite Hm, list_insert_insert_eq.
  unfold step at 1. cbn [threads global constructed].
  by rewrite list_lookup_insert_eq by done.
Qed.

(** Without interleaving, a thread in the loader does what the loader
    does on the global. *)
Lemma call_is_load_global w i :
  threads w !! i = Some Test ->
  let '(r, g) := load_global YOLO id (fun v _ => v) path (global w) in
  global (call YOLO path i w) = g /\
  threads (call YOLO path i w) !! i
    = Some (match r with Ok m => Returned (Some m) | Raise e => Raised e end) /\
  constructed (call YOLO path i w)
    = constructed w + match global w with None => 1 | Some _ => 0 end.
Proof.
  intros Hi. pose proof (lookup_lt_Some _ _ _ Hi) as Hlt.
  unfold load_global, id.
  destruct (global w) as [m|] eqn:Hg.
  - rewrite (call_loaded _ _ _ Hg Hi). simpl.
    rewrite list_lookup_insert_eq by done. split_and!; [done..|lia].
  - destruct (YOLO path) as [m|e] eqn:Hm.
    + rewrite (call_unloaded _ _ _ Hg Hm Hi). simpl.
      rewrite list_lookup_insert_eq by done. split_and!; [done..|lia].
    + rewrite (call_unavailable _ _ _ Hg Hm Hi). simpl.
      rewrite list_lookup_insert_eq by done. split_and!; [done..|lia].
Qed.


End ThreadFacts.

(** Requests that test the global before any of them assigns it. *)
Section ConcurrentFacts.
Local Open Scope nat_scope.
Context {pixel : Type}.
Variable YOLO : string -> result (detector pixel).
Variable path : string.
Implicit Types (w : world pixel) (f : frame pixel) (l : list (frame pixel)).










End ConcurrentFacts.




(** ** A PDF without pages *)

(** C8 on [document_masking_server.py].  An image that cannot be read is
    rejected with status 400 and a PDF that cannot be opened with status
    500, both without an output file; but a PDF that decodes to no page is
    answered with status 200, [success] and a download URL, although
    [images_to_pdf] wrote no file. *)
Theorem zero_page_pdf_reported_as_success :
  forall (pixel : Type) (GaussianBlur : image pixel -> result (image pixel))
         (YOLO : string -> result (detector pixel)) (base_name : string)
         (g : DocumentMasking.globals pixel),
    DocumentMasking.mask_document GaussianBlur YOLO (PdfUpload base_name (Ok [])) g =
      ((mkResponse
          (SuccessBody "Document processed successfully! 0 PII regions masked." 0
             (base_name ++ "_masked.pdf")%string
             ("/download/" ++ (base_name ++ "_masked.pdf"))%string) 200,
        None), g) /\
    DocumentMasking.mask_document GaussianBlur YOLO (ImageUpload base_name None) g =
      ((mkResponse (ErrorBody "Could not read image file") 400, None), g) /\
    (forall e,
        DocumentMasking.mask_document GaussianBlur YOLO (PdfUpload base_name (Raise e)) g =
          ((mkResponse (ErrorBody ("Processing failed: " ++ e)%string) 500, None), g)).
Proof. intros. split_and!; reflexivity. Qed.

(** ** Reading back what was written *)

Section SubArrays.
Context {pixel : Type}.
Implicit Types (page out value : image pixel) (r v : list pixel)
  (outer inner region : Z * Z * Z * Z).

(** [r[a:b] = v] read back on a sub-slice. *)
Lemma cut_splice_inner r v (a b c d : nat) :
  (a <= c)%nat -> (c <= d)%nat -> (d <= b)%nat -> (b <= length r)%nat ->
  length v = (b - a)%nat ->
  cut (take a r ++ v ++ drop b r) (c, d) = cut v ((c - a)%nat, (d - a)%nat).
Proof.
  intros Hac Hcd Hdb Hb Hv. apply list_eq. intros k.
  destruct (decide (k < d - c)%nat).
  - rewrite !lookup_cut by (simpl; lia).
    rewrite lookup_splice_inside by lia. f_equal. lia.
  - rewrite !lookup_ge_None_2; [done|rewrite length_cut; lia|].
    rewrite length_cut, !length_app, length_take, length_drop. lia.
Qed.

(** The pixels of a region within a rectangular page: as many rows as
    the region is high, each as long as the region is wide. *)
Lemma crop_shape page x1 y1 x2 y2 :
  rectangular page -> within page (x1, y1, x2, y2) ->
  length (crop page (x1, y1, x2, y2)) = Z.to_nat (y2 - y1) /\
  Forall (fun r => length r = Z.to_nat (x2 - x1)) (crop page (x1, y1, x2, y2)).
Proof.
  intros Hrect Hin.
  destruct (slices_of_region page page _ _ _ _ Hin eq_refl eq_refl) as [Hys Hxs].
  destruct Hin as [Hx Hy]. unfold shape0 in Hy. rewrite shape1_width in Hx.
  unfold crop, getitem. rewrite Hys, Hxs. split.
  - rewrite length_fmap, length_cut. lia.
  - apply Forall_fmap, Forall_lookup. intros k r Hr. simpl.
    assert (k < Z.to_nat y2 - Z.to_nat y1)%nat as Hk.
    { apply lookup_lt_Some in Hr. rewrite length_cut in Hr. lia. }
    rewrite lookup_cut in Hr by done.
    pose proof (Forall_lookup_1 _ _ _ _ Hrect Hr) as Hlen. simpl in Hlen.
    rewrite length_cut. lia.
Qed.

Lemma same_shape_transfer (a b : image pixel) (h w : nat) :
  same_shape a b = true ->
  length a = h /\ Forall (fun r => length r = w) a ->
  length b = h /\ Forall (fun r => length r = w) b.
Proof.
  intros Hshape%same_shape_rows [Hh Hw]. split.
  - by rewrite <- (Forall2_length _ _ _ Hshape).
  - apply Forall_lookup. intros k v Hv.
    destruct (Forall2_lookup_r _ _ _ _ _ Hshape Hv) as (r & Hr & Hlen).
    rewrite <- Hlen. by apply (Forall_lookup_1 _ _ _ _ Hw Hr).
Qed.

Lemma width_rows value (w : nat) :
  value <> [] -> Forall (fun r => length r = w) value -> width value = w.
Proof.
  destruct value as [|v rest]; [done|]. intros _ [Hv _]%Forall_cons.
  unfold width, shape1. lia.
Qed.

(** The whole of an array, as a slice. *)
Lemma crop_whole value (h w : nat) :
  length value = h -> Forall (fun r => length r = w) value -> value <> [] ->
  crop value (0, 0, Z.of_nat w, Z.of_nat h) = value.
Proof.
  intros Hh Hw Hne. unfold crop, getitem.
  rewrite (width_rows _ _ Hne Hw), Hh.
  rewrite !slice_indices_clipped by lia. rewrite !Nat2Z.id.
  change (Z.to_nat 0) with 0%nat.
  unfold cut at 2. simpl. rewrite Nat.sub_0_r, drop_0, take_ge by lia.
  rewrite <- (list_fmap_id value) at 2.
  apply Forall_fmap_ext_1. eapply Forall_impl; [exact Hw|].
  intros r Hr. unfold cut. simpl in *. rewrite Nat.sub_0_r, drop_0, take_ge by lia. done.
Qed.

(** A region read from a page after an enclosing region was assigned is
    read from the assigned value. *)
Lemma crop_setitem_inner page outer inner value out :
  rectangular page -> within page outer -> contains outer inner ->
  (let '(x1, y1, x2, y2) := outer in setitem page y1 y2 x1 x2 value) = Ok out ->
  crop out inner = crop value (relative outer inner).
Proof.
  destruct outer as [[[ox1 oy1] ox2] oy2], inner as [[[ix1 iy1] ix2] iy2].
  intros Hrect Hin Hcont Hset.
  destruct (slices_of_region page page _ _ _ _ Hin eq_refl eq_refl) as [Hys Hxs].
  destruct (setitem_shape _ _ _ _ _ _ _ Hset) as [Hl Hw].
  destruct (setitem_Ok _ _ _ _ _ _ _ _ _ _ _ Hys Hxs Hset) as [Hshape _].
  pose proof (crop_shape _ _ _ _ _ Hrect Hin) as Hcrop.
  unfold crop, getitem in Hcrop. rewrite Hys, Hxs in Hcrop.
  apply same_shape_rows in Hshape.
  destruct (same_shape_transfer _ _ _ _ Hshape Hcrop) as [Hvh Hvw].
  pose proof (fun y => setitem_row_inside _ _ _ _ _ _ _ y Hset) as Hrow.
  rewrite Hys, Hxs in Hrow. simpl in Hrow.
  assert (within out (ix1, iy1, ix2, iy2)) as Hin'.
  { unfold within, contains, shape0 in *. rewrite shape1_width in *.
    rewrite Hl, Hw. lia. }
  destruct (slices_of_region out out _ _ _ _ Hin' eq_refl eq_refl) as [Hys' Hxs'].
  destruct Hin as [Hx Hy], Hcont as [Hcx Hcy].
  unfold shape0 in Hy. rewrite shape1_width in Hx.
  assert (value <> []) as Hne by (intros ->; simpl in Hvh; lia).
  unfold crop, relative, getitem. rewrite Hys', Hxs'.
  rewrite (width_rows _ _ Hne Hvw), Hvh.
  rewrite !slice_indices_clipped by lia.
  apply list_eq. intros k. rewrite !list_lookup_fmap.
  destruct (decide (k < Z.to_nat iy2 - Z.to_nat iy1)%nat) as [Hk|Hk].
  - rewrite !lookup_cut by (simpl; lia).
    destruct (Hrow (Z.to_nat iy1 + k)%nat) as (r & v & Hr & Hv & Hlen & ->); [lia|].
    replace (Z.to_nat (iy1 - oy1) + k)%nat with (Z.to_nat iy1 + k - Z.to_nat oy1)%nat by lia.
    rewrite Hv. simpl. f_equal.
    pose proof (Forall_lookup_1 _ _ _ _ Hrect Hr) as Hr'. simpl in Hr'.
    rewrite length_cut in Hlen.
    replace (Z.to_nat (ix1 - ox1)) with (Z.to_nat ix1 - Z.to_nat ox1)%nat by lia.
    replace (Z.to_nat (ix2 - ox1)) with (Z.to_nat ix2 - Z.to_nat ox1)%nat by lia.
    apply cut_splice_inner; lia.
  - rewrite !lookup_ge_None_2; [done|rewrite length_cut; simpl; lia..].
Qed.

(** A region read back right after it was assigned. *)
Lemma crop_setitem_same page region value out :
  rectangular page -> within page region ->
  (let '(x1, y1, x2, y2) := region in setitem page y1 y2 x1 x2 value) = Ok out ->
  crop out region = value.
Proof.
  destruct region as [[[x1 y1] x2] y2]. intros Hrect Hin Hset.
  rewrite (crop_setitem_inner page (x1, y1, x2, y2) (x1, y1, x2, y2) value out);
    [|done|done|unfold within, contains in *; lia|done].
  destruct (slices_of_region page page _ _ _ _ Hin eq_refl eq_refl) as [Hys Hxs].
  destruct (setitem_Ok _ _ _ _ _ _ _ _ _ _ _ Hys Hxs Hset) as [Hshape _].
  pose proof (crop_shape _ _ _ _ _ Hrect Hin) as Hcrop.
  unfold crop, getitem in Hcrop. rewrite Hys, Hxs in Hcrop.
  apply same_shape_rows in Hshape.
  destruct (same_shape_transfer _ _ _ _ Hshape Hcrop) as [Hvh Hvw].
  destruct Hin as [Hx Hy].
  unfold relative. rewrite !Z.sub_diag.
  rewrite <- (Z2Nat.id (x2 - x1)), <- (Z2Nat.id (y2 - y1)) by lia.
  apply crop_whole; [done|done|]. intros ->. simpl in Hvh. lia.
Qed.
End SubArrays.

(** ** Overlapping boxes *)

Section Overlap.
Context {pixel : Type}.
Variable GaussianBlur : image pixel -> result (image pixel).
Implicit Types (img page out : image pixel) (box : Box) (ra rb : Z * Z * Z * Z).

Lemma setitem_blurred page x1 y1 x2 y2 blurred :
  same_shape (getitem page y1 y2 x1 x2) blurred = true ->
  exists out, setitem page y1 y2 x1 x2 blurred = Ok out.
Proof. intros Hshape. unfold setitem. rewrite Hshape. by eexists. Qed.

(** Two regions, the second inside the first: the second blur reads the
    output of the first. *)
Lemma blur_inner_after_outer img ra rb :
  rectangular img -> blur_contract GaussianBlur ->
  within img ra -> contains ra rb ->
  exists blurred_a blurred_b out,
    GaussianBlur (crop img ra) = Ok blurred_a /\
    GaussianBlur (crop blurred_a (relative ra rb)) = Ok blurred_b /\
    for_each (blur_region GaussianBlur) [ra; rb] img = Ok out /\
    crop out rb = blurred_b.
Proof.
  destruct ra as [[[ax1 ay1] ax2] ay2], rb as [[[bx1 by1] bx2] by2].
  intros Hrect Hblur Hin Hcont.
  destruct (Hblur _ (size_getitem_pos _ _ _ _ _ Hrect Hin)) as (blurred_a & Ha & Hsa).
  destruct (setitem_blurred _ _ _ _ _ _ Hsa) as [page1 Hpage1].
  pose proof (setitem_rectangular _ _ _ _ _ _ _ Hpage1 Hrect) as Hrect1.
  destruct (setitem_shape _ _ _ _ _ _ _ Hpage1) as [Hl1 Hw1].
  assert (within page1 (bx1, by1, bx2, by2)) as Hin1.
  { unfold within, contains, shape0 in *. rewrite shape1_width in *.
    rewrite Hl1, Hw1. lia. }
  pose proof (crop_setitem_inner img (ax1, ay1, ax2, ay2) (bx1, by1, bx2, by2)
                blurred_a page1 Hrect Hin Hcont Hpage1) as Hread.
  destruct (Hblur _ (size_getitem_pos _ _ _ _ _ Hrect1 Hin1)) as (blurred_b & Hb & Hsb).
  destruct (setitem_blurred _ _ _ _ _ _ Hsb) as [out Hout].
  exists blurred_a, blurred_b, out. split_and!.
  - exact Ha.
  - rewrite <- Hread. exact Hb.
  - cbn [for_each]. unfold blur_region at 1. rewrite Ha. simpl. rewrite Hpage1. simpl.
    unfold blur_region. rewrite Hb. simpl. by rewrite Hout.
  - by apply (crop_setitem_same page1 (bx1, by1, bx2, by2)).
Qed.

Lemma clip_within img box :
  within img (corners box) ->
  clip_to_bounds img box = corners box /\ survives img box = true.
Proof.
  unfold within, survives, clip_to_bounds, corners. intros [Hx Hy].
  rewrite !Z.max_r, !Z.min_r by lia.
  split; [done|]. apply andb_true_intro. split; apply Z.gtb_lt; lia.
Qed.

Lemma for_each_blur_box (bs : list Box) page :
  for_each (blur_box GaussianBlur) bs page
    = for_each (blur_region GaussianBlur) (corners <$> bs) page.
Proof.
  revert page. induction bs as [|b bs IH]; intros page; [done|].
  rewrite fmap_cons. cbn [for_each].
  change (blur_box GaussianBlur page b)
    with (blur_region GaussianBlur page (corners b)).
  destruct (blur_region _ _ _); simpl; [apply IH | done].
Qed.

Lemma mask_clipped_pair {S} (load : M S (detector pixel)) img (s : S) a b out :
  rectangular img -> within img (corners a) -> within img (corners b) ->
  answers load img s [a; b] ->
  for_each (blur_region GaussianBlur) [corners a; corners b] img = Ok out ->
  (mask_clipped GaussianBlur load img s).1 = (out, 2).
Proof.
  intros Hrect Ha Hb (model & s' & Hload & Hmodel) Hout.
  assert (regions img [a; b] = [corners a; corners b]) as Hregs.
  { destruct (clip_within _ _ Ha) as [Hca Hsa], (clip_within _ _ Hb) as [Hcb Hsb].
    unfold regions. cbn [List.filter]. rewrite Hsa, Hsb, !fmap_cons.
    by rewrite Hca, Hcb. }
  rewrite mask_clipped_regions by done.
  unfold detections. rewrite Hload, Hmodel.
  change (reported [mkResults pixel img (Some [a; b])]) with [a; b].
  by rewrite Hregs, Hout.
Qed.

Lemma mask_unclipped_pair {S} (load : M S (detector pixel)) img (s : S) a b out :
  answers load img s [a; b] ->
  for_each (blur_region GaussianBlur) [corners a; corners b] img = Ok out ->
  (mask_unclipped GaussianBlur load img s).1 = (out, 2).
Proof.
  intros (model & s' & Hload & Hmodel) Hout.
  unfold mask_unclipped, try_default, bind, lift, ret. rewrite Hload, Hmodel.
  cbn [boxes orig_img]. rewrite for_each_blur_box. simpl in *. by rewrite Hout.
Qed.
End Overlap.

Lemma mean_blur_contract : blur_contract Sample.mean_blur.
Proof.
  intros roi Hsize. unfold Sample.mean_blur.
  destruct (Z.eqb_spec (size roi) 0) as [Hz|_]; [lia|].
  eexists. split; [done|]. apply same_shape_rows.
  apply Forall2_fmap_r, Forall_Forall2_diag, Forall_forall.
  intros r _. symmetry. apply length_fmap.
Qed.

(** C6.  Boxes are blurred one after the other in the order of the
    detector, each blur reading the page as the earlier ones left it, with
    no merging: when box [b] follows box [a] and lies inside it, the
    pixels of [b] in the masked page are the blur of pixels that the blur
    of [a] produced, and both boxes are counted.  This holds in
    [pan_masking_server.py] and in [document_masking_server.py]. *)
Theorem overlapping_boxes_are_blurred_twice :
  forall (pixel : Type) (GaussianBlur : image pixel -> result (image pixel))
         (YOLO : string -> result (detector pixel)) (img : image pixel) (a b : Box),
    rectangular img -> blur_contract GaussianBlur ->
    within img (corners a) -> contains (corners a) (corners b) ->
    exists blurred_a blurred_b,
      GaussianBlur (crop img (corners a)) = Ok blurred_a /\
      GaussianBlur (crop blurred_a (relative (corners a) (corners b))) = Ok blurred_b /\
      (forall g : PanMasking.globals pixel,
          answers (PanMasking.load_model YOLO) img g [a; b] ->
          crop (PanMasking.mask_pan_in_image GaussianBlur YOLO img g).1.1 (corners b)
            = blurred_b /\
          (PanMasking.mask_pan_in_image GaussianBlur YOLO img g).1.2 = 2) /\
      (forall g : DocumentMasking.globals pixel,
          answers (DocumentMasking.load_model YOLO) img g [a; b] ->
          crop (DocumentMasking.mask_pii_in_image GaussianBlur YOLO img g).1.1 (corners b)
            = blurred_b /\
          (DocumentMasking.mask_pii_in_image GaussianBlur YOLO img g).1.2 = 2).
Proof.
  intros pixel GaussianBlur YOLO img a b Hrect Hblur Ha Hab.
  destruct (blur_inner_after_outer GaussianBlur img _ _ Hrect Hblur Ha Hab)
    as (blurred_a & blurred_b & out & HA & HB & Hout & Hread).
  assert (within img (corners b)) as Hb.
  { destruct (corners a) as [[[ax1 ay1] ax2] ay2], (corners b) as [[[bx1 by1] bx2] by2].
    unfold within, contains in *. lia. }
  exists blurred_a, blurred_b. split_and!; [done|done|..].
  - intros g Hanswer. unfold PanMasking.mask_pan_in_image.
    by rewrite (mask_clipped_pair GaussianBlur _ img g a b out).
  - intros g Hanswer. unfold DocumentMasking.mask_pii_in_image.
    by rewrite (mask_unclipped_pair GaussianBlur _ img g a b out).
Qed.

Lemma overlapping_boxes_are_blurred_twice_witness :
  let a := Sample.inner in
  let b := Sample.box 1 1 2 2 in
  let g := PanMasking.mkGlobals Z (Some (Sample.reports [a; b])) in
  rectangular Sample.page /\ within Sample.page (corners a) /\
  contains (corners a) (corners b) /\
  Sample.mean_blur (crop Sample.page (corners b)) = Ok [[42]] /\
  exists blurred_a,
    Sample.mean_blur (crop Sample.page (corners a)) = Ok blurred_a /\
    Sample.mean_blur (crop blurred_a (relative (corners a) (corners b))) = Ok [[84]] /\
    crop (PanMasking.mask_pan_in_image Sample.mean_blur Sample.unavailable
            Sample.page g).1.1 (corners b) = [[84]].
Proof.
  intros a b g.
  assert (rectangular Sample.page) as Hrect by (repeat constructor).
  assert (within Sample.page (corners a)) as Ha by (vm_compute; intuition discriminate).
  assert (contains (corners a) (corners b)) as Hab by (vm_compute; intuition discriminate).
  split_and!; [exact Hrect | exact Ha | exact Hab | reflexivity |].
  destruct (overlapping_boxes_are_blurred_twice Z Sample.mean_blur Sample.unavailable
              Sample.page a b Hrect mean_blur_contract Ha Hab)
    as (blurred_a & blurred_b & HA & HB & Hpan & _).
  destruct (Hpan g) as [Hcrop _].
  { eexists _, _. split; reflexivity. }
  injection HA as <-.
  assert (blurred_b = [[84]]) as -> by (vm_compute in HB; congruence).
  exists [[84; 84; 84]; [84; 84; 84]; [84; 84; 84]].
  split_and!; [reflexivity | reflexivity | exact Hcrop].
Defined.

(** ** Counting *)

Section Counting.
Context {pixel S : Type}.
Variable GaussianBlur : image pixel -> result (image pixel).
Variable load : M S (detector pixel).

(** Under OpenCV's contract the clipping engine counts the boxes that
    survive clipping, and has blurred the post-clip region of each. *)
Lemma mask_clipped_counts (img : image pixel) (s : S) :
  rectangular img -> blur_contract GaussianBlur ->
  exists out,
    for_each (blur_region GaussianBlur) (regions img (detections load img s)) img = Ok out /\
    mask_clipped GaussianBlur load img s =
      ((out, Z.of_nat (length (regions img (detections load img s)))), (load s).2).
Proof.
  intros Hrect Hblur.
  destruct (blur_regions_succeed GaussianBlur img
              (regions img (detections load img s)) img Hblur)
    as [out Hout]; [apply regions_within|done..|].
  exists out. split; [done|]. by rewrite mask_clipped_regions, Hout.
Qed.

(** The dispatcher's total is the sum of the per-page numbers. *)
Lemma mask_pages_clipped_total (images masked : list (image pixel)) (total : Z) (s : S) :
  Forall rectangular images -> blur_contract GaussianBlur ->
  (mask_pages (mask_clipped GaussianBlur load) images masked total s).1.2
    = total + foldr Z.add 0 (survivors load images s).
Proof.
  intros Hrect Hblur. revert masked total s.
  induction Hrect as [|img rest Himg _ IH]; intros masked total s; simpl; [lia|].
  destruct (mask_clipped_counts img s Himg Hblur) as (out & _ & ->).
  rewrite IH. lia.
Qed.
End Counting.

(** In [pan_masking_server.py] and [unified_pii_server.py] the total the
    endpoint reports for a PDF is the sum, over its pages, of the number
    of boxes that survive clipping on the page; each of them was blurred
    ([mask_clipped_counts]). *)
Theorem clipped_servers_count_survivors :
  forall (X pixel : Type) (GaussianBlur : image pixel -> result (image pixel))
         (YOLO : string -> result (detector pixel)) (base_name : string)
         (images : list (image pixel)),
    Forall rectangular images -> blur_contract GaussianBlur ->
    (forall g : PanMasking.globals pixel,
        reported_total
          (PanMasking.mask_pan_document GaussianBlur YOLO
             (PdfUpload base_name (Ok images)) g).1.1
        = Some (foldr Z.add 0 (survivors (PanMasking.load_model YOLO) images g))) /\
    (forall g : Unified.globals X pixel,
        reported_total
          (Unified.mask_aadhar_document GaussianBlur YOLO
             (PdfUpload base_name (Ok images)) g).1.1
        = Some (foldr Z.add 0 (survivors (Unified.select_model YOLO "aadhar") images g))) /\
    (forall g : Unified.globals X pixel,
        reported_total
          (Unified.mask_pan_document GaussianBlur YOLO
             (PdfUpload base_name (Ok images)) g).1.1
        = Some (foldr Z.add 0 (survivors (Unified.select_model YOLO "pan") images g))).
Proof.
  intros X pixel GaussianBlur YOLO base_name images Hrect Hblur.
  split_and!; intros g.
  - unfold PanMasking.mask_pan_document, mask_endpoint.
    pose proof (mask_pages_clipped_total GaussianBlur (PanMasking.load_model YOLO)
                  images [] 0 g Hrect Hblur) as Htotal.
    unfold PanMasking.mask_pan_in_image.
    destruct (mask_pages _ images [] 0 g) as [[masked total] g'].
    simpl in *. by rewrite Htotal.
  - unfold Unified.mask_aadhar_document, mask_endpoint.
    pose proof (mask_pages_clipped_total GaussianBlur (Unified.select_model YOLO "aadhar")
                  images [] 0 g Hrect Hblur) as Htotal.
    unfold Unified.mask_pii_in_image.
    destruct (mask_pages _ images [] 0 g) as [[masked total] g'].
    simpl in *. by rewrite Htotal.
  - unfold Unified.mask_pan_document, mask_endpoint.
    pose proof (mask_pages_clipped_total GaussianBlur (Unified.select_model YOLO "pan")
                  images [] 0 g Hrect Hblur) as Htotal.
    unfold Unified.mask_pii_in_image.
    destruct (mask_pages _ images [] 0 g) as [[masked total] g'].
    simpl in *. by rewrite Htotal.
Qed.

Lemma clipped_servers_count_survivors_witness :
  let g := PanMasking.mkGlobals Z (Some (Sample.reports [Sample.inner; Sample.sliver])) in
  Forall rectangular [Sample.page; Sample.page] /\
  reported_total
    (PanMasking.mask_pan_document Sample.mean_blur Sample.unavailable
       (PdfUpload "scan" (Ok [Sample.page; Sample.page])) g).1.1 = Some 2.
Proof.
  intros g.
  assert (Forall rectangular [Sample.page; Sample.page]) as Hrect
    by (repeat constructor).
  split; [exact Hrect|].
  destruct (clipped_servers_count_survivors unit Z Sample.mean_blur Sample.unavailable
              "scan" [Sample.page; Sample.page] Hrect mean_blur_contract) as [Hpan _].
  rewrite Hpan. reflexivity.
Defined.

(** In [pan_masking_server.py] and [unified_pii_server.py] every region
    the engine slices lies within the page and is not empty, and the
    masked page is the input page with exactly these regions blurred, in
    order; a box whose post-clip width or height is not positive is left
    out of them. *)
Theorem clipped_servers_blur_within_bounds :
  forall (X pixel : Type) (GaussianBlur : image pixel -> result (image pixel))
         (YOLO : string -> result (detector pixel)) (img : image pixel),
    rectangular img ->
    (forall g : PanMasking.globals pixel,
        let regs := regions img (detections (PanMasking.load_model YOLO) img g) in
        Forall (within img) regs /\
        (PanMasking.mask_pan_in_image GaussianBlur YOLO img g).1 =
          match for_each (blur_region GaussianBlur) regs img with
          | Ok out => (out, Z.of_nat (length regs))
          | Raise _ => (img, 0)
          end) /\
    (forall (model_type : string) (g : Unified.globals X pixel),
        let regs := regions img (detections (Unified.select_model YOLO model_type) img g) in
        Forall (within img) regs /\
        (Unified.mask_pii_in_image GaussianBlur YOLO img model_type g).1 =
          match for_each (blur_region GaussianBlur) regs img with
          | Ok out => (out, Z.of_nat (length regs))
          | Raise _ => (img, 0)
          end).
Proof.
  intros X pixel GaussianBlur YOLO img Hrect. split; intros; subst regs.
  - split; [apply regions_within|].
    unfold PanMasking.mask_pan_in_image. by rewrite mask_clipped_regions.
  - split; [apply regions_within|].
    unfold Unified.mask_pii_in_image. by rewrite mask_clipped_regions.
Qed.

Lemma clipped_servers_blur_within_bounds_witness :
  let g :=
    PanMasking.mkGlobals Z
      (Some (Sample.reports [Sample.inner; Sample.sliver; Sample.outside])) in
  rectangular Sample.page /\
  regions Sample.page (detections (PanMasking.load_model Sample.unavailable) Sample.page g)
    = [(1, 1, 4, 4)] /\
  (PanMasking.mask_pan_in_image Sample.mean_blur Sample.unavailable Sample.page g).1.2 = 1.
Proof.
  intros g.
  assert (rectangular Sample.page) as Hrect by (repeat constructor).
  split_and!; [exact Hrect | reflexivity |].
  destruct (clipped_servers_blur_within_bounds unit Z Sample.mean_blur Sample.unavailable
              Sample.page Hrect) as [Hpan _].
  destruct (Hpan g) as [_ ->]. reflexivity.
Defined.

(** ** [document_masking_server.py] does not clip *)

(** The engine of [document_masking_server.py] either returns the page
    untouched with the count 0 or counts every reported box. *)
Lemma mask_unclipped_counts {pixel : Type}
    (GaussianBlur : image pixel -> result (image pixel))
    (YOLO : string -> result (detector pixel)) (d : detector pixel)
    (img : image pixel) (bs : list Box) :
  d img = Ok [mkResults pixel img (Some bs)] ->
  let g := DocumentMasking.mkGlobals pixel (Some d) in
  DocumentMasking.mask_pii_in_image GaussianBlur YOLO img g = ((img, 0), g) \/
  exists out,
    DocumentMasking.mask_pii_in_image GaussianBlur YOLO img g
      = ((out, Z.of_nat (length bs)), g).
Proof.
  intros Hd g.
  unfold DocumentMasking.mask_pii_in_image, mask_unclipped, try_default, bind, lift, ret.
  unfold DocumentMasking.load_model, load_global. simpl. rewrite Hd. simpl.
  destruct (for_each _ bs img) as [out|]; [right; by exists out | by left].
Qed.

(** C2 on [document_masking_server.py], where the loop has no clipping and
    no guard.  The page [Sample.page] carries a box inside the page and a
    sliver of width 0; clipping keeps the first and skips the second.  The
    server, with a blur that rejects an empty source as OpenCV's does,
    returns the page unmasked with the count 0, and with any blur it
    either does so or counts both boxes; [pan_masking_server.py] blurs the
    first box and counts 1.  A box left of the page is read and written,
    by Python's negative indices, at the right-hand side of the page. *)
Theorem unclipped_engine_reads_unclipped_boxes :
  forall (GaussianBlur : image Z -> result (image Z))
         (YOLO : string -> result (detector Z)),
    let boxes := [Sample.inner; Sample.sliver] in
    let doc := DocumentMasking.mkGlobals Z (Some (Sample.reports boxes)) in
    let pan := PanMasking.mkGlobals Z (Some (Sample.reports boxes)) in
    let stray := DocumentMasking.mkGlobals Z (Some (Sample.reports [Sample.outside])) in
    regions Sample.page boxes = [(1, 1, 4, 4)] /\
    (DocumentMasking.mask_pii_in_image Sample.mean_blur YOLO Sample.page doc).1
      = (Sample.page, 0) /\
    ((DocumentMasking.mask_pii_in_image GaussianBlur YOLO Sample.page doc).1
       = (Sample.page, 0) \/
     (DocumentMasking.mask_pii_in_image GaussianBlur YOLO Sample.page doc).1.2 = 2) /\
    (PanMasking.mask_pan_in_image Sample.mean_blur YOLO Sample.page pan).1.2 = 1 /\
    pixel_at (PanMasking.mask_pan_in_image Sample.mean_blur YOLO Sample.page pan).1.1 2 2
      = Some 84 /\
    regions Sample.page [Sample.outside] = [] /\
    (DocumentMasking.mask_pii_in_image Sample.mean_blur YOLO Sample.page stray).1.2 = 1 /\
    pixel_at Sample.page 0 3 = Some 18 /\
    pixel_at (DocumentMasking.mask_pii_in_image Sample.mean_blur YOLO Sample.page stray).1.1
      0 3 = Some 39.
Proof.
  intros GaussianBlur YOLO boxes doc pan stray.
  split_and!; try reflexivity.
  destruct (mask_unclipped_counts GaussianBlur YOLO (Sample.reports boxes) Sample.page
              boxes eq_refl) as [Hraise|[out Hout]].
  - left. fold doc in Hraise. by rewrite Hraise.
  - right. fold doc in Hout. by rewrite Hout.
Qed.

(** C1 on [document_masking_server.py]: for a one-page PDF whose page
    carries the two boxes above, one box survives clipping, yet the
    endpoint never reports 1: with a blur that rejects an empty source it
    reports 0 (and nothing was blurred), with any blur 0 or 2.  The
    endpoint of [pan_masking_server.py] reports 1. *)
Theorem unclipped_engine_total_diverges :
  forall (GaussianBlur : image Z -> result (image Z))
         (YOLO : string -> result (detector Z)),
    let boxes := [Sample.inner; Sample.sliver] in
    let doc := DocumentMasking.mkGlobals Z (Some (Sample.reports boxes)) in
    let pan := PanMasking.mkGlobals Z (Some (Sample.reports boxes)) in
    let scan := PdfUpload "scan" (Ok [Sample.page]) in
    survivors (DocumentMasking.load_model YOLO) [Sample.page] doc = [1] /\
    reported_total (DocumentMasking.mask_document Sample.mean_blur YOLO scan doc).1.1
      = Some 0 /\
    (reported_total (DocumentMasking.mask_document GaussianBlur YOLO scan doc).1.1 = Some 0 \/
     reported_total (DocumentMasking.mask_document GaussianBlur YOLO scan doc).1.1 = Some 2) /\
    reported_total (PanMasking.mask_pan_document Sample.mean_blur YOLO scan pan).1.1
      = Some 1.
Proof.
  intros GaussianBlur YOLO boxes doc pan scan.
  split_and!; try reflexivity.
  unfold scan, DocumentMasking.mask_document, mask_endpoint, mask_pages.
  destruct (mask_unclipped_counts GaussianBlur YOLO (Sample.reports boxes) Sample.page
              boxes eq_refl) as [Hraise|[out Hout]].
  - left. fold doc in Hraise. by rewrite Hraise.
  - right. fold doc in Hout. by rewrite Hout.
Qed.

(** ** Uploads *)

Section StringFacts.
Implicit Types (s before after : string) (p : ascii -> bool).

Lemma has_app p s1 s2 : has p (s1 ++ s2)%string = has p s1 || has p s2.
Proof. induction s1 as [|c s1 IH]; simpl; [done|]. by rewrite IH, orb_assoc. Qed.

Lemma split_last_None p s : split_last p s = None <-> has p s = false.
Proof.
  induction s as [|c s IH]; simpl; [done|].
  destruct (split_last p s) as [[before after]|].
  - split; [done|]. intros [_ Hs]%orb_false_elim. by apply IH in Hs.
  - destruct (p c); simpl; [by split | by rewrite <- IH].
Qed.

(** [split_last] cuts at a character that satisfies [p] and is the last
    to do so. *)
Lemma split_last_Some p s before after :
  split_last p s = Some (before, after) <->
  exists c, p c = true /\ s = (before ++ String c after)%string /\ has p after = false.
Proof.
  revert before. induction s as [|c s IH]; intros before; simpl.
  - split; [done|]. intros (c & _ & Hs & _). by destruct before.
  - destruct (split_last p s) as [[before' after']|] eqn:Hs.
    + split.
      * intros [= <- <-]. destruct (proj1 (IH before') eq_refl) as (c' & Hc' & -> & Hafter).
        by exists c'.
      * intros (c' & Hc' & Heq & Hafter). destruct before as [|b before]; simpl in Heq.
        -- injection Heq as -> ->. apply split_last_None in Hafter. congruence.
        -- injection Heq as -> ->.
           assert (Some (before', after') = Some (before, after)) as [= -> ->]
             by (apply IH; by exists c').
           done.
    + apply split_last_None in Hs. split.
      * destruct (p c) eqn:Hc; [|done]. intros [= <- <-]. by exists c.
      * intros (c' & Hc' & Heq & Hafter). destruct before as [|b before]; simpl in Heq.
        -- injection Heq as -> ->. by rewrite Hc'.
        -- injection Heq as -> ->. rewrite has_app in Hs. simpl in Hs.
           rewrite Hc' in Hs. simpl in Hs. by rewrite orb_true_r in Hs.
Qed.

Lemma in_str_dot s : in_str "." s = has is_dot s.
Proof.
  induction s as [|c s IH]; [done|].
  cbn [in_str has]. rewrite IH. f_equal.
  change (String.prefix "." (String c s))
    with (if ascii_dec "." c then String.prefix "" s else false).
  unfold is_dot. destruct (ascii_dec "." c) as [<-|Hne].
  - by destruct s.
  - symmetry. apply Ascii.eqb_neq. congruence.
Qed.
End StringFacts.

Lemma elem_of_ALLOWED_EXTENSIONS (e : string) :
  e ∈ ALLOWED_EXTENSIONS <-> e = "png" \/ e = "jpg" \/ e = "jpeg" \/ e = "pdf".
Proof.
  unfold ALLOWED_EXTENSIONS. rewrite !elem_of_union, !elem_of_singleton. tauto.
Qed.

(** [allowed_file] accepts exactly the names whose text after the last
    dot is, in any letter case, one of png, jpg, jpeg, pdf; a name without
    a dot is refused. *)
Theorem allowed_file_by_last_extension :
  forall filename : string,
    (allowed_file filename = true <->
     exists stem extension,
       filename = (stem ++ "." ++ extension)%string /\
       in_str "." extension = false /\
       (lower extension = "png" \/ lower extension = "jpg" \/
        lower extension = "jpeg" \/ lower extension = "pdf")) /\
    (in_str "." filename = false -> allowed_file filename = false).
Proof.
  intros filename. split; [|by unfold allowed_file; intros ->].
  unfold allowed_file, rsplit_dot. rewrite in_str_dot.
  destruct (split_last is_dot filename) as [[before after]|] eqn:Hsplit.
  - pose proof (proj1 (split_last_Some _ _ _ _) Hsplit) as (c & Hc & -> & Hafter).
    apply Ascii.eqb_eq in Hc as ->.
    rewrite has_app. simpl. rewrite orb_true_r. simpl.
    rewrite bool_decide_eq_true, elem_of_ALLOWED_EXTENSIONS. split.
    + intros Hin. exists before, after. rewrite in_str_dot. done.
    + intros (stem & extension & Heq & Hext & Hin). rewrite in_str_dot in Hext.
      assert (split_last is_dot (before ++ String "." after)
              = Some (stem, extension)) as Hsplit'.
      { apply split_last_Some. exists "."%char. split_and!; [done| |done].
        by rewrite Heq. }
      rewrite Hsplit in Hsplit'. by injection Hsplit' as -> ->.
  - apply split_last_None in Hsplit. rewrite Hsplit. simpl. split; [done|].
    intros (stem & extension & -> & _). rewrite has_app in Hsplit. simpl in Hsplit.
    by rewrite orb_true_r in Hsplit.
Qed.

Section NameFacts.
Implicit Types (s t stem extension suffix : string).

Lemma lower_app s t : lower (s ++ t) = (lower s ++ lower t)%string.
Proof. induction s as [|c s IH]; simpl; [done|]. by rewrite IH. Qed.

Lemma is_dot_lower_ascii (c : ascii) : is_dot (lower_ascii c) = is_dot c.
Proof. destruct c as [[] [] [] [] [] [] [] []]; reflexivity. Qed.

Lemma has_dot_lower s : has is_dot (lower s) = has is_dot s.
Proof.
  induction s as [|c s IH]; simpl; [done|]. by rewrite IH, is_dot_lower_ascii.
Qed.

Lemma endswith_spec s suffix :
  endswith s suffix = true <-> exists t, s = (t ++ suffix)%string.
Proof.
  induction s as [|c s IH]; cbn [endswith].
  - rewrite orb_false_r, String.eqb_eq. split.
    + intros <-. by exists EmptyString.
    + intros (t & Ht). destruct t; simpl in Ht; [done|discriminate].
  - rewrite orb_true_iff, String.eqb_eq, IH. split.
    + intros [<-|(t & ->)]; [by exists EmptyString | by exists (String c t)].
    + intros ([|c' t] & Ht); simpl in Ht; [by left|].
      injection Ht as -> ->. right. by exists t.
Qed.

(** A name ends in [.pdf] exactly when its last extension is [pdf]. *)
Lemma endswith_pdf stem extension :
  has is_dot extension = false ->
  endswith (stem ++ "." ++ extension) ".pdf" = true <-> extension = "pdf".
Proof.
  intros Hext. rewrite endswith_spec. split.
  - intros (t & Ht).
    assert (split_last is_dot (stem ++ String "." extension) = Some (stem, extension)) as H1
      by (apply split_last_Some; by exists "."%char).
    assert (split_last is_dot (stem ++ String "." extension) = Some (t, "pdf")) as H2.
    { apply split_last_Some. exists "."%char. split_and!; [done|exact Ht|done]. }
    rewrite H1 in H2. by injection H2.
  - intros ->. by exists stem.
Qed.

(** [splitext] of a plain file name: the stem and the last extension. *)
Lemma splitext_stem (is_sep : ascii -> bool) stem extension :
  has is_sep (stem ++ "." ++ extension) = false ->
  has (fun c => negb (is_dot c)) stem = true ->
  has is_dot extension = false ->
  splitext is_sep (stem ++ "." ++ extension) = (stem, ("." ++ extension)%string).
Proof.
  change (stem ++ "." ++ extension)%string with (stem ++ String "." extension)%string.
  intros Hsep Hstem Hext. unfold splitext.
  assert (split_last is_dot (stem ++ String "." extension) = Some (stem, extension)) as ->
    by (apply split_last_Some; by exists "."%char).
  rewrite has_app in Hsep. apply orb_false_elim in Hsep as [Hs He].
  cbn [has] in He. apply orb_false_elim in He as [_ He].
  rewrite (proj2 (split_last_None is_sep stem) Hs), He, Hstem. done.
Qed.
End NameFacts.

Section RequestFacts.
Context {pixel S : Type}.
Variable secure_filename : string -> string.
Variable is_sep : ascii -> bool.
Implicit Types (file : FileStorage pixel) (d : disk pixel) (s : S).

(** A request that passes validation: the dispatcher runs on the saved
    upload. *)
Lemma mask_request_accepted endpoint file s d :
  filename file <> "" -> allowed_file (filename file) = true ->
  mask_request secure_filename is_sep endpoint (Some file) s d =
    let name := secure_filename (filename file) in
    let input_path := join UPLOAD_FOLDER name in
    let u :=
      if endswith (lower name) ".pdf"
      then PdfUpload (splitext is_sep name).1 (as_pdf file)
      else ImageUpload (splitext is_sep name).1 (as_image file) in
    let d1 := save_result (endpoint u s).1.2 (mkDisk ({[input_path]} ∪ uploads d) (results d)) in
    match json (endpoint u s).1.1 with
    | SuccessBody _ _ _ _ =>
        ((endpoint u s).1.1, (endpoint u s).2, mkDisk (uploads d1 ∖ {[input_path]}) (results d1))
    | ErrorBody _ => ((endpoint u s).1.1, (endpoint u s).2, d1)
    end.
Proof.
  intros Hname Hallowed. unfold mask_request.
  rewrite (proj2 (String.eqb_neq _ _) Hname), Hallowed. simpl.
  by destruct (endpoint _ s) as [[reply written] s'].
Qed.

Lemma mask_pages_length (mask : image pixel -> S -> (image pixel * Z) * S)
    (images masked : list (image pixel)) (total : Z) s :
  length (mask_pages mask images masked total s).1.1 = (length masked + length images)%nat.
Proof.
  revert masked total s. induction images as [|img rest IH]; intros masked total s; simpl.
  - lia.
  - destruct (mask img s) as [[masked_img detections] s']. rewrite IH, length_app. simpl. lia.
Qed.
End RequestFacts.

(** A successful reply names its output after the stem of the saved
    name: [<stem><suffix>.pdf] when the last extension is pdf in any
    letter case, [<stem><suffix>.jpg] for every other accepted extension,
    and the download URL is [/download/] followed by that name. *)
Theorem output_named_by_stem_and_kind :
  forall (pixel S : Type) (secure_filename : string -> string) (is_sep : ascii -> bool)
         (mask : image pixel -> S -> (image pixel * Z) * S) (suffix : string)
         (message : Z -> string) (file : FileStorage pixel) (stem extension : string)
         (s : S) (d : disk pixel),
    filename file <> "" -> allowed_file (filename file) = true ->
    secure_filename (filename file) = (stem ++ "." ++ extension)%string ->
    has is_sep (stem ++ "." ++ extension) = false ->
    has (fun c => negb (is_dot c)) stem = true ->
    in_str "." extension = false ->
    forall msg n output_file download_url,
      json (mask_request secure_filename is_sep (mask_endpoint mask suffix message)
              (Some file) s d).1.1
        = SuccessBody msg n output_file download_url ->
      output_file
        = (stem ++ suffix ++ (if String.eqb (lower extension) "pdf" then ".pdf" else ".jpg"))%string
      /\ download_url = ("/download/" ++ output_file)%string.
Proof.
  intros pixel S secure_filename is_sep mask suffix message file stem extension s d
    Hname Hallowed Hsecure Hsep Hstem Hext msg n output_file download_url.
  rewrite mask_request_accepted by done. cbv zeta.
  rewrite Hsecure, (splitext_stem is_sep stem extension Hsep Hstem)
    by (by rewrite <- in_str_dot).
  change (stem ++ "." ++ extension)%string with (stem ++ String "." extension)%string.
  rewrite lower_app.
  change (lower (String "." extension)) with ("." ++ lower extension)%string.
  pose proof (endswith_pdf (lower stem) (lower extension)) as Hpdf.
  rewrite has_dot_lower, <- in_str_dot in Hpdf. specialize (Hpdf Hext).
  destruct (String.eqb_spec (lower extension) "pdf") as [Heq|Hne].
  - rewrite (proj2 Hpdf Heq). cbn [fst].
    destruct (as_pdf file) as [images|e]; cbn [mask_endpoint].
    + destruct (mask_pages mask images [] 0 s) as [[masked total] s'].
      cbn [fst snd json]. by intros [= <- <- <- <-].
    + cbn [fst snd json]. done.
  - destruct (endswith (lower stem ++ "." ++ lower extension) ".pdf") eqn:Hends;
      [exfalso; apply Hne; by apply Hpdf|].
    cbn [fst].
    destruct (as_image file) as [img|]; cbn [mask_endpoint].
    + destruct (mask img s) as [[masked total] s'].
      cbn [fst snd json]. by intros [= <- <- <- <-].
    + cbn [fst snd json]. done.
Qed.

Lemma output_named_by_stem_and_kind_witness :
  json (mask_request SampleRequests.keep SampleRequests.slash
          (DocumentMasking.mask_document Sample.mean_blur Sample.unavailable)
          (Some SampleRequests.scan_png)
          (DocumentMasking.mkGlobals Z (Some (Sample.reports [Sample.inner])))
          SampleRequests.empty_disk).1.1
    = SuccessBody "Document processed successfully! 1 PII regions masked." 1
        "Card_masked.jpg" "/download/Card_masked.jpg" /\
  "Card_masked.jpg" = ("Card" ++ "_masked" ++ ".jpg")%string.
Proof.
  assert (json (mask_request SampleRequests.keep SampleRequests.slash
                  (DocumentMasking.mask_document Sample.mean_blur Sample.unavailable)
                  (Some SampleRequests.scan_png)
                  (DocumentMasking.mkGlobals Z (Some (Sample.reports [Sample.inner])))
                  SampleRequests.empty_disk).1.1
          = SuccessBody "Document processed successfully! 1 PII regions masked." 1
              "Card_masked.jpg" "/download/Card_masked.jpg") as Hreply
    by (vm_compute; reflexivity).
  split; [exact Hreply|].
  apply (output_named_by_stem_and_kind Z _ SampleRequests.keep SampleRequests.slash
           (DocumentMasking.mask_pii_in_image Sample.mean_blur Sample.unavailable)
           "_masked" _ SampleRequests.scan_png "Card" "PNG" _ _
           ltac:(discriminate) ltac:(reflexivity) ltac:(reflexivity) ltac:(reflexivity)
           ltac:(reflexivity) ltac:(reflexivity) _ _ _ _ Hreply).
Defined.

(** With every file operation succeeding, the endpoint under their
    outcomes is [mask_request]. *)
Lemma mask_request_io_all_ok (pixel S : Type) (secure_filename : string -> string)
    (is_sep : ascii -> bool) (ops : file_ops)
    (mask : image pixel -> S -> (image pixel * Z) * S) (suffix : string)
    (message : Z -> string) (file : option (FileStorage pixel)) (s : S) (d : disk pixel) :
  file_save ops = Ok tt -> pdf_save ops = Ok tt -> imwrite ops = Ok true ->
  os_remove ops = Ok tt ->
  mask_request_io secure_filename is_sep ops (mask_endpoint mask suffix message) file s d
  = mask_request secure_filename is_sep (mask_endpoint mask suffix message) file s d.
Proof.
  intros Hsave Hpdf Himwrite Hremove. destruct file as [f|]; [|done].
  cbn [mask_request_io mask_request].
  destruct (String.eqb (filename f) ""); [done|].
  destruct (negb (allowed_file (filename f))); [done|].
  rewrite Hsave. cbv zeta.
  destruct (endswith _ ".pdf").
  - destruct (as_pdf f) as [images|e]; cbn [mask_endpoint]; [|done].
    destruct (mask_pages mask images [] 0 s) as [[masked total] s'].
    cbn [json]. destruct masked; cbn [images_to_pdf write_result save_result].
    + by rewrite Hremove.
    + by rewrite Hpdf, Hremove.
  - destruct (as_image f) as [img|]; cbn [mask_endpoint]; [|done].
    destruct (mask img s) as [[masked total] s'].
    cbn [json write_result save_result]. by rewrite Himwrite, Hremove.
Qed.

(** One conjunct of a trace: settled by the reply, by the outcomes in the
    context, or by [found]. *)
Ltac trace_facts found :=
  cbn [processing_failed json status uploads results save_result];
  split_and!;
  first
    [ done
    | by auto
    | by (intros;
          repeat match goal with
                 | H : ex _ |- _ => destruct H
                 | H : _ /\ _ |- _ => destruct H
                 | H : _ \/ _ |- _ => destruct H
                 end;
          first
            [ congruence
            | repeat match goal with
                     | H : ErrorBody _ = ErrorBody _ |- _ => cbv in H
                     end;
              congruence ])
    | by (intros; found) ].

(** What a failed masking request leaves behind.  The replies are 200,
    400 and 500.  A 400 changes neither [masked_results] nor the globals.
    A 500 changes [masked_results] only when it is [os.remove] that
    raised, after the masked file was written; it changes the globals
    only when writing the masked file or [os.remove] raised, after the
    masking; and when it is [file.save] that raised, nothing changed.  The
    saved upload is removed from [temp_uploads] by the path that answers
    200 and by no other: after "Could not read image file" and after a 500
    that follows a successful [file.save] it is still there. *)
Theorem failed_request_traces :
  forall (pixel S : Type) (secure_filename : string -> string) (is_sep : ascii -> bool)
         (ops : file_ops) (mask : image pixel -> S -> (image pixel * Z) * S)
         (suffix : string) (message : Z -> string) (file : option (FileStorage pixel))
         (s : S) (d : disk pixel),
    let '(reply, s', d') :=
      mask_request_io secure_filename is_sep ops (mask_endpoint mask suffix message)
        file s d in
    (status reply = 200 \/ status reply = 400 \/ status reply = 500) /\
    (status reply = 400 -> s' = s /\ results d' = results d) /\
    (status reply = 500 -> os_remove ops = Ok tt -> results d' = results d) /\
    (status reply = 500 -> pdf_save ops = Ok tt -> (exists ok, imwrite ops = Ok ok) ->
     os_remove ops = Ok tt -> s' = s) /\
    (forall e, status reply = 500 -> file_save ops = Raise e -> s' = s /\ d' = d) /\
    (status reply = 200 ->
     exists f, file = Some f /\
       uploads d' = uploads d ∖ {[join UPLOAD_FOLDER (secure_filename (filename f))]}) /\
    (json reply = ErrorBody "Could not read image file"
     \/ status reply = 500 /\ file_save ops = Ok tt ->
     exists f, file = Some f /\
       uploads d' = {[join UPLOAD_FOLDER (secure_filename (filename f))]} ∪ uploads d).
Proof.
  intros pixel S secure_filename is_sep ops mask suffix message file s d.
  destruct file as [f|]; cbn [mask_request_io]; [|by trace_facts idtac].
  destruct (String.eqb (filename f) "") eqn:Hname; [by trace_facts idtac|].
  destruct (allowed_file (filename f)) eqn:Hallowed; cbn [negb]; [|by trace_facts idtac].
  set (path := join UPLOAD_FOLDER (secure_filename (filename f))).
  assert (forall A : gset string, ({[path]} ∪ A) ∖ {[path]} = A ∖ {[path]}) as Hgone.
  { intros A. apply set_eq. intros x.
    rewrite !elem_of_difference, elem_of_union, elem_of_singleton. tauto. }
  destruct (file_save ops) as [[]|e] eqn:Hsave; [|by trace_facts idtac].
  cbv zeta.
  destruct (endswith _ ".pdf").
  - destruct (as_pdf f) as [images|e]; cbn [mask_endpoint].
    + destruct (mask_pages mask images [] 0 s) as [[masked total] s'].
      cbn [json]. destruct masked as [|page pages]; cbn [images_to_pdf write_result].
      * destruct (os_remove ops) as [[]|e] eqn:Hrm;
          trace_facts ltac:(exists f; split; [reflexivity|first [reflexivity|apply Hgone]]).
      * destruct (pdf_save ops) as [[]|e] eqn:Hpdf; cbn [bind_result];
          [destruct (os_remove ops) as [[]|e] eqn:Hrm|];
          trace_facts ltac:(exists f; split; [reflexivity|first [reflexivity|apply Hgone]]).
    + trace_facts ltac:(exists f; split; reflexivity).
  - destruct (as_image f) as [img|]; cbn [mask_endpoint].
    + destruct (mask img s) as [[masked total] s'].
      cbn [json write_result].
      destruct (imwrite ops) as [[|]|e] eqn:Himwrite; cbn [bind_result];
        [destruct (os_remove ops) as [[]|e] eqn:Hrm
        |destruct (os_remove ops) as [[]|e] eqn:Hrm|];
        trace_facts ltac:(exists f; split; [reflexivity|first [reflexivity|apply Hgone]]).
    + trace_facts ltac:(exists f; split; reflexivity).
Qed.

(** The theorem at an upload [Card.PNG] whose masking succeeds and whose
    [os.remove] raises: the reply is 500 "Processing failed", the masked
    file is in [masked_results] and the upload is still in
    [temp_uploads]. *)
Lemma failed_request_traces_witness :
  let g := PanMasking.mkGlobals Z (Some (Sample.reports [Sample.inner])) in
  let request :=
    mask_request_io SampleRequests.keep SampleRequests.slash SampleRequests.remove_denied
      (PanMasking.mask_pan_document Sample.mean_blur Sample.unavailable)
      (Some SampleRequests.scan_png) g SampleRequests.empty_disk in
  request.1.1 = processing_failed "[Errno 13] Permission denied" /\
  results request.2 !! "masked_results/Card_pan_masked.jpg"
    = Some (ImageFile
              (PanMasking.mask_pan_in_image Sample.mean_blur Sample.unavailable
                 Sample.page g).1.1) /\
  uploads request.2
    = {[ "temp_uploads/Card.PNG" ]} ∪ uploads SampleRequests.empty_disk.
Proof.
  intros g request.
  assert (request.1.1 = processing_failed "[Errno 13] Permission denied") as Hreply
    by (vm_compute; reflexivity).
  assert (results request.2 !! "masked_results/Card_pan_masked.jpg"
          = Some (ImageFile
                    (PanMasking.mask_pan_in_image Sample.mean_blur Sample.unavailable
                       Sample.page g).1.1)) as Hwritten
    by (vm_compute; reflexivity).
  split_and!; [exact Hreply|exact Hwritten|].
  pose proof (failed_request_traces Z _ SampleRequests.keep SampleRequests.slash
                SampleRequests.remove_denied
                (PanMasking.mask_pan_in_image Sample.mean_blur Sample.unavailable)
                "_pan_masked"
                (fun total_detections =>
                   "PAN card masked successfully! " ++ pretty total_detections
                   ++ " PII regions detected and masked.")%string
                (Some SampleRequests.scan_png) g SampleRequests.empty_disk) as Htraces.
  change (mask_request_io _ _ _ _ _ _ _) with request in Htraces.
  destruct request as [[reply s'] d']. cbn [fst snd] in *. subst reply.
  destruct Htraces as (_ & _ & _ & _ & _ & _ & Hupload).
  destruct Hupload as (f & [= <-] & Huploads); [right; split; reflexivity|].
  exact Huploads.
Defined.

(** What a success promises can be fetched, with three exceptions.  After
    a 200 reply the download of [output_file] serves the masked image, or
    the PDF of the masked pages, of this request, unless [send_file]
    raises (500 "Download failed").  The exceptions are an image for which
    [cv2.imwrite] answered [False], which the endpoint does not look at,
    and a PDF without pages: nothing was written for them, and the
    download answers as it did before the request, with an older file of
    that name or with 404 "File not found". *)
Theorem masked_result_can_be_downloaded :
  forall (pixel S : Type) (secure_filename : string -> string) (is_sep : ascii -> bool)
         (ops : file_ops) (mask : image pixel -> S -> (image pixel * Z) * S)
         (suffix : string) (message : Z -> string) (file : FileStorage pixel)
         (s : S) (d : disk pixel),
    let '(reply, s', d') :=
      mask_request_io secure_filename is_sep ops (mask_endpoint mask suffix message)
        (Some file) s d in
    let served (a : artifact pixel) (send_file : result unit) : download_reply pixel :=
      match send_file with
      | Ok _ => Attachment a
      | Raise e => DownloadError ("Download failed: " ++ e)%string 500
      end in
    forall msg n output_file download_url,
      json reply = SuccessBody msg n output_file download_url ->
      (exists original,
          as_image file = Some original /\ imwrite ops = Ok true /\
          forall send_file,
            download_file send_file output_file d'
            = served (ImageFile (mask original s).1.1) send_file) \/
      (exists original,
          as_image file = Some original /\ imwrite ops = Ok false /\
          forall send_file,
            download_file send_file output_file d' = download_file send_file output_file d) \/
      (exists images,
          as_pdf file = Ok images /\ images <> [] /\ pdf_save ops = Ok tt /\
          forall send_file,
            download_file send_file output_file d'
            = served (PdfFile (mask_pages mask images [] 0 s).1.1) send_file) \/
      (as_pdf file = Ok [] /\ n = 0 /\
       forall send_file,
         download_file send_file output_file d' = download_file send_file output_file d).
Proof.
  intros pixel S secure_filename is_sep ops mask suffix message file s d.
  cbn [mask_request_io].
  destruct (String.eqb (filename file) ""); [done|].
  destruct (allowed_file (filename file)); cbn [negb]; [|done].
  destruct (file_save ops) as [[]|e]; [|by intros ? ? ? ? [=]].
  cbv zeta.
  destruct (endswith _ ".pdf").
  - destruct (as_pdf file) as [images|e]; cbn [mask_endpoint]; [|done].
    pose proof (mask_pages_length mask images [] 0 s) as Hlen.
    destruct (mask_pages mask images [] 0 s) as [[masked total] s'] eqn:Hpages.
    cbn [json fst snd] in *.
    destruct images as [|img rest].
    + destruct masked; [|done]. simpl in Hpages. injection Hpages as <- <-.
      cbn [images_to_pdf write_result].
      destruct (os_remove ops) as [[]|e]; [|by intros ? ? ? ? [=]].
      intros msg n output_file download_url [= <- <- <- <-].
      right; right; right. done.
    + destruct masked as [|page pages]; [done|].
      cbn [images_to_pdf write_result].
      destruct (pdf_save ops) as [[]|e]; cbn [bind_result]; [|by intros ? ? ? ? [=]].
      destruct (os_remove ops) as [[]|e]; [|by intros ? ? ? ? [=]].
      intros msg n output_file download_url [= <- <- <- <-].
      right; right; left. exists (img :: rest). split_and!; [done|done|done|].
      intros send_file. unfold download_file. cbn [save_result results].
      by rewrite lookup_insert_eq, Hpages.
  - destruct (as_image file) as [img|]; cbn [mask_endpoint]; [|done].
    destruct (mask img s) as [[masked total] s'] eqn:Hmask.
    cbn [json write_result fst snd].
    destruct (imwrite ops) as [[|]|e]; cbn [bind_result]; [| |by intros ? ? ? ? [=]].
    + destruct (os_remove ops) as [[]|e]; [|by intros ? ? ? ? [=]].
      intros msg n output_file download_url [= <- <- <- <-].
      left. exists img. split_and!; [done|done|].
      intros send_file. unfold download_file. cbn [save_result results].
      by rewrite lookup_insert_eq, Hmask.
    + destruct (os_remove ops) as [[]|e]; [|by intros ? ? ? ? [=]].
      intros msg n output_file download_url [= <- <- <- <-].
      right; left. exists img. done.
Qed.

(** The theorem at the upload [Card.PNG] to [pan_masking_server.py] with
    one box on the page and every file operation succeeding: the download
    of [Card_pan_masked.jpg] serves the masked page. *)
Lemma masked_result_can_be_downloaded_witness :
  let g := PanMasking.mkGlobals Z (Some (Sample.reports [Sample.inner])) in
  let request :=
    mask_request_io SampleRequests.keep SampleRequests.slash SampleRequests.all_ok
      (PanMasking.mask_pan_document Sample.mean_blur Sample.unavailable)
      (Some SampleRequests.scan_png) g SampleRequests.empty_disk in
  json request.1.1
    = SuccessBody "PAN card masked successfully! 1 PII regions detected and masked." 1
        "Card_pan_masked.jpg" "/download/Card_pan_masked.jpg" /\
  download_file (Ok tt) "Card_pan_masked.jpg" request.2
    = Attachment
        (ImageFile
           (PanMasking.mask_pan_in_image Sample.mean_blur Sample.unavailable
              Sample.page g).1.1).
Proof.
  intros g request.
  assert (json request.1.1
          = SuccessBody "PAN card masked successfully! 1 PII regions detected and masked." 1
              "Card_pan_masked.jpg" "/download/Card_pan_masked.jpg") as Hreply
    by (vm_compute; reflexivity).
  split; [exact Hreply|].
  pose proof (masked_result_can_be_downloaded Z _ SampleRequests.keep SampleRequests.slash
                SampleRequests.all_ok
                (PanMasking.mask_pan_in_image Sample.mean_blur Sample.unavailable)
                "_pan_masked"
                (fun total_detections =>
                   "PAN card masked successfully! " ++ pretty total_detections
                   ++ " PII regions detected and masked.")%string
                SampleRequests.scan_png g SampleRequests.empty_disk) as Hserved.
  change (mask_request_io _ _ _ _ _ _ _) with request in Hserved.
  destruct request as [[reply s'] d']. cbn [fst snd] in *.
  destruct (Hserved _ _ _ _ Hreply)
    as [(original & [= <-] & _ & Hfile)|[(original & _ & [=] & _)
        |[(images & [=] & _)|([=] & _)]]].
  exact (Hfile (Ok tt)).
Defined.

(** ** More on the engines *)

(** Clipping keeps exactly the part of a box that lies on the page: a
    pixel is in the post-clip region when it is in the box and on the
    page; and a box survives clipping exactly when it covers some pixel of
    the page. *)
Theorem clipping_is_intersection_with_page :
  forall (pixel : Type) (img : image pixel) (box : Box),
    (forall y x : nat,
        inside (clip_to_bounds img box) y x <->
        inside (corners box) y x /\ (y < length img)%nat /\ (x < width img)%nat) /\
    (survives img box = true <->
     exists y x : nat,
       inside (corners box) y x /\ (y < length img)%nat /\ (x < width img)%nat).
Proof.
  intros pixel img box.
  assert (forall y x : nat,
             inside (clip_to_bounds img box) y x <->
             inside (corners box) y x /\ (y < length img)%nat /\ (x < width img)%nat) as Hin.
  { intros y x. unfold inside, clip_to_bounds, corners, shape0.
    rewrite shape1_width. lia. }
  split; [exact Hin|].
  unfold survives. split.
  - intros Hs. pose proof (survives_within img box Hs) as Hw.
    unfold survives in Hs. destruct (clip_to_bounds img box) as [[[x1 y1] x2] y2] eqn:Hclip.
    exists (Z.to_nat y1), (Z.to_nat x1). apply Hin. rewrite ?Hclip.
    unfold within, inside in *. lia.
  - intros (y & x & Hbox). apply Hin in Hbox.
    destruct (clip_to_bounds img box) as [[[x1 y1] x2] y2].
    unfold inside in Hbox. apply andb_true_intro. split; apply Z.gtb_lt; lia.
Qed.

Section EngineInvariants.
Context {pixel S : Type}.
Variable GaussianBlur : image pixel -> result (image pixel).
Implicit Types (img : image pixel) (load : M S (detector pixel)) (s : S).

Lemma mask_clipped_shape load img s :
  rectangular img ->
  let out := (mask_clipped GaussianBlur load img s).1.1 in
  length out = length img /\ width out = width img /\ rectangular out.
Proof.
  intros Hrect. rewrite mask_clipped_regions by done. cbn [fst].
  destruct (for_each _ _ img) as [out|] eqn:Hloop; cbn [fst]; [|done].
  destruct (blur_regions_shape GaussianBlur img _ img out Hloop) as (? & ? & ?); done.
Qed.

Lemma mask_unclipped_shape load img s :
  rectangular img -> keeps_orig_img load img s ->
  let out := (mask_unclipped GaussianBlur load img s).1.1 in
  length out = length img /\ width out = width img /\ rectangular out.
Proof.
  intros Hrect Horig.
  unfold mask_unclipped, try_default, bind, lift, ret. unfold keeps_orig_img in Horig.
  destruct (load s) as [[model|e] s']; [|done].
  destruct (model img) as [[|r rs]|e] eqn:Hmodel; [done| |done].
  specialize (Horig model s' (r :: rs) eq_refl Hmodel).
  apply Forall_cons_1 in Horig as [-> _].
  rewrite for_each_blur_box.
  destruct (for_each _ _ img) as [out|] eqn:Hloop; cbn [fst]; [|done].
  destruct (blur_regions_shape GaussianBlur img _ img out Hloop) as (? & ? & ?); done.
Qed.

Lemma length_regions img (bs : list Box) : (length (regions img bs) <= length bs)%nat.
Proof.
  unfold regions. rewrite length_fmap.
  induction bs as [|b bs IH]; simpl; [lia|]. destruct (survives img b); simpl; lia.
Qed.

Lemma regions_in_bounds img (bs : list Box) :
  Forall (fun b => within img (corners b)) bs -> regions img bs = corners <$> bs.
Proof.
  unfold regions. induction 1 as [|b bs Hb _ IH]; [done|].
  destruct (clip_within img b Hb) as [Hclip Hs]. cbn [List.filter]. rewrite Hs.
  rewrite !fmap_cons. by rewrite Hclip, IH.
Qed.
End EngineInvariants.

(** Masking never changes the size of a page or the number of pages: the
    masked page has the height and width of the input page (in
    [document_masking_server.py] when the detector's [orig_img] is the
    page), and a PDF keeps its number of pages. *)
Theorem masking_keeps_page_sizes :
  forall (X pixel : Type) (GaussianBlur : image pixel -> result (image pixel))
         (YOLO : string -> result (detector pixel)) (img : image pixel),
    rectangular img ->
    (forall g : PanMasking.globals pixel,
        let out := (PanMasking.mask_pan_in_image GaussianBlur YOLO img g).1.1 in
        length out = length img /\ width out = width img /\ rectangular out) /\
    (forall (model_type : string) (g : Unified.globals X pixel),
        let out := (Unified.mask_pii_in_image GaussianBlur YOLO img model_type g).1.1 in
        length out = length img /\ width out = width img /\ rectangular out) /\
    (forall g : DocumentMasking.globals pixel,
        keeps_orig_img (DocumentMasking.load_model YOLO) img g ->
        let out := (DocumentMasking.mask_pii_in_image GaussianBlur YOLO img g).1.1 in
        length out = length img /\ width out = width img /\ rectangular out) /\
    (forall (S : Type) (mask : image pixel -> S -> (image pixel * Z) * S)
            (images : list (image pixel)) (s : S),
        length (mask_pages mask images [] 0 s).1.1 = length images).
Proof.
  intros X pixel GaussianBlur YOLO img Hrect. split_and!.
  - intros g. by apply mask_clipped_shape.
  - intros model_type g. by apply mask_clipped_shape.
  - intros g Horig. by apply mask_unclipped_shape.
  - intros S mask images s. by rewrite mask_pages_length.
Qed.

Lemma masking_keeps_page_sizes_witness :
  let g := PanMasking.mkGlobals Z (Some (Sample.reports [Sample.inner; Sample.outside])) in
  rectangular Sample.page /\
  length (PanMasking.mask_pan_in_image Sample.mean_blur Sample.unavailable
            Sample.page g).1.1 = 6%nat /\
  width (PanMasking.mask_pan_in_image Sample.mean_blur Sample.unavailable
           Sample.page g).1.1 = 6%nat.
Proof.
  intros g.
  assert (rectangular Sample.page) as Hrect by (repeat constructor).
  destruct (masking_keeps_page_sizes unit Z Sample.mean_blur Sample.unavailable
              Sample.page Hrect) as [Hpan _].
  destruct (Hpan g) as (Hl & Hw & _).
  split_and!; [exact Hrect | exact Hl | exact Hw].
Defined.

(** The count a clipping engine returns for a page lies between 0 and the
    number of boxes the detector reported for it, whatever the blur does. *)
Theorem detection_count_is_bounded :
  forall (X pixel : Type) (GaussianBlur : image pixel -> result (image pixel))
         (YOLO : string -> result (detector pixel)) (img : image pixel),
    rectangular img ->
    (forall g : PanMasking.globals pixel,
        0 <= (PanMasking.mask_pan_in_image GaussianBlur YOLO img g).1.2
          <= Z.of_nat (length (detections (PanMasking.load_model YOLO) img g))) /\
    (forall (model_type : string) (g : Unified.globals X pixel),
        0 <= (Unified.mask_pii_in_image GaussianBlur YOLO img model_type g).1.2
          <= Z.of_nat (length (detections (Unified.select_model YOLO model_type) img g))).
Proof.
  intros X pixel GaussianBlur YOLO img Hrect.
  assert (forall (S : Type) (load : M S (detector pixel)) (s : S),
             0 <= (mask_clipped GaussianBlur load img s).1.2
               <= Z.of_nat (length (detections load img s))) as Hbound.
  { intros S load s. rewrite mask_clipped_regions by done. cbn [fst].
    pose proof (length_regions img (detections load img s)).
    destruct (for_each _ _ img); cbn [snd]; lia. }
  split; intros; apply Hbound.
Qed.

Lemma detection_count_is_bounded_witness :
  let g :=
    PanMasking.mkGlobals Z
      (Some (Sample.reports [Sample.inner; Sample.sliver; Sample.outside])) in
  rectangular Sample.page /\
  length (detections (PanMasking.load_model Sample.unavailable) Sample.page g) = 3%nat /\
  0 <= (PanMasking.mask_pan_in_image Sample.mean_blur Sample.unavailable Sample.page g).1.2
    <= 3.
Proof.
  intros g.
  assert (rectangular Sample.page) as Hrect by (repeat constructor).
  split; [exact Hrect|]. split; [reflexivity|].
  destruct (detection_count_is_bounded unit Z Sample.mean_blur Sample.unavailable
              Sample.page Hrect) as [Hpan _].
  apply (Hpan g).
Defined.

(** On detections that need no clipping the two engines agree: when every
    reported box lies within the page with positive width and height,
    [document_masking_server.py] returns the page and the count that
    [pan_masking_server.py] returns. *)
Theorem engines_agree_within_bounds :
  forall (pixel : Type) (GaussianBlur : image pixel -> result (image pixel))
         (YOLO : string -> result (detector pixel)) (img : image pixel) (bs : list Box)
         (doc : DocumentMasking.globals pixel) (pan : PanMasking.globals pixel),
    rectangular img ->
    Forall (fun b => within img (corners b)) bs ->
    answers (DocumentMasking.load_model YOLO) img doc bs ->
    answers (PanMasking.load_model YOLO) img pan bs ->
    (DocumentMasking.mask_pii_in_image GaussianBlur YOLO img doc).1
      = (PanMasking.mask_pan_in_image GaussianBlur YOLO img pan).1.
Proof.
  intros pixel GaussianBlur YOLO img bs doc pan Hrect Hbs
    (dmodel & doc' & Hdload & Hdmodel) (pmodel & pan' & Hpload & Hpmodel).
  unfold PanMasking.mask_pan_in_image. rewrite mask_clipped_regions by done.
  unfold detections. rewrite Hpload, Hpmodel.
  change (reported [mkResults pixel img (Some bs)]) with (bs ++ []).
  rewrite app_nil_r, (regions_in_bounds img bs Hbs), length_fmap.
  unfold DocumentMasking.mask_pii_in_image, mask_unclipped, try_default, bind, lift, ret.
  rewrite Hdload, Hdmodel. cbn [boxes orig_img]. rewrite for_each_blur_box.
  by destruct (for_each _ _ img).
Qed.

Lemma engines_agree_within_bounds_witness :
  let bs := [Sample.inner; Sample.box 0 0 6 2] in
  let doc := DocumentMasking.mkGlobals Z (Some (Sample.reports bs)) in
  let pan := PanMasking.mkGlobals Z (Some (Sample.reports bs)) in
  (DocumentMasking.mask_pii_in_image Sample.mean_blur Sample.unavailable Sample.page doc).1
    = (PanMasking.mask_pan_in_image Sample.mean_blur Sample.unavailable Sample.page pan).1.
Proof.
  intros bs doc pan.
  apply (engines_agree_within_bounds Z Sample.mean_blur Sample.unavailable Sample.page bs).
  - repeat constructor.
  - repeat constructor; vm_compute; intuition discriminate.
  - eexists _, _. split; reflexivity.
  - eexists _, _. split; reflexivity.
Defined.

(** ** Loaders under any interleaving *)

Section InterleavingFacts.
Context {pixel : Type}.
Variable YOLO : string -> result (detector pixel).
Variable path : string.
Implicit Types (w : world pixel) (f : frame pixel) (l : list (frame pixel)).

Lemma sum_past_construct_insert l (i : nat) f f' :
  l !! i = Some f ->
  (sum_list (past_construct <$> <[i := f']> l) + past_construct f
   = sum_list (past_construct <$> l) + past_construct f')%nat.
Proof.
  revert i. induction l as [|f0 l IH]; intros [|i] Hi; simpl in *; try done.
  - injection Hi as ->. lia.
  - specialize (IH i Hi). unfold fmap in *. lia.
Qed.

Lemma sum_past_construct_le l : (sum_list (past_construct <$> l) <= length l)%nat.
Proof.
  induction l as [|f l IH]; simpl; [lia|]. unfold fmap in *. destruct f; simpl; lia.
Qed.

Lemma frame_ok_set (g : option (detector pixel)) m f :
  frame_ok YOLO path g f -> frame_ok YOLO path (Some m) f.
Proof. destruct f; simpl; eauto. Qed.

Lemma step_world_ok (i : nat) w w' :
  step YOLO path i w = Some w' -> world_ok YOLO path w ->
  world_ok YOLO path w' /\ length (threads w') = length (threads w).
Proof.
  unfold step, world_ok. intros Hstep (Hglobal & Hframes & Hcount).
  destruct (threads w !! i) as [f|] eqn:Hi; [|done].
  pose proof (sum_past_construct_insert (threads w) i f) as Hsum.
  pose proof (Forall_lookup_1 _ _ _ _ Hframes Hi) as Hf.
  destruct f; try done; injection Hstep as <-; cbn [global threads constructed];
    rewrite length_insert; (split; [|done]).
  - specialize (Hsum (match global w with None => Construct | Some _ => Return end) Hi).
    split_and!; [done| |].
    + apply Forall_insert; [done|]. destruct (global w); simpl; eauto.
    + destruct (global w); cbn [past_construct] in Hsum; unfold fmap in *; lia.
  - specialize (Hsum (match YOLO path with Ok m => Assign m | Raise e => Raised e end) Hi).
    split_and!; [done| |].
    + apply Forall_insert; [done|]. by destruct (YOLO path) eqn:Hbuilt.
    + destruct (YOLO path); cbn [past_construct] in Hsum; unfold fmap in *; lia.
  - specialize (Hsum Return Hi). simpl in Hf.
    split_and!; [by intros ? [= <-]| |].
    + apply Forall_insert; [|by eexists].
      eapply Forall_impl; [exact Hframes|]. intros f. apply frame_ok_set.
    + cbn [past_construct] in Hsum; unfold fmap in *; lia.
  - specialize (Hsum (Returned (global w)) Hi). destruct Hf as [m Hm].
    split_and!; [done| |].
    + apply Forall_insert; [done|]. simpl. exists m. split; [done|]. by apply Hglobal.
    + cbn [past_construct] in Hsum; unfold fmap in *; lia.
Qed.

Lemma run_world_ok (schedule : list nat) w w' :
  run YOLO path schedule w = Some w' -> world_ok YOLO path w ->
  world_ok YOLO path w' /\ length (threads w') = length (threads w).
Proof.
  revert w. induction schedule as [|i rest IH]; intros w; simpl.
  - by intros [= <-].
  - destruct (step YOLO path i w) as [w1|] eqn:Hstep; [|done].
    intros Hrun Hok. destruct (step_world_ok _ _ _ Hstep Hok) as [Hok1 Hlen1].
    destruct (IH w1 Hrun Hok1) as [Hok' Hlen']. split; [done|congruence].
Qed.
End InterleavingFacts.

(** Under every interleaving of [n] first accesses to a loader the
    constructor runs at most [n] times (at most once for each request),
    every model a request returns was built by the constructor, never
    [None] and nothing else, every exception a request raises is the
    constructor's, and a global that is set holds such a model. *)
Theorem interleaved_loads_return_constructed_models :
  forall (pixel : Type) (YOLO : string -> result (detector pixel)) (path : string)
         (n : nat) (schedule : list nat) (w : world pixel),
    run YOLO path schedule (first_access n) = Some w ->
    (constructed w <= n)%nat /\
    (forall i v, threads w !! i = Some (Returned v) ->
        exists m, v = Some m /\ YOLO path = Ok m) /\
    (forall i e, threads w !! i = Some (Raised e) -> YOLO path = Raise e) /\
    (forall m, global w = Some m -> YOLO path = Ok m).
Proof.
  intros pixel YOLO path n schedule w Hrun.
  assert (world_ok YOLO path (@first_access pixel n)) as Hinit.
  { unfold world_ok, first_access. cbn [global threads constructed].
    split_and!; [done| |lia]. apply Forall_forall. by intros f ->%elem_of_replicate_inv. }
  destruct (run_world_ok YOLO path schedule _ _ Hrun Hinit)
    as [(Hglobal & Hframes & Hcount) Hlen].
  simpl in Hlen. rewrite length_replicate in Hlen.
  pose proof (sum_past_construct_le (threads w)).
  split_and!; [lia| | |done].
  - intros i v Hi. exact (Forall_lookup_1 _ _ _ _ Hframes Hi).
  - intros i e Hi. exact (Forall_lookup_1 _ _ _ _ Hframes Hi).
Qed.

Lemma interleaved_loads_return_constructed_models_witness :
  let d := Sample.reports [] in
  let w := mkWorld (Some d) 2 [Returned (Some d); Returned (Some d)] in
  run (Sample.available d) PanMasking.MODEL_PATH [0; 1; 0; 1; 1; 0; 0; 1]%nat
    (first_access 2) = Some w /\
  (constructed w <= 2)%nat.
Proof.
  intros d w.
  assert (run (Sample.available d) PanMasking.MODEL_PATH [0; 1; 0; 1; 1; 0; 0; 1]%nat
            (first_access 2) = Some w) as Hrun by reflexivity.
  split; [exact Hrun|].
  exact (proj1 (interleaved_loads_return_constructed_models Z (Sample.available d)
                  PanMasking.MODEL_PATH 2 [0; 1; 0; 1; 1; 0; 0; 1]%nat w Hrun)).
Defined.

(** ** More on the classifier *)

Section ScoreFacts.

Lemma foldl_max_spec (ps : list Q) (m0 : Q) :
  let m := foldl (fun m x => if Qle_bool x m then m else x) m0 ps in
  (m = m0 \/ m ∈ ps) /\ (m0 <= m)%Q /\ (forall p, p ∈ ps -> (p <= m)%Q).
Proof.
  revert m0. induction ps as [|x ps IH]; intros m0; simpl.
  - split_and!; [by left|apply Qle_refl|]. intros p Hp. by apply elem_of_nil in Hp.
  - destruct (Qle_bool x m0) eqn:Hx.
    + destruct (IH m0) as (Hin & Hle & Hall). split_and!.
      * destruct Hin as [->|Hin]; [by left|right; by apply elem_of_cons; right].
      * done.
      * intros p [->|Hp]%elem_of_cons; [|by apply Hall].
        apply Qle_bool_iff in Hx. by eapply Qle_trans.
    + destruct (IH x) as (Hin & Hle & Hall).
      assert (m0 <= x)%Q as Hm0.
      { apply Qlt_le_weak, Qnot_le_lt. intros Hle'. apply Qle_bool_iff in Hle'. congruence. }
      split_and!.
      * right. apply elem_of_cons. destruct Hin as [->|Hin]; [by left|by right].
      * by eapply Qle_trans.
      * intros p [->|Hp]%elem_of_cons; [done|by apply Hall].
Qed.

(** [max] returns an entry of the sequence that no entry exceeds. *)
Lemma py_max_spec (proba : list Q) :
  proba <> [] ->
  exists m, py_max proba = Ok m /\ m ∈ proba /\ (forall p, p ∈ proba -> (p <= m)%Q).
Proof.
  destruct proba as [|p ps]; [done|]. intros _. eexists. split; [done|].
  destruct (foldl_max_spec ps p) as (Hin & Hle & Hall). split.
  - apply elem_of_cons. destruct Hin as [->|Hin]; [by left|by right].
  - intros q [->|Hq]%elem_of_cons; [done|by apply Hall].
Qed.

Context {X : Type}.

Lemma classify_with_success not_loaded (model : option (model_obj X))
    (vectorizer : option (vectorizer_obj X)) (url : string) v m X_new label rest :
  vectorizer = Some v -> model = Some m ->
  vectorizer_bool v = true -> model_bool m = true ->
  transform v [url] = Ok X_new -> predict m X_new = Ok (label :: rest) ->
  confidence (classify_with not_loaded model vectorizer url)
    = confidence_score (Some m) X_new.
Proof.
  intros -> -> Hv Hm Ht Hp. unfold classify_with, attr. simpl.
  rewrite Hv, Hm, Ht. simpl. rewrite Hp. done.
Qed.
End ScoreFacts.

(** The confidence of a successful classification is 0.8 when the
    classifier has no [predict_proba], or when that call raises or gives an
    empty answer; otherwise it is the largest probability of the first
    row: an entry of the row that no entry exceeds. *)
Theorem confidence_is_largest_probability :
  forall (X : Type) (url : string) (g : MlApi.globals X) (v : vectorizer_obj X)
         (m : model_obj X) (X_new : X) (label : string) (rest : list string),
    MlApi.vectorizer g = Some v -> MlApi.model g = Some m ->
    vectorizer_bool v = true -> model_bool m = true ->
    transform v [url] = Ok X_new -> predict m X_new = Ok (label :: rest) ->
    (predict_proba m = None -> confidence (MlApi.classify_url url g) = 0.8%Q) /\
    (forall call e, predict_proba m = Some call -> call X_new = Raise e ->
        confidence (MlApi.classify_url url g) = 0.8%Q) /\
    (forall call, predict_proba m = Some call ->
        call X_new = Ok [] \/ (exists others, call X_new = Ok ([] :: others)) ->
        confidence (MlApi.classify_url url g) = 0.8%Q) /\
    (forall call proba others, predict_proba m = Some call ->
        call X_new = Ok (proba :: others) -> proba <> [] ->
        confidence (MlApi.classify_url url g) ∈ proba /\
        (forall p, p ∈ proba -> (p <= confidence (MlApi.classify_url url g))%Q)).
Proof.
  intros X url g v m X_new label rest Hgv Hgm Hv Hm Ht Hp.
  unfold MlApi.classify_url.
  rewrite (classify_with_success _ _ _ url v m X_new label rest Hgv Hgm Hv Hm Ht Hp).
  unfold confidence_score. destruct m as [mb mp [call|]]; simpl in *.
  - split_and!.
    + done.
    + intros call' e [= <-] ->. done.
    + intros call' [= <-] [->|(others & ->)]; done.
    + intros call' proba others [= <-] -> Hne. simpl.
      destruct (py_max_spec proba Hne) as (best & -> & Hin & Hall). done.
  - split_and!; done.
Qed.

Lemma confidence_is_largest_probability_witness :
  let g :=
    MlApi.mkGlobals (list string) (Some Sample.bag_of_words)
      (Some (SampleClassifier.scored "government" [0.1; 0.7; 0.2]%Q)) in
  confidence (MlApi.classify_url "https://pmindia.gov.in" g) = 0.7%Q /\
  (forall p, p ∈ [0.1; 0.7; 0.2]%Q ->
             (p <= confidence (MlApi.classify_url "https://pmindia.gov.in" g))%Q).
Proof.
  intros g. split; [reflexivity|].
  destruct (confidence_is_largest_probability (list string) "https://pmindia.gov.in" g
              Sample.bag_of_words (SampleClassifier.scored "government" [0.1; 0.7; 0.2]%Q)
              ["https://pmindia.gov.in"] "government" []
              eq_refl eq_refl eq_refl eq_refl eq_refl eq_refl) as (_ & _ & _ & Hmax).
  destruct (Hmax _ [0.1; 0.7; 0.2]%Q [] eq_refl eq_refl) as [_ Hall]; [discriminate|].
  exact Hall.
Defined.

Section AnalyzeFacts.
Context {X : Type}.
Implicit Types (model : option (model_obj X)) (vectorizer : option (vectorizer_obj X)).

(** The verdicts of [classify_url]: with a label it is a success record,
    without one a failure record. *)
Lemma classify_with_cases not_loaded model vectorizer url :
  (exists label, classification (classify_with not_loaded model vectorizer url) = Some label /\
     inference model vectorizer url = Ok label /\
     py_not model_bool model || py_not vectorizer_bool vectorizer = false /\
     isUnsafe (classify_with not_loaded model vectorizer url)
       = negb (isGovernment (classify_with not_loaded model vectorizer url))) \/
  (exists why, classify_with not_loaded model vectorizer url
               = mkVerdict false 0.0 true why None).
Proof.
  unfold classify_with, inference.
  destruct (py_not model_bool model || py_not vectorizer_bool vectorizer);
    [right; by eexists|].
  destruct (attr vectorizer _ _) as [X_new|e]; simpl; [|right; by eexists].
  destruct (attr model _ _) as [label|e]; simpl; [|right; by eexists].
  left. exists label. done.
Qed.

Lemma analyze_with_url (classify : string -> verdict) (c : ascii) (rest : string)
    (domain : option string) :
  analyze_with classify (Ok (mkAnalyze (Some (String c rest)) domain)) =
    match classification (classify (with_scheme (String c rest))) with
    | Some _ => (VerdictJson (classify (with_scheme (String c rest))), 200)
    | None =>
        (VerdictJson (mkVerdict false 0.0 true "Server error: 'classification'" None), 500)
    end.
Proof.
  unfold analyze_with, classification_of. simpl.
  by destruct (classification (classify _)).
Qed.

Lemma analyze_with_outcome not_loaded model vectorizer (url : string)
    (domain : option string) :
  url <> "" ->
  let reply :=
    analyze_with (classify_with not_loaded model vectorizer)
      (Ok (mkAnalyze (Some url) domain)) in
  (reply.2 = 200 /\
   (exists v label,
       reply.1 = VerdictJson v /\ classification v = Some label /\
       inference model vectorizer (with_scheme url) = Ok label /\
       isUnsafe v = negb (isGovernment v))) \/
  (reply = (VerdictJson (mkVerdict false 0.0 true "Server error: 'classification'" None),
            500) /\
   (py_not model_bool model || py_not vectorizer_bool vectorizer = true
    \/ exists e, inference model vectorizer (with_scheme url) = Raise e)).
Proof.
  intros Hurl reply. subst reply.
  destruct url as [|c rest]; [done|].
  rewrite analyze_with_url.
  destruct (classify_with_cases not_loaded model vectorizer (with_scheme (String c rest)))
    as [(label & Hlabel & Hinf & Hloaded & Hunsafe)|(why & Hfail)].
  - left. rewrite Hlabel. split; [done|]. eexists _, label. done.
  - right. rewrite Hfail. cbn [classification]. split; [done|].
    destruct (py_not model_bool model || py_not vectorizer_bool vectorizer) eqn:Hloaded;
      [by left|right].
    destruct (inference model vectorizer (with_scheme (String c rest)))
      as [label|e] eqn:Hinf; [|by exists e].
    destruct (classify_with_label not_loaded _ _ _ _ Hloaded Hinf)
      as (conf' & reason' & Heq).
    rewrite Heq in Hfail. discriminate.
Qed.
End AnalyzeFacts.

(** [/analyze], in [ml_api_server.py] and [unified_pii_server.py], answers
    200 only with a verdict that carries a classification, that is when
    the classifier is loaded and the inference on the url succeeded; such
    a verdict has [isUnsafe = not isGovernment].  The failure records of
    [classify_url] never reach the client: reading their missing
    ["classification"] key raises, and the reply is 500 with
    [isGovernment = False], [isUnsafe = True] and the reason
    "Server error: 'classification'". *)
Theorem analyze_replies_200_only_with_classification :
  forall (X pixel : Type) (url : string) (domain : option string),
    url <> "" ->
    (forall g : MlApi.globals X,
        let reply := MlApiEndpoints.analyze (Ok (mkAnalyze (Some url) domain)) g in
        (reply.2 = 200 /\
         (exists v label,
             reply.1 = VerdictJson v /\ classification v = Some label /\
             inference (MlApi.model g) (MlApi.vectorizer g) (with_scheme url) = Ok label /\
             isUnsafe v = negb (isGovernment v))) \/
        (reply = (VerdictJson
                    (mkVerdict false 0.0 true "Server error: 'classification'" None), 500) /\
         (py_not model_bool (MlApi.model g)
          || py_not vectorizer_bool (MlApi.vectorizer g) = true
          \/ exists e,
               inference (MlApi.model g) (MlApi.vectorizer g) (with_scheme url) = Raise e))) /\
    (forall g : Unified.globals X pixel,
        let reply := UnifiedEndpoints.analyze (Ok (mkAnalyze (Some url) domain)) g in
        (reply.2 = 200 /\
         (exists v label,
             reply.1 = VerdictJson v /\ classification v = Some label /\
             inference (Unified.ml_model g) (Unified.vectorizer g) (with_scheme url)
               = Ok label /\
             isUnsafe v = negb (isGovernment v))) \/
        (reply = (VerdictJson
                    (mkVerdict false 0.0 true "Server error: 'classification'" None), 500) /\
         (py_not model_bool (Unified.ml_model g)
          || py_not vectorizer_bool (Unified.vectorizer g) = true
          \/ exists e,
               inference (Unified.ml_model g) (Unified.vectorizer g) (with_scheme url)
                 = Raise e))).
Proof.
  intros X pixel url domain Hurl. split; intros g.
  - by apply (analyze_with_outcome "Model not loaded").
  - by apply (analyze_with_outcome "ML model not loaded").
Qed.

Lemma analyze_replies_200_only_with_classification_witness :
  let unset := MlApi.mkGlobals (list string) None None in
  MlApiEndpoints.analyze (Ok (mkAnalyze (Some "pmindia.gov.in") None)) unset
    = (VerdictJson (mkVerdict false 0.0 true "Server error: 'classification'" None), 500).
Proof.
  intros unset.
  destruct (analyze_replies_200_only_with_classification (list string) unit
              "pmindia.gov.in" None ltac:(discriminate)) as [Hml _].
  destruct (Hml unset) as [[H200 _]|[Hreply _]].
  - vm_compute in H200. discriminate.
  - exact Hreply.
Defined.

(** How [/analyze] reads its request.  A non-empty ["url"] is classified,
    whatever ["domain"] holds; with ["url"] missing, null or empty, a
    non-empty ["domain"] is classified in its place; with neither the reply
    is 400 "URL required".  What is classified is the entry itself when it
    begins with [http://] or [https://], and the entry with [https://] put
    before it otherwise; the reply is the verdict of [classify_url] on
    that url with 200 when the verdict has a classification, and the 500
    record otherwise.  A body for which [request.json] raises [e] is
    answered with 500 "Server error: e". *)
Theorem analyze_reads_url_then_domain :
  forall (classify : string -> verdict),
    let answer (url : string) : analyze_body * Z :=
      match classification (classify url) with
      | Some _ => (VerdictJson (classify url), 200)
      | None =>
          (VerdictJson (mkVerdict false 0.0 true "Server error: 'classification'" None), 500)
      end in
    (forall url domain, url <> "" ->
        analyze_with classify (Ok (mkAnalyze (Some url) domain)) = answer (with_scheme url)) /\
    (forall url domain, (url = None \/ url = Some "") -> domain <> "" ->
        analyze_with classify (Ok (mkAnalyze url (Some domain)))
        = answer (with_scheme domain)) /\
    (forall url domain, (url = None \/ url = Some "") -> (domain = None \/ domain = Some "") ->
        analyze_with classify (Ok (mkAnalyze url domain)) = (ErrorJson "URL required", 400)) /\
    (forall e,
        analyze_with classify (Raise e)
        = (VerdictJson (mkVerdict false 0.0 true ("Server error: " ++ e)%string None), 500)) /\
    (forall u, String.prefix "http://" u || String.prefix "https://" u = true ->
               with_scheme u = u) /\
    (forall u, String.prefix "http://" u || String.prefix "https://" u = false ->
               with_scheme u = ("https://" ++ u)%string).
Proof.
  intros classify answer. subst answer. cbv beta. split_and!.
  - intros [|c rest] domain Hurl; [done|]. apply analyze_with_url.
  - intros url [|c rest] Hurl Hdomain; [done|].
    destruct Hurl as [->| ->]; apply (analyze_with_url classify c rest None).
  - by intros url domain [->| ->] [->| ->].
  - done.
  - intros u Hu. unfold with_scheme. by rewrite Hu.
  - intros u Hu. unfold with_scheme. by rewrite Hu.
Qed.

(** The theorem at a classifier that labels every url: a request whose
    ["url"] is empty and whose ["domain"] is [pmindia.gov.in] is answered
    with the verdict on [https://pmindia.gov.in]. *)
Lemma analyze_reads_url_then_domain_witness :
  let g :=
    MlApi.mkGlobals (list string) (Some Sample.bag_of_words)
      (Some (Sample.labels "government")) in
  MlApiEndpoints.analyze (Ok (mkAnalyze (Some "") (Some "pmindia.gov.in"))) g
  = (VerdictJson (MlApi.classify_url "https://pmindia.gov.in" g), 200).
Proof.
  intros g.
  destruct (analyze_reads_url_then_domain (fun url => MlApi.classify_url url g))
    as (_ & Hdomain & _).
  exact (Hdomain (Some "") "pmindia.gov.in" (or_intror eq_refl) ltac:(discriminate)).
Defined.

(** ** The globals across a masking request *)

Section GlobalsFacts.
Context {pixel S : Type}.
Variable GaussianBlur : image pixel -> result (image pixel).
Variable R : S -> S -> Prop.
Hypothesis R_refl : forall s, R s s.
Hypothesis R_trans : forall s1 s2 s3, R s1 s2 -> R s2 s3 -> R s1 s3.

Lemma mask_clipped_globals (load : M S (detector pixel)) img s :
  (mask_clipped GaussianBlur load img s).2 = (load s).2.
Proof.
  unfold mask_clipped, try_default, bind, lift.
  destruct (load s) as [[model|e] s']; [|done].
  destruct (model img) as [results|e]; [|done].
  by destruct (for_each _ _ _).
Qed.

Lemma mask_unclipped_globals (load : M S (detector pixel)) img s :
  (mask_unclipped GaussianBlur load img s).2 = (load s).2.
Proof.
  unfold mask_unclipped, try_default, bind, lift, ret.
  destruct (load s) as [[model|e] s']; [|done].
  destruct (model img) as [[|r rest]|e]; [done| |done].
  by destruct (for_each _ _ _).
Qed.

Lemma mask_pages_globals (mask : image pixel -> S -> (image pixel * Z) * S)
    images masked total s :
  (forall img s, R s (mask img s).2) ->
  R s (mask_pages mask images masked total s).2.
Proof.
  intros Hmask. revert masked total s.
  induction images as [|img rest IH]; intros masked total s; simpl; [done|].
  pose proof (Hmask img s) as Hstep.
  destruct (mask img s) as [[masked_img detections] s']. by eapply R_trans, IH.
Qed.

Lemma mask_endpoint_globals (mask : image pixel -> S -> (image pixel * Z) * S)
    suffix message u s :
  (forall img s, R s (mask img s).2) ->
  R s (mask_endpoint mask suffix message u s).2.
Proof.
  intros Hmask. destruct u as [base_name [images|e]|base_name [img|]]; simpl; try done.
  - pose proof (mask_pages_globals mask images [] 0 s Hmask) as Hpages.
    by destruct (mask_pages mask images [] 0 s) as [[masked total] s'].
  - pose proof (Hmask img s) as Hstep.
    by destruct (mask img s) as [[masked total] s'].
Qed.
End GlobalsFacts.

Lemma loaded_at_most_refl {pixel} (YOLO : string -> result (detector pixel)) path g :
  loaded_at_most YOLO path g g.
Proof. by left. Qed.

Lemma loaded_at_most_trans {pixel} (YOLO : string -> result (detector pixel)) path g1 g2 g3 :
  loaded_at_most YOLO path g1 g2 -> loaded_at_most YOLO path g2 g3 ->
  loaded_at_most YOLO path g1 g3.
Proof.
  intros [->|(-> & m & Hm & ->)] [->|(Hnone & m' & Hm' & ->)];
    [by left|right; eauto|right; eauto|done].
Qed.

Lemma load_global_loaded_at_most {pixel S} (YOLO : string -> result (detector pixel))
    (get : S -> option (detector pixel)) set path s :
  (forall m s, get (set m s) = m) ->
  loaded_at_most YOLO path (get s) (get (load_global YOLO get set path s).2).
Proof.
  intros Hget. unfold load_global.
  destruct (get s) as [m|] eqn:Hs; [left; simpl; by rewrite Hs|].
  destruct (YOLO path) as [m|e] eqn:Hm; simpl.
  - right. rewrite Hget. eauto.
  - left. by rewrite Hs.
Qed.

(** A masking request that is served with no other request running in
    between, whatever its upload and however many pages it holds, leaves
    the global of its detector as it found it or sets an unset one to the
    model the constructor returned: within such a request a loaded
    detector is not rebuilt or replaced, also when detection or the blur
    raised.  In [unified_pii_server.py] the request touches no other
    global: the classifier, its vectorizer and the detector of the other
    document type stay as they were.  (Requests that overlap are the
    subject of the threads of a loader: there a request that tested the
    global before another assigned it constructs again and assigns over
    it.) *)
Theorem masking_request_keeps_loaded_models :
  forall (X pixel : Type) (GaussianBlur : image pixel -> result (image pixel))
         (YOLO : string -> result (detector pixel)) (u : upload pixel),
    (forall g : DocumentMasking.globals pixel,
        loaded_at_most YOLO DocumentMasking.MODEL_PATH (DocumentMasking.model g)
          (DocumentMasking.model (DocumentMasking.mask_document GaussianBlur YOLO u g).2)) /\
    (forall g : PanMasking.globals pixel,
        loaded_at_most YOLO PanMasking.MODEL_PATH (PanMasking.model g)
          (PanMasking.model (PanMasking.mask_pan_document GaussianBlur YOLO u g).2)) /\
    (forall g : Unified.globals X pixel,
        let g' := (Unified.mask_aadhar_document GaussianBlur YOLO u g).2 in
        loaded_at_most YOLO Unified.AADHAR_MODEL_PATH
          (Unified.aadhar_model g) (Unified.aadhar_model g') /\
        Unified.pan_model g' = Unified.pan_model g /\
        Unified.ml_model g' = Unified.ml_model g /\
        Unified.vectorizer g' = Unified.vectorizer g) /\
    (forall g : Unified.globals X pixel,
        let g' := (Unified.mask_pan_document GaussianBlur YOLO u g).2 in
        loaded_at_most YOLO Unified.PAN_MODEL_PATH
          (Unified.pan_model g) (Unified.pan_model g') /\
        Unified.aadhar_model g' = Unified.aadhar_model g /\
        Unified.ml_model g' = Unified.ml_model g /\
        Unified.vectorizer g' = Unified.vectorizer g).
Proof.
  intros X pixel GaussianBlur YOLO u. split_and!; intros g.
  - apply (mask_endpoint_globals
             (fun g g' => loaded_at_most YOLO DocumentMasking.MODEL_PATH
                            (DocumentMasking.model g) (DocumentMasking.model g'))).
    + intros s. apply loaded_at_most_refl.
    + intros s1 s2 s3. apply loaded_at_most_trans.
    + intros img s. unfold DocumentMasking.mask_pii_in_image.
      rewrite mask_unclipped_globals. by apply load_global_loaded_at_most.
  - apply (mask_endpoint_globals
             (fun g g' => loaded_at_most YOLO PanMasking.MODEL_PATH
                            (PanMasking.model g) (PanMasking.model g'))).
    + intros s. apply loaded_at_most_refl.
    + intros s1 s2 s3. apply loaded_at_most_trans.
    + intros img s. unfold PanMasking.mask_pan_in_image.
      rewrite mask_clipped_globals. by apply load_global_loaded_at_most.
  - apply (mask_endpoint_globals
             (fun g g' =>
                loaded_at_most YOLO Unified.AADHAR_MODEL_PATH
                  (Unified.aadhar_model g) (Unified.aadhar_model g') /\
                Unified.pan_model g' = Unified.pan_model g /\
                Unified.ml_model g' = Unified.ml_model g /\
                Unified.vectorizer g' = Unified.vectorizer g)).
    + intros s. split; [apply loaded_at_most_refl|done].
    + intros s1 s2 s3 (H1 & -> & -> & ->) (H2 & -> & -> & ->).
      split; [by eapply loaded_at_most_trans|done].
    + intros img s. unfold Unified.mask_pii_in_image.
      rewrite mask_clipped_globals. unfold Unified.select_model. vm_compute (String.eqb _ _). cbv iota.
      split; [by apply load_global_loaded_at_most|].
      unfold Unified.load_aadhar_model, load_global.
      destruct (Unified.aadhar_model s); [done|]. by destruct (YOLO Unified.AADHAR_MODEL_PATH).
  - apply (mask_endpoint_globals
             (fun g g' =>
                loaded_at_most YOLO Unified.PAN_MODEL_PATH
                  (Unified.pan_model g) (Unified.pan_model g') /\
                Unified.aadhar_model g' = Unified.aadhar_model g /\
                Unified.ml_model g' = Unified.ml_model g /\
                Unified.vectorizer g' = Unified.vectorizer g)).
    + intros s. split; [apply loaded_at_most_refl|done].
    + intros s1 s2 s3 (H1 & -> & -> & ->) (H2 & -> & -> & ->).
      split; [by eapply loaded_at_most_trans|done].
    + intros img s. unfold Unified.mask_pii_in_image.
      rewrite mask_clipped_globals. unfold Unified.select_model. vm_compute (String.eqb _ _). cbv iota.
      split; [by apply load_global_loaded_at_most|].
      unfold Unified.load_pan_model, load_global.
      destruct (Unified.pan_model s); [done|]. by destruct (YOLO Unified.PAN_MODEL_PATH).
Qed.

(** ** [/test], [/health] and the loading of the classifier *)

Section TestFacts.
Context {X : Type}.
Implicit Types (model : option (model_obj X)) (vectorizer : option (vectorizer_obj X)).

Lemma test_loop (classify : string -> verdict) urls results :
  for_each
    (fun results url =>
       let result := classify url in
       do printed <- classification_of result;
       Ok (results ++ [(url, result)]))
    urls results
  = if forallb (classified classify) urls
    then Ok (results ++ ((fun url => (url, classify url)) <$> urls))
    else Raise "'classification'".
Proof.
  revert results. induction urls as [|url urls IH]; intros results.
  - simpl. by rewrite app_nil_r.
  - cbn [for_each forallb]. unfold classification_of, classified at 1.
    destruct (classification (classify url)); cbn [bind_result andb]; [|done].
    rewrite IH, fmap_cons. by rewrite <- app_assoc.
Qed.

Lemma model_loaded_false model vectorizer :
  model_loaded model vectorizer = false <->
  py_not model_bool model || py_not vectorizer_bool vectorizer = true.
Proof.
  unfold model_loaded.
  destruct (py_not model_bool model), (py_not vectorizer_bool vectorizer); simpl; split; done.
Qed.

Lemma test_with_outcome not_loaded model vectorizer :
  let classify := classify_with not_loaded model vectorizer in
  (model_loaded model vectorizer = false -> test_with classify = Raise "'classification'") /\
  ((exists url e, url ∈ test_urls /\ inference model vectorizer url = Raise e) ->
   test_with classify = Raise "'classification'") /\
  (forall results,
      test_with classify = Ok results ->
      model_loaded model vectorizer = true /\
      results = (fun url => (url, classify url)) <$> test_urls /\
      Forall (fun url => exists label,
                inference model vectorizer url = Ok label /\
                classification (classify url) = Some label) test_urls).
Proof.
  intros classify. unfold test_with. rewrite test_loop.
  assert (forall url, classified classify url = true ->
            model_loaded model vectorizer = true /\
            exists label, inference model vectorizer url = Ok label /\
                          classification (classify url) = Some label) as Hclassified.
  { intros url. unfold classified, classify.
    destruct (classify_with_cases not_loaded model vectorizer url)
      as [(label & -> & Hinf & Hloaded & _)|(why & ->)]; [|done].
    intros _. split; [|by exists label].
    destruct (model_loaded model vectorizer) eqn:Hm; [done|].
    apply model_loaded_false in Hm. congruence. }
  split_and!.
  - intros Hunloaded. unfold test_urls. cbn [forallb].
    destruct (classified classify "https://pmindia.gov.in") eqn:Hfirst; [|done].
    apply Hclassified in Hfirst as [Hloaded _]. congruence.
  - intros (url & e & Hurl & Hraise).
    destruct (forallb (classified classify) test_urls) eqn:Hall; [|done].
    rewrite forallb_forall in Hall.
    destruct (Hclassified url) as [_ (label & Hlabel & _)]; [|congruence].
    apply Hall. by apply list_elem_of_In.
  - intros results.
    destruct (forallb (classified classify) test_urls) eqn:Hall; [|done].
    intros [= <-]. rewrite forallb_forall in Hall. split_and!.
    + apply (Hclassified "https://pmindia.gov.in"), Hall. by left.
    + done.
    + apply Forall_forall. intros url Hurl.
      apply Hclassified, Hall. by apply list_elem_of_In.
Qed.
End TestFacts.

(** [/test], in [ml_api_server.py] and [unified_pii_server.py], reads
    [result['classification']] of each of its five urls outside any [try]:
    when [/health] reports the classifier not loaded, or the inference on
    one of the urls raises, the request ends in [KeyError:
    'classification'] and returns no results.  When it returns, the
    classifier is loaded and the results are the verdicts of the five urls
    in order, each with the label the inference gave. *)
Theorem test_raises_unless_every_url_is_classified :
  forall (X pixel : Type),
    (forall g : MlApi.globals X,
        (MlApiEndpoints.health g = false ->
         MlApiEndpoints.test g = Raise "'classification'") /\
        ((exists url e, url ∈ test_urls /\
             inference (MlApi.model g) (MlApi.vectorizer g) url = Raise e) ->
         MlApiEndpoints.test g = Raise "'classification'") /\
        (forall results,
            MlApiEndpoints.test g = Ok results ->
            MlApiEndpoints.health g = true /\
            results = (fun url => (url, MlApi.classify_url url g)) <$> test_urls /\
            Forall (fun url => exists label,
                      inference (MlApi.model g) (MlApi.vectorizer g) url = Ok label /\
                      classification (MlApi.classify_url url g) = Some label) test_urls)) /\
    (forall g : Unified.globals X pixel,
        (UnifiedEndpoints.ml_model_loaded g = false ->
         UnifiedEndpoints.test g = Raise "'classification'") /\
        ((exists url e, url ∈ test_urls /\
             inference (Unified.ml_model g) (Unified.vectorizer g) url = Raise e) ->
         UnifiedEndpoints.test g = Raise "'classification'") /\
        (forall results,
            UnifiedEndpoints.test g = Ok results ->
            UnifiedEndpoints.ml_model_loaded g = true /\
            results = (fun url => (url, Unified.classify_url url g)) <$> test_urls /\
            Forall (fun url => exists label,
                      inference (Unified.ml_model g) (Unified.vectorizer g) url = Ok label /\
                      classification (Unified.classify_url url g) = Some label) test_urls)).
Proof.
  intros X pixel. split; intros g.
  - apply (test_with_outcome "Model not loaded").
  - apply (test_with_outcome "ML model not loaded").
Qed.

(** The theorem at a classifier whose vectorizer is loaded and whose
    model is not: [/test] raises. *)
Lemma test_raises_unless_every_url_is_classified_witness :
  let g := MlApi.mkGlobals (list string) (Some Sample.bag_of_words) None in
  MlApiEndpoints.health g = false /\
  MlApiEndpoints.test g = Raise "'classification'".
Proof.
  intros g. split; [reflexivity|].
  destruct (test_raises_unless_every_url_is_classified (list string) unit) as [Hml _].
  destruct (Hml g) as [Hunloaded _]. apply Hunloaded. reflexivity.
Defined.

(** [load_models] ([load_ml_models]) at startup, where the classifier
    global is unset: it returns [True] exactly when both files load, and
    then both globals hold the loaded objects.  When it returns [False]
    the classifier global is still unset, also when the vectorizer was
    loaded and assigned before the second load failed; [/health] then
    reports the classifier not loaded and [classify_url] answers every
    url with the not-loaded record.  [load_ml_models] leaves the two
    detector globals alone. *)
Theorem failed_load_leaves_classifier_unloaded :
  forall (X pixel : Type) (vectorizer_file : result (vectorizer_obj X))
         (model_file : result (model_obj X))
         (g : MlApi.globals X) (u : Unified.globals X pixel),
    MlApi.model g = None ->
    Unified.ml_model u = None ->
    let r := MlApiEndpoints.load_models vectorizer_file model_file g in
    let r' := UnifiedEndpoints.load_ml_models vectorizer_file model_file u in
    r'.1 = r.1 /\
    (r.1 = true <->
     exists v m, vectorizer_file = Ok v /\ model_file = Ok m /\
                 r.2 = MlApi.mkGlobals X (Some v) (Some m) /\
                 Unified.vectorizer r'.2 = Some v /\ Unified.ml_model r'.2 = Some m) /\
    (r.1 = false ->
     MlApi.model r.2 = None /\
     MlApiEndpoints.health r.2 = false /\
     UnifiedEndpoints.ml_model_loaded r'.2 = false /\
     forall url,
       MlApi.classify_url url r.2 = mkVerdict false 0.0 true "Model not loaded" None /\
       Unified.classify_url url r'.2 = mkVerdict false 0.0 true "ML model not loaded" None) /\
    Unified.aadhar_model r'.2 = Unified.aadhar_model u /\
    Unified.pan_model r'.2 = Unified.pan_model u.
Proof.
  intros X pixel vectorizer_file model_file g u Hg Hu r r'. subst r r'.
  unfold MlApiEndpoints.load_models, UnifiedEndpoints.load_ml_models.
  assert (forall (v : option (vectorizer_obj X)) (a p : option (detector pixel)),
            let g' := MlApi.mkGlobals X v None in
            let u' := Unified.mkGlobals X pixel v None a p in
            MlApi.model g' = None /\
            MlApiEndpoints.health g' = false /\
            UnifiedEndpoints.ml_model_loaded u' = false /\
            forall url,
              MlApi.classify_url url g'
                = mkVerdict false 0.0 true "Model not loaded" None /\
              Unified.classify_url url u'
                = mkVerdict false 0.0 true "ML model not loaded" None) as Hunset.
  { intros v a p. split_and!; try done; intros url; split; by apply classify_with_unset. }
  destruct vectorizer_file as [v|e], model_file as [m|e']; cbn [fst snd];
    (split; [done|]); (split; [|split; [|done]]).
  - split; [intros _; by exists v, m|done].
  - done.
  - split; [done|]. by intros (v' & m' & _ & [=] & _).
  - intros _. rewrite Hg, Hu. apply Hunset.
  - split; [done|]. by intros (v' & m' & [=] & _).
  - intros _. destruct g as [gv gm], u as [uv um ua up]. simpl in Hg, Hu. subst gm um.
    split_and!; try done; intros url; split; by apply classify_with_unset.
  - split; [done|]. by intros (v' & m' & [=] & _).
  - intros _. destruct g as [gv gm], u as [uv um ua up]. simpl in Hg, Hu. subst gm um.
    split_and!; try done; intros url; split; by apply classify_with_unset.
Qed.

(** The theorem at a start where the vectorizer file loads and the model
    file is missing: the vectorizer is assigned, and the classifier is
    reported as not loaded. *)
Lemma failed_load_leaves_classifier_unloaded_witness :
  let g := MlApi.mkGlobals (list string) None None in
  let u := Unified.mkGlobals (list string) Z None None None None in
  let r' :=
    UnifiedEndpoints.load_ml_models (Ok Sample.bag_of_words) (Raise "No such file") u in
  MlApi.model g = None /\ Unified.ml_model u = None /\
  r'.1 = false /\
  Unified.vectorizer r'.2 = Some Sample.bag_of_words /\
  UnifiedEndpoints.ml_model_loaded r'.2 = false.
Proof.
  intros g u r'. split_and!; [reflexivity..|].
  destruct (failed_load_leaves_classifier_unloaded (list string) Z
              (Ok Sample.bag_of_words) (Raise "No such file") g u eq_refl eq_refl)
    as (_ & _ & Hfalse & _).
  destruct (Hfalse eq_refl) as (_ & _ & Hloaded & _). exact Hloaded.
Defined.

(** [/health] of [pan_masking_server.py] loads the detector before it
    answers.  A healthy reply (200) always says [model_loaded: True] and
    leaves the global set, so that the masking requests after it find the
    detector loaded and change no global; the reply is unhealthy (500)
    exactly when the global was unset and the constructor raised, it
    carries the constructor's message, and the global stays unset. *)
Theorem pan_health_check_loads_the_model :
  forall (pixel : Type) (GaussianBlur : image pixel -> result (image pixel))
         (YOLO : string -> result (detector pixel)) (g : PanMasking.globals pixel),
    let '((body, status), g') := PanMaskingEndpoints.health_check YOLO g in
    (status = 200 /\ body = Healthy true /\
     (exists m, PanMasking.model g' = Some m /\
                (PanMasking.model g = Some m \/
                 PanMasking.model g = None /\ YOLO PanMasking.MODEL_PATH = Ok m)) /\
     forall u, (PanMasking.mask_pan_document GaussianBlur YOLO u g').2 = g') \/
    (status = 500 /\ g' = g /\ PanMasking.model g = None /\
     exists e, YOLO PanMasking.MODEL_PATH = Raise e /\ body = Unhealthy e).
Proof.
  intros pixel GaussianBlur YOLO g.
  assert (forall m u,
             (PanMasking.mask_pan_document GaussianBlur YOLO u
                (PanMasking.mkGlobals pixel (Some m))).2
             = PanMasking.mkGlobals pixel (Some m)) as Hkept.
  { intros m u.
    refine (mask_endpoint_globals
              (fun s s' : PanMasking.globals pixel => PanMasking.model s = Some m -> s' = s)
              _ _ _ _ _ u (PanMasking.mkGlobals pixel (Some m)) _ eq_refl).
    - done.
    - intros s1 s2 s3 H12 H23 Hm. rewrite (H12 Hm) in H23. exact (H23 Hm).
    - intros img s Hm. unfold PanMasking.mask_pan_in_image.
      rewrite mask_clipped_globals. unfold PanMasking.load_model, load_global.
      by rewrite Hm. }
  unfold PanMaskingEndpoints.health_check, PanMasking.load_model, load_global.
  destruct g as [[m|]]; cbn [PanMasking.model].
  - left. split_and!; [done|done|by exists m; split; [|left]|apply Hkept].
  - destruct (YOLO PanMasking.MODEL_PATH) as [m|e] eqn:Hbuilt.
    + left. split_and!; [done|done|by exists m; split; [|right]|apply Hkept].
    + right. split_and!; [done|done|done|by exists e].
Qed.
